(** * Trend engine of the stock-analysis chatbot (tools/trend.py)

    A shallow embedding of [trend_analysis] and of the helpers it relies on.

    Numbers are IEEE-754 binary64 values ([PrimFloat.float]), which is what
    the NumPy arrays [close], [volume], [highs] and [lows] hold after
    [astype(float)]: a division by zero yields an infinity or a NaN and
    raises nothing, comparisons with NaN are false.  The pandas window
    routines ([ewm], [rolling]) are modelled by the loops of pandas' window
    aggregations: running totals updated value by value. *)

From Stdlib Require Import ZArith List String Ascii Bool Lia.
From Stdlib Require Import PrimFloat Floats Uint63 DecimalString.
Import ListNotations.

Set Warnings "-inexact-float,-register-all".
Local Open Scope string_scope.
Local Open Scope list_scope.
Local Open Scope float_scope.

(** ** JSON values and objects *)

(** One OHLCV bar as the adapters emit it: prices are floats rounded to four
    places, the volume is the integer made of a float, which a float can
    hold again. *)
Record Bar : Type := mkBar {
  time : string;
  open : float;
  high : float;
  low : float;
  close : float;
  volume : Z
}.

(** The values of the records [trend_analysis] serialises with
    [json.dumps]: strings, Python ints, floats, booleans, the bar list of a
    payload handed back unchanged, and nested dicts. *)
Inductive JVal : Type :=
| JStr (s : string)
| JInt (z : Z)
| JNum (f : float)
| JBool (b : bool)
| JBars (bars : list Bar)
| JObj (fields : list (string * JVal)).

(** A Python dict with string keys, in insertion order. *)
Definition Dict (V : Type) : Type := list (string * V).

Definition JObject : Type := Dict JVal.

(** The values the three adapters put in their payloads: [symbol], [error]
    and [period] are strings, [total_bars] an int, [current_price] a float,
    and the period-specific key holds the bar list. *)
Inductive PVal : Type :=
| PStr (s : string)
| PInt (z : Z)
| PNum (f : float)
| PBars (bars : list Bar).

(** [json.loads(raw)]: what an adapter returned, as a dict. *)
Definition Payload : Type := Dict PVal.

(** [d.get(key)], [None] when the key is absent. *)
Fixpoint dict_get {V : Type} (key : string) (d : Dict V) : option V :=
  match d with
  | [] => None
  | (k, v) :: rest => if String.eqb key k then Some v else dict_get key rest
  end.

(** [key in d]. *)
Definition dict_mem {V : Type} (key : string) (d : Dict V) : bool :=
  match dict_get key d with Some _ => true | None => false end.

(** A payload written back by [json.dumps(data)]. *)
Definition json_of_pval (v : PVal) : JVal :=
  match v with
  | PStr s => JStr s
  | PInt z => JInt z
  | PNum f => JNum f
  | PBars bars => JBars bars
  end.

Definition json_of_payload (data : Payload) : JObject :=
  map (fun kv => (fst kv, json_of_pval (snd kv))) data.

(** ** Exceptions caught by the outer [except Exception] *)

Inductive Exn : Type :=
| TypeError_no_len (ty : string)
| ValueError_frame_constructor.

(** [str(e)]. *)
Definition str_exn (e : Exn) : string :=
  match e with
  | TypeError_no_len ty =>
      String.append "object of type '" (String.append ty "' has no len()")
  | ValueError_frame_constructor => "DataFrame constructor not properly called!"
  end.

(** ** Strings *)

(** [str.upper].  A symbol is modelled as a string of ASCII characters, as
    ticker symbols are: the letters a-z are raised and every other character
    is kept.  Python's case mapping of characters outside ASCII is not
    modelled. *)
Definition upper_ascii (c : ascii) : ascii :=
  let n := nat_of_ascii c in
  if andb (Nat.leb 97 n) (Nat.leb n 122) then ascii_of_nat (n - 32) else c.

Fixpoint str_upper (s : string) : string :=
  match s with
  | EmptyString => EmptyString
  | String c rest => String (upper_ascii c) (str_upper rest)
  end.

(** ** Scalars *)

(** Python's [x > y], [x != y] on float64. *)
Definition gtb (x y : float) : bool := PrimFloat.ltb y x.
Definition neqb (x y : float) : bool := negb (PrimFloat.eqb x y).

Definition nan : float := PrimFloat.nan.

(** [astype(float)] on a column of integers: the nearest float, ties to
    even.  The volumes of the adapters come from floats and are within the
    range of a float; an integer beyond it is not modelled. *)
Definition float_of_Z (z : Z) : float :=
  SF2Prim (binary_normalize prec emax z 0 false).

Definition float_of_nat (n : nat) : float := float_of_Z (Z.of_nat n).

(** [numpy.rint]: nearest integer, ties to even, the sign kept.  Below 2^52
    in magnitude the sum with 2^52 is rounded to an integer by the addition
    itself. *)
Definition two52 : float := 4503599627370496.

Definition rint (x : float) : float :=
  if PrimFloat.ltb (PrimFloat.abs x) two52 then
    if PrimFloat.get_sign x then - ((- x + two52) - two52)
    else (x + two52) - two52
  else x.

Fixpoint pow10 (n : nat) : float :=
  match n with
  | O => 1
  | S m => 10 * pow10 m
  end.

(** [round(x, ndigits)] on a float64 scalar: scale, [rint], scale back. *)
Definition round_nd (x : float) (ndigits : nat) : float :=
  rint (x * pow10 ndigits) / pow10 ndigits.

(** ** Arrays and pandas series *)

(** [a[-1]], [a[0]] and [s.iloc[-2]]; the fallback stands for the
    [IndexError] of an array too short, which the bar-count guard excludes. *)
Definition first_of (a : list float) : float := hd nan a.
Definition last_of (a : list float) : float := last a nan.
Definition iloc_m2 (a : list float) : float := last (removelast a) nan.

(** [a[-n:]]. *)
Definition tail_slice {A : Type} (n : nat) (a : list A) : list A :=
  skipn (List.length a - n) a.

(** What the window routines of pandas receive: the values of the series
    with every infinity replaced by NaN. *)
Definition prep_value (x : float) : float :=
  if PrimFloat.is_infinity x then nan else x.

Definition prep_values (values : list float) : list float :=
  map prep_value values.

(** *** Rolling windows

    [pd.Series(a).rolling(w)] with the default [min_periods = w], for the
    windows of 14 and 20 used here.  pandas slides the window over the
    series and keeps running totals: the value that leaves the window is
    removed, the new one is added, both with Kahan's compensated sums; NaN
    values are passed over; and a count of equal consecutive values lets a
    window of equal values give that value as its mean and 0 as its
    variance, exactly. *)

(** What both aggregations keep of the window: its values, oldest first
    (pandas keeps the bounds [start[i]] and [end[i]] instead), the number of
    values that are not NaN, the length of the run of equal values the last
    one ends, and that last value. *)
Record Tally : Type := mkTally {
  window : list float;
  nobs : nat;
  num_consecutive_same_value : nat;
  prev_value : float
}.

Definition tally_start (first : float) : Tally := mkTally [] 0 0 first.

Definition window_full (w : nat) (t : Tally) : bool :=
  Nat.eqb (List.length (window t)) w.

Definition tally_add (val : float) (t : Tally) : Tally :=
  if PrimFloat.eqb val val then
    mkTally (window t ++ [val]) (S (nobs t))
            (if PrimFloat.eqb val (prev_value t)
             then S (num_consecutive_same_value t) else 1%nat)
            val
  else mkTally (window t ++ [val]) (nobs t) (num_consecutive_same_value t)
               (prev_value t).

Definition tally_remove (t : Tally) : Tally :=
  match window t with
  | [] => t
  | val :: rest =>
      mkTally rest (if PrimFloat.eqb val val then Nat.pred (nobs t) else nobs t)
              (num_consecutive_same_value t) (prev_value t)
  end.

(** The value that leaves the window when it is full. *)
Definition leaving (w : nat) (t : Tally) : option float :=
  if window_full w t then head (window t) else None.

Definition tally_step (w : nat) (t : Tally) (val : float) : Tally :=
  tally_add val (if window_full w t then tally_remove t else t).

(** [signbit]. *)
Definition signbit (x : float) : bool := PrimFloat.get_sign x.

(** The running totals of [roll_mean]. *)
Record MeanSums : Type := mkMeanSums {
  sum_x : float;
  neg_ct : nat;
  mean_compensation_add : float;
  mean_compensation_remove : float
}.

Definition add_mean (val : float) (s : MeanSums) : MeanSums :=
  if PrimFloat.eqb val val then
    let y := val - mean_compensation_add s in
    let t := sum_x s + y in
    mkMeanSums t (if signbit val then S (neg_ct s) else neg_ct s)
               (t - sum_x s - y) (mean_compensation_remove s)
  else s.

Definition remove_mean (val : float) (s : MeanSums) : MeanSums :=
  if PrimFloat.eqb val val then
    let y := - val - mean_compensation_remove s in
    let t := sum_x s + y in
    mkMeanSums t (if signbit val then Nat.pred (neg_ct s) else neg_ct s)
               (mean_compensation_add s) (t - sum_x s - y)
  else s.

Definition calc_mean (minp : nat) (t : Tally) (s : MeanSums) : float :=
  if andb (Nat.leb minp (nobs t)) (Nat.ltb 0 (nobs t)) then
    let result := sum_x s / float_of_nat (nobs t) in
    if Nat.leb (nobs t) (num_consecutive_same_value t) then prev_value t
    else if andb (Nat.eqb (neg_ct s) 0) (PrimFloat.ltb result 0) then 0
    else if andb (Nat.eqb (neg_ct s) (nobs t)) (gtb result 0) then 0
    else result
  else nan.

Definition mean_step (w : nat) (state : Tally * MeanSums) (val : float)
  : Tally * MeanSums :=
  let '(t, s) := state in
  (tally_step w t val,
   add_mean val (match leaving w t with
                 | Some old => remove_mean old s
                 | None => s
                 end)).

Fixpoint roll_mean (w : nat) (state : Tally * MeanSums) (values : list float)
  : list float :=
  match values with
  | [] => []
  | val :: rest =>
      let state' := mean_step w state val in
      calc_mean w (fst state') (snd state') :: roll_mean w state' rest
  end.

(** [pd.Series(a).rolling(w).mean()]. *)
Definition rolling_mean (w : nat) (a : list float) : list float :=
  let values := prep_values a in
  roll_mean w (tally_start (hd nan values), mkMeanSums 0 0 0 0) values.

(** The running totals of [roll_var]: Welford's mean and sum of squared
    deviations. *)
Record VarSums : Type := mkVarSums {
  mean_x : float;
  ssqdm_x : float;
  var_compensation_add : float;
  var_compensation_remove : float
}.

(** [add_var], with [n] the number of observations once [val] is counted. *)
Definition add_var (val : float) (n : nat) (s : VarSums) : VarSums :=
  if PrimFloat.eqb val val then
    let prev_mean := mean_x s - var_compensation_add s in
    let y := val - var_compensation_add s in
    let t := y - mean_x s in
    let mean' := mean_x s + t / float_of_nat n in
    mkVarSums mean' (ssqdm_x s + (val - prev_mean) * (val - mean'))
              (t + mean_x s - y) (var_compensation_remove s)
  else s.

(** [remove_var], with [n] the number of observations left. *)
Definition remove_var (val : float) (n : nat) (s : VarSums) : VarSums :=
  if PrimFloat.eqb val val then
    match n with
    | O => mkVarSums 0 0 (var_compensation_add s) (var_compensation_remove s)
    | S _ =>
        let prev_mean := mean_x s - var_compensation_remove s in
        let y := val - var_compensation_remove s in
        let t := y - mean_x s in
        let mean' := mean_x s - t / float_of_nat n in
        mkVarSums mean' (ssqdm_x s - (val - prev_mean) * (val - mean'))
                  (var_compensation_add s) (t + mean_x s - y)
    end
  else s.

Definition calc_var (minp ddof : nat) (t : Tally) (s : VarSums) : float :=
  if andb (Nat.leb minp (nobs t)) (Nat.ltb ddof (nobs t)) then
    if orb (Nat.eqb (nobs t) 1)
           (Nat.leb (nobs t) (num_consecutive_same_value t))
    then 0
    else ssqdm_x s / (float_of_nat (nobs t) - float_of_nat ddof)
  else nan.

Definition var_step (w : nat) (state : Tally * VarSums) (val : float)
  : Tally * VarSums :=
  let '(t, s) := state in
  let t' := tally_step w t val in
  (t',
   add_var val (nobs t')
     (match leaving w t with
      | Some old => remove_var old (nobs (tally_remove t)) s
      | None => s
      end)).

Fixpoint roll_var (w ddof : nat) (state : Tally * VarSums)
    (values : list float) : list float :=
  match values with
  | [] => []
  | val :: rest =>
      let state' := var_step w state val in
      calc_var w ddof (fst state') (snd state') :: roll_var w ddof state' rest
  end.

(** [zsqrt]: the square root, 0 where the variance came out negative. *)
Definition zsqrt (x : float) : float :=
  if PrimFloat.ltb x 0 then 0 else PrimFloat.sqrt x.

(** [pd.Series(a).rolling(w).std()], sample deviation ([ddof = 1]). *)
Definition rolling_std (w : nat) (a : list float) : list float :=
  let values := prep_values a in
  map zsqrt
    (roll_var w 1 (tally_start (hd nan values), mkVarSums 0 0 0 0) values).

(** The values of a window that are not NaN. *)
Definition observations (values : list float) : list float :=
  filter (fun x => PrimFloat.eqb x x) values.

(** The tally keeps the window and counts its observations. *)
Definition tally_ok (w : nat) (t : Tally) : Prop :=
  nobs t = List.length (observations (window t)) /\
  (List.length (window t) <= w)%nat.

(** The window ends with [j] values [c], and the tally knows of the run. *)
Definition tally_run (c : float) (j : nat) (t : Tally) : Prop :=
  exists pre,
    window t = pre ++ repeat c j /\
    ((1 <= j)%nat ->
     prev_value t = c /\ (j <= num_consecutive_same_value t)%nat).

(** *** Exponentially weighted means *)

(** The smoothing factor of [ewm(span=...)]: pandas turns the span into a
    centre of mass, [com = (span - 1) / 2], and takes
    [alpha = 1 / (1 + com)]. *)
Definition com_of_span (span : nat) : float := (float_of_nat span - 1) / 2.

Definition alpha_of_span (span : nat) : float := 1 / (1 + com_of_span span).

(** One turn of the loop of [ewm(...).mean()] on the running mean
    [weighted] and the weight [old_wt] of the past: a NaN value is passed
    over (the past still fades, [ignore_na] being off), the first value
    that is not NaN starts the mean, and a value equal to the running mean
    leaves it as it is. *)
Definition ewm_update (alpha : float) (adjust : bool)
    (state : float * float) (cur : float) : float * float :=
  let '(weighted, old_wt) := state in
  let old_wt_factor := 1 - alpha in
  let new_wt := if adjust then 1 else alpha in
  let is_observation := PrimFloat.eqb cur cur in
  if PrimFloat.eqb weighted weighted then
    let old_wt := old_wt * old_wt_factor in
    if is_observation then
      (if neqb weighted cur
       then (old_wt * weighted + new_wt * cur) / (old_wt + new_wt)
       else weighted,
       if adjust then old_wt + new_wt else 1)
    else (weighted, old_wt)
  else if is_observation then (cur, old_wt)
  else (weighted, old_wt).

Fixpoint ewm_loop (alpha : float) (adjust : bool) (state : float * float)
    (values : list float) : list float :=
  match values with
  | [] => []
  | cur :: rest =>
      let state' := ewm_update alpha adjust state cur in
      fst state' :: ewm_loop alpha adjust state' rest
  end.

(** [pd.Series(a).ewm(span=span, adjust=adjust).mean()]: with
    [adjust=False] the mean follows [y_t = (1 - alpha) y_(t-1) + alpha x_t],
    with [adjust=True], the default, it is the average of the values seen
    with weights [(1 - alpha)^i], newest first. *)
Definition ewm_mean (span : nat) (adjust : bool) (a : list float)
  : list float :=
  match prep_values a with
  | [] => []
  | x0 :: rest => x0 :: ewm_loop (alpha_of_span span) adjust (x0, 1) rest
  end.

(** Pointwise [s1 - s2] of two series. *)
Fixpoint series_sub (s1 s2 : list float) : list float :=
  match s1, s2 with
  | x :: r1, y :: r2 => (x - y) :: series_sub r1 r2
  | _, _ => []
  end.

(** [np.diff]. *)
Fixpoint diff (a : list float) : list float :=
  match a with
  | x :: ((y :: _) as rest) => (y - x) :: diff rest
  | _ => []
  end.

(** The builtins [max] and [min] over a non-empty sequence: the running
    extreme is replaced on a strict comparison. *)
Definition py_max (a : list float) : float :=
  match a with
  | [] => nan
  | x :: rest => fold_left (fun m y => if gtb y m then y else m) rest x
  end.

Definition py_min (a : list float) : float :=
  match a with
  | [] => nan
  | x :: rest => fold_left (fun m y => if PrimFloat.ltb y m then y else m) rest x
  end.

(** ** The three adapters, as calls to the outside *)

(** [price_ohlcv_weekly_hourly], [price_ohlcv_month_hourly] and
    [price_ohlcv_200d_daily] query the market-data provider; each returns the
    [json.dumps] of a dict, read back here as a [Payload]. *)
Inductive Fetcher : Type :=
| price_ohlcv_weekly_hourly
| price_ohlcv_month_hourly
| price_ohlcv_200d_daily.

(** A computation that may call a fetcher and continue with its payload. *)
Inductive Prog (A : Type) : Type :=
| Ret (a : A)
| Call (f : Fetcher) (symbol : string) (k : Payload -> Prog A).

Arguments Ret {A} a.
Arguments Call {A} f symbol k.

(** The provider: a state [W] of the outside world and the answer of each
    fetcher in it. *)
Definition Adapter (W : Type) : Type :=
  W -> Fetcher -> string -> Payload * W.

(** Running a computation against a provider: the value returned, the world
    afterwards and the calls made, oldest first. *)
Fixpoint run {W A : Type} (ad : Adapter W) (w : W) (p : Prog A)
  : A * W * list (Fetcher * string) :=
  match p with
  | Ret a => (a, w, [])
  | Call f symbol k =>
      let '(data, w') := ad w f symbol in
      let '(a, w'', calls) := run ad w' (k data) in
      (a, w'', (f, symbol) :: calls)
  end.

Definition output {W A : Type} (r : A * W * list (Fetcher * string)) : A :=
  fst (fst r).

Definition calls_made {W A : Type} (r : A * W * list (Fetcher * string))
  : list (Fetcher * string) :=
  snd r.

(** ** Indicators *)

(** A value that is a Python int on one path and a float on another. *)
Inductive Num : Type :=
| NInt (z : Z)
| NFloat (f : float).

Definition float_of_num (n : Num) : float :=
  match n with
  | NInt z => float_of_Z z
  | NFloat f => f
  end.

(** [round(n, ndigits)]: an int is returned as it is. *)
Definition round_num (n : Num) (ndigits : nat) : JVal :=
  match n with
  | NInt z => JInt z
  | NFloat f => JNum (round_nd f ndigits)
  end.

(** 1. Price change and direction. *)
Definition pct_change (close : list float) : float :=
  (last_of close - first_of close) / first_of close * 100.

(** 2. EMA crossover (9 and 21). *)
Definition ema9 (close : list float) : float :=
  last_of (ewm_mean 9 false close).

Definition ema21 (close : list float) : float :=
  last_of (ewm_mean 21 false close).

Definition ema_trend (close : list float) : string :=
  if gtb (ema9 close) (ema21 close) then "bullish" else "bearish".

(** 3. MACD. *)
Definition exp1 (close : list float) : list float := ewm_mean 12 true close.
Definition exp2 (close : list float) : list float := ewm_mean 26 true close.

Definition macd_line (close : list float) : list float :=
  series_sub (exp1 close) (exp2 close).

Definition signal_line (close : list float) : list float :=
  ewm_mean 9 true (macd_line close).

Definition macd_hist (close : list float) : list float :=
  series_sub (macd_line close) (signal_line close).

Definition macd_signal (close : list float) : string :=
  if andb (gtb (last_of (macd_line close)) (last_of (signal_line close)))
          (gtb (last_of (macd_hist close)) (iloc_m2 (macd_hist close)))
  then "bullish" else "bearish".

(** 4. RSI (14). *)
Definition delta (close : list float) : list float := diff close.

Definition gain (close : list float) : list float :=
  map (fun d => if gtb d 0 then d else 0) (delta close).

Definition loss (close : list float) : list float :=
  map (fun d => if PrimFloat.ltb d 0 then - d else 0) (delta close).

Definition avg_gain (close : list float) : float :=
  last_of (rolling_mean 14 (gain close)).

Definition avg_loss (close : list float) : float :=
  last_of (rolling_mean 14 (loss close)).

(** The int [100] of the [else] branch takes part in float arithmetic only,
    where it is the float [100].  On that branch the RSI is the Python float
    [100 - 100 / 101], which the builtin [round] and NumPy's round to the
    same 99.01. *)
Definition rs (close : list float) : float :=
  if neqb (avg_loss close) 0 then avg_gain close / avg_loss close else 100.

Definition rsi (close : list float) : Num :=
  if gtb (rs close) 0 then NFloat (100 - 100 / (1 + rs close))
  else if PrimFloat.eqb (avg_gain close) 0 then NInt 0 else NInt 100.

(** 5. Bollinger bands. *)
Definition sma20 (close : list float) : float :=
  last_of (rolling_mean 20 close).

Definition std20 (close : list float) : float :=
  last_of (rolling_std 20 close).

Definition upper (close : list float) : float :=
  sma20 close + 2 * std20 close.

Definition lower (close : list float) : float :=
  sma20 close - 2 * std20 close.

Definition bb_width (close : list float) : float :=
  (upper close - lower close) / sma20 close.

Definition bb_position (close : list float) : float :=
  if neqb (upper close) (lower close)
  then (last_of close - lower close) / (upper close - lower close)
  else 0.5.

Definition bb_squeeze (close : list float) : bool :=
  PrimFloat.ltb (bb_width close) 0.08.

(** 6. Volume trend. *)
Definition vol_sma (volume : list float) : float :=
  last_of (rolling_mean 20 volume).

Definition vol_ratio (volume : list float) : float :=
  if gtb (vol_sma volume) 0 then last_of volume / vol_sma volume else 1.

(** 7. Support and resistance. *)
Definition resistance (highs : list float) : float :=
  py_max (tail_slice 20 highs).

Definition support (lows : list float) : float :=
  py_min (tail_slice 20 lows).

(** 8. Trend strength score (0-100). *)
Definition trend_strength_score
    (pct_change : float) (ema_trend macd_signal : string) (rsi : Num)
    (close_last sma20 vol_ratio : float) : Z :=
  let score := 50%Z in
  let score := (score + (if gtb pct_change 3 then 15
                         else if PrimFloat.ltb pct_change (-3) then -15
                         else 0))%Z in
  let score := (score + (if String.eqb ema_trend "bullish" then 15 else -15))%Z in
  let score := (score + (if String.eqb macd_signal "bullish" then 15 else -15))%Z in
  let score := (score + (if gtb (float_of_num rsi) 55 then 10
                         else if PrimFloat.ltb (float_of_num rsi) 45 then -10
                         else 0))%Z in
  let score := (score + (if gtb close_last sma20 then 10 else -10))%Z in
  let score := (score + (if gtb vol_ratio 1.3 then 8 else -8))%Z in
  Z.max 0 (Z.min 100 score).

Definition score (close volume : list float) : Z :=
  trend_strength_score (pct_change close) (ema_trend close) (macd_signal close)
    (rsi close) (last_of close) (sma20 close) (vol_ratio volume).

(** 9. Final verdict: the label and the confidence. *)
Definition verdict (score : Z) : string * string :=
  if (score >=? 75)%Z then ("VERY BULLISH", "High")
  else if (score >=? 60)%Z then ("BULLISH", "Moderate-High")
  else if (score >=? 40)%Z then ("NEUTRAL", "Low")
  else if (score >=? 25)%Z then ("BEARISH", "Moderate-High")
  else ("VERY BEARISH", "High").

Definition bollinger_position (bb_position : float) : string :=
  if gtb bb_position 0.8 then "near top"
  else if PrimFloat.ltb bb_position 0.2 then "near bottom"
  else "middle".

(** [abs(close[-1] - level) / close[-1] < 0.01]. *)
Definition near_level (close_last level : float) : bool :=
  PrimFloat.ltb (PrimFloat.abs (close_last - level) / close_last) 0.01.

(** ** The record of a completed analysis *)

(** The columns of [pd.DataFrame(bars)] read by the analysis. *)
Definition close_column (bars : list Bar) : list float := map close bars.
Definition volume_column (bars : list Bar) : list float :=
  map (fun b => float_of_Z (volume b)) bars.
Definition high_column (bars : list Bar) : list float := map high bars.
Definition low_column (bars : list Bar) : list float := map low bars.

Definition result (symbol period : string) (bars : list Bar) : JObject :=
  let close := close_column bars in
  let volume := volume_column bars in
  let highs := high_column bars in
  let lows := low_column bars in
  let score := score close volume in
  [ ("symbol", JStr symbol);
    ("analysis_period", JStr (String.append "Last " period));
    ("current_price", JNum (round_nd (last_of close) 4));
    ("price_change_percent", JNum (round_nd (pct_change close) 2));
    ("trend_verdict", JStr (fst (verdict score)));
    ("confidence", JStr (snd (verdict score)));
    ("trend_strength_score", JInt score);
    ("key_signals", JObj
       [ ("ema_9_21", JStr (str_upper (ema_trend close)));
         ("macd", JStr (str_upper (macd_signal close)));
         ("rsi_14", round_num (rsi close) 2);
         ("bollinger_position", JStr (bollinger_position (bb_position close)));
         ("bb_squeeze", JStr (if bb_squeeze close then "YES" else "NO"));
         ("volume_spike", JBool (gtb (vol_ratio volume) 1.5));
         ("near_resistance",
            JBool (near_level (last_of close) (resistance highs)));
         ("near_support",
            JBool (near_level (last_of close) (support lows))) ]);
    ("levels", JObj
       [ ("resistance", JNum (round_nd (resistance highs) 4));
         ("support", JNum (round_nd (support lows) 4));
         ("sma_20", JNum (round_nd (sma20 close) 4)) ]) ].

(** ** Diagnostics *)

Definition period_error : JObject :=
  [ ("error", JStr "period must be '7d', '30d', or '200d'") ].

Definition low_bar_warning (symbol : string) : JObject :=
  [ ("symbol", JStr symbol);
    ("warning", JStr "Low bar count, accuracy reduced") ].

(** The record of the [except Exception as e] handler. *)
Definition exception_record (symbol : string) (e : Exn) : JObject :=
  [ ("symbol", JStr symbol); ("error", JStr (str_exn e)) ].

(** ** [trend_analysis] *)

(** [len(bars)] on what [data.get(key, [])] returned. *)
Definition py_len (v : PVal) : Exn + nat :=
  match v with
  | PStr s => inr (String.length s)
  | PBars bars => inr (List.length bars)
  | PInt _ => inl (TypeError_no_len "int")
  | PNum _ => inl (TypeError_no_len "float")
  end.

(** The body of the [try] once the payload has been read: the record
    returned, or the exception raised. *)
Definition analyse (symbol period key : string) (data : Payload)
  : Exn + JObject :=
  if dict_mem "error" data then inr (json_of_payload data)
  else
    let bars := match dict_get key data with
                | Some v => v
                | None => PBars []
                end in
    match py_len bars with
    | inl e => inl e
    | inr n =>
        if Nat.ltb n 30 then inr (low_bar_warning symbol)
        else match bars with
             | PBars bs => inr (result symbol period bs)
             | _ => inl ValueError_frame_constructor
             end
    end.

(** [except Exception as e]. *)
Definition handle (symbol : string) (r : Exn + JObject) : JObject :=
  match r with
  | inr record => record
  | inl e => exception_record symbol e
  end.

(** The [if]/[elif] chain on [period]: the adapter to call and the key of
    its payload that holds the bars; [None] stands for the [else] branch. *)
Definition source_of_period (period : string) : option (Fetcher * string) :=
  if String.eqb period "7d" then
    Some (price_ohlcv_weekly_hourly, "hourly_ohlcv_last_week")
  else if String.eqb period "30d" then
    Some (price_ohlcv_month_hourly, "hourly_ohlcv_1month")
  else if String.eqb period "200d" then
    Some (price_ohlcv_200d_daily, "daily_ohlcv_200d")
  else None.

Definition trend_analysis (symbol period : string) : Prog JObject :=
  let symbol := str_upper symbol in
  match source_of_period period with
  | None => Ret period_error
  | Some (fetch, key) =>
      Call fetch symbol
        (fun data => Ret (handle symbol (analyse symbol period key data)))
  end.

(** ** Reading the records returned *)

(** A field of the [key_signals] block. *)
Definition key_signal (name : string) (record : JObject) : option JVal :=
  match dict_get "key_signals" record with
  | Some (JObj signals) => dict_get name signals
  | _ => None
  end.

(** The input of a completed analysis: the adapter selected by [period]
    answered, in world [w], with a payload that has no ["error"] field and
    holds the bar list [bars] under the period's key. *)
Definition delivers {W : Type} (ad : Adapter W) (w : W)
    (symbol period : string) (bars : list Bar) : Prop :=
  exists fetch key,
    source_of_period period = Some (fetch, key) /\
    dict_mem "error" (fst (ad w fetch (str_upper symbol))) = false /\
    dict_get key (fst (ad w fetch (str_upper symbol))) = Some (PBars bars).

(** ** The conventions of the specification, stated on their own *)

Module Stated.

(** The verdict table, rows from the highest threshold down; the first row
    whose threshold the score reaches gives the verdict and the confidence. *)
Definition threshold_table : list (Z * (string * string)) :=
  [ (75%Z, ("VERY BULLISH", "High"));
    (60%Z, ("BULLISH", "Moderate-High"));
    (40%Z, ("NEUTRAL", "Low"));
    (25%Z, ("BEARISH", "Moderate-High")) ].

Fixpoint first_match (rows : list (Z * (string * string)))
    (otherwise : string * string) (score : Z) : string * string :=
  match rows with
  | [] => otherwise
  | (threshold, row) :: rest =>
      if (threshold <=? score)%Z then row
      else first_match rest otherwise score
  end.

Definition verdict_of (score : Z) : string * string :=
  first_match threshold_table ("VERY BEARISH", "High") score.

(** The rows of the score table, one delta per condition. *)
Definition delta_pct_change (pct : float) : Z :=
  if PrimFloat.ltb 3 pct then 15%Z
  else if PrimFloat.ltb pct (-3) then (-15)%Z else 0%Z.

Definition delta_signal (label : string) : Z :=
  if String.eqb label "bullish" then 15%Z
  else if String.eqb label "bearish" then (-15)%Z else 0%Z.

Definition delta_rsi (r : float) : Z :=
  if PrimFloat.ltb 55 r then 10%Z
  else if PrimFloat.ltb r 45 then (-10)%Z else 0%Z.

Definition delta_sma (close_last sma : float) : Z :=
  if PrimFloat.ltb sma close_last then 10%Z else (-10)%Z.

Definition delta_volume (ratio : float) : Z :=
  if PrimFloat.ltb 1.3 ratio then 8%Z else (-8)%Z.

Definition clamp (lo hi x : Z) : Z :=
  if (x <? lo)%Z then lo else if (hi <? x)%Z then hi else x.

Definition composite_score (close volume : list float) : Z :=
  clamp 0 100
    (50 + fold_right Z.add 0%Z
            [ delta_pct_change (pct_change close);
              delta_signal (ema_trend close);
              delta_signal (macd_signal close);
              delta_rsi (float_of_num (rsi close));
              delta_sma (last_of close) (sma20 close);
              delta_volume (vol_ratio volume) ])%Z.

(** The exponential moving average as the specification states it for every
    EMA: [alpha = 2 / (span + 1)], the first value as seed, no bias
    adjustment. *)
Definition ema (span : nat) (values : list float) : list float :=
  let alpha := 2 / (float_of_nat span + 1) in
  match values with
  | [] => []
  | seed :: rest =>
      let step acc x :=
        let previous := last acc seed in
        acc ++ [(1 - alpha) * previous + alpha * x] in
      fold_left step rest [seed]
  end.

Definition macd_line (close : list float) : list float :=
  series_sub (ema 12 close) (ema 26 close).

Definition signal_line (close : list float) : list float :=
  ema 9 (macd_line close).

Definition macd_hist (close : list float) : list float :=
  series_sub (macd_line close) (signal_line close).

Definition macd_signal (close : list float) : string :=
  if andb (PrimFloat.ltb (last_of (signal_line close))
                         (last_of (macd_line close)))
          (PrimFloat.ltb (iloc_m2 (macd_hist close))
                         (last_of (macd_hist close)))
  then "bullish" else "bearish".

End Stated.

(** ** The adapters *)

(** The index of a row of [ticker.history(...)]: a pandas timestamp, whose
    year has four digits (pandas timestamps start in 1677 and end in 2262). *)
Record Timestamp : Type := mkTimestamp {
  year : nat;
  month : nat;
  day : nat;
  hour : nat;
  minute : nat
}.

Definition decimal (n : nat) : string :=
  NilEmpty.string_of_uint (Nat.to_uint n).

(** A two-digit field of [strftime]: [%m], [%d], [%H], [%M]. *)
Definition pad2 (n : nat) : string :=
  if Nat.ltb n 10 then String.append "0" (decimal n) else decimal n.

(** [strftime("%Y-%m-%d")]. *)
Definition strftime_day (ts : Timestamp) : string :=
  String.append (decimal (year ts))
    (String.append "-"
       (String.append (pad2 (month ts))
          (String.append "-" (pad2 (day ts))))).

(** [strftime("%Y-%m-%d %H:%M")]. *)
Definition strftime_minute (ts : Timestamp) : string :=
  String.append (strftime_day ts)
    (String.append " "
       (String.append (pad2 (hour ts))
          (String.append ":" (pad2 (minute ts))))).

(** One row of the frame: the index and the five columns read. *)
Record Row : Type := mkRow {
  idx : Timestamp;
  Open : float;
  High : float;
  Low : float;
  Close : float;
  Volume : float
}.

(** What [ticker.history(interval=..., period=...)] did: it raised, or it
    returned a frame. *)
Inductive History : Type :=
| Raised (message : string)
| Frame (data : list Row).

(** [yf.Ticker(symbol)]: the [history] method, by interval and period. *)
Definition Ticker : Type := string -> string -> History.

(** [pd.isna] on a float. *)
Definition isna (x : float) : bool := PrimFloat.is_nan x.

(** Nearest integer of [num / den] for [den > 0], ties to even. *)
Definition div_half_even (num den : Z) : Z :=
  let q := (num / den)%Z in
  let r := (num mod den)%Z in
  if (2 * r <? den)%Z then q
  else if (den <? 2 * r)%Z then (q + 1)%Z
  else if Z.even q then q else (q + 1)%Z.

(** The builtin [round(x, ndigits)] on a Python float: the decimal with
    [ndigits] places nearest to the exact value of [x], ties to even, and
    then the float nearest to that decimal.  Zeros, infinities and NaN are
    returned unchanged. *)
Definition py_round (x : float) (ndigits : nat) : float :=
  match Prim2SF x with
  | S754_finite s m e =>
      let p := (10 ^ Z.of_nat ndigits)%Z in
      let n := match e with
               | Zneg k => div_half_even (Zpos m * p) (2 ^ Zpos k)
               | _ => (Zpos m * p * 2 ^ e)%Z
               end in
      match n, p with
      | Zpos n', Zpos p' =>
          SF2Prim (SFdiv prec emax (S754_finite s n' 0) (S754_finite false p' 0))
      | _, _ => if s then (- 0)%float else 0
      end
  | _ => x
  end.

(** [int(x)] on a float: truncation toward zero; infinities and NaN raise. *)
Definition py_int (x : float) : string + Z :=
  match Prim2SF x with
  | S754_zero _ => inr 0%Z
  | S754_infinity _ => inl "cannot convert float infinity to integer"
  | S754_nan => inl "cannot convert float NaN to integer"
  | S754_finite s m e =>
      let magnitude := match e with
                       | Zneg k => (Zpos m / 2 ^ Zpos k)%Z
                       | _ => (Zpos m * 2 ^ e)%Z
                       end in
      inr (if s then (- magnitude)%Z else magnitude)
  end.

(** The dict appended for one row: the stamp, the four prices rounded to
    four places and [int(row["Volume"]) if not pd.isna(row["Volume"]) else 0];
    only the [int] can raise. *)
Definition bar_of_row (fmt : Timestamp -> string) (row : Row) : string + Bar :=
  match (if isna (Volume row) then inr 0%Z else py_int (Volume row)) with
  | inl message => inl message
  | inr v =>
      inr (mkBar (fmt (idx row))
                 (py_round (Open row) 4) (py_round (High row) 4)
                 (py_round (Low row) 4) (py_round (Close row) 4) v)
  end.

(** The [for idx, row in data.iterrows()] loop: rows that fail [keep] are
    skipped, the others appended in order; the first exception ends it. *)
Fixpoint ohlcv_list (keep : Row -> bool) (fmt : Timestamp -> string)
    (data : list Row) : string + list Bar :=
  match data with
  | [] => inr []
  | row :: rest =>
      if keep row then
        match bar_of_row fmt row with
        | inl message => inl message
        | inr bar =>
            match ohlcv_list keep fmt rest with
            | inl message => inl message
            | inr bars => inr (bar :: bars)
            end
        end
      else ohlcv_list keep fmt rest
  end.

(** The rows the loops go on with: [if pd.isna(row["Open"]): continue], and
    for the weekly adapter
    [if pd.isna(row["Open"]) or pd.isna(row["Volume"]): continue]. *)
Definition has_open (row : Row) : bool := negb (isna (Open row)).

Definition has_open_and_volume (row : Row) : bool :=
  negb (orb (isna (Open row)) (isna (Volume row))).

(** [data["Close"].iloc[-1]] of a frame that is not empty. *)
Definition last_close (data : list Row) : float :=
  last (map Close data) nan.

Definition error_payload (symbol message : string) : Payload :=
  [ ("symbol", PStr symbol); ("error", PStr message) ].

Module Adapters.

(** About a month of half-hour bars. *)
Definition price_ohlcv_month_hourly (yf : string -> Ticker) (symbol : string)
  : Payload :=
  let symbol := str_upper symbol in
  match yf symbol "30m" "30d" with
  | Raised message => error_payload symbol message
  | Frame data =>
      match data with
      | [] => error_payload symbol
                "No hourly data found (invalid symbol or market closed)"
      | _ :: _ =>
          match ohlcv_list has_open strftime_minute data with
          | inl message => error_payload symbol message
          | inr bars =>
              [ ("symbol", PStr symbol);
                ("current_price", PNum (py_round (last_close data) 4));
                ("period", PStr "Last 30 days (1-hour bars)");
                ("total_bars", PInt (Z.of_nat (List.length bars)));
                ("hourly_ohlcv_1month", PBars bars) ]
          end
      end
  end.

(** The last seven days of hourly bars. *)
Definition price_ohlcv_weekly_hourly (yf : string -> Ticker) (symbol : string)
  : Payload :=
  let symbol := str_upper symbol in
  match yf symbol "1h" "7d" with
  | Raised message =>
      error_payload symbol (String.append "Failed to fetch data: " message)
  | Frame data =>
      match data with
      | [] => error_payload symbol
                "No hourly OHLCV data found (market closed or invalid symbol?)"
      | _ :: _ =>
          match ohlcv_list has_open_and_volume strftime_minute data with
          | inl message =>
              error_payload symbol
                (String.append "Failed to fetch data: " message)
          | inr [] =>
              error_payload symbol "No valid OHLCV bars after filtering NaNs"
          | inr bars =>
              [ ("symbol", PStr symbol);
                ("current_price", PNum (py_round (last_close data) 4));
                ("hourly_ohlcv_last_week", PBars bars);
                ("total_bars", PInt (Z.of_nat (List.length bars))) ]
          end
      end
  end.

(** The last 200 days of daily bars. *)
Definition price_ohlcv_200d_daily (yf : string -> Ticker) (symbol : string)
  : Payload :=
  let symbol := str_upper symbol in
  match yf symbol "1d" "200d" with
  | Raised message => error_payload symbol message
  | Frame data =>
      match data with
      | [] => error_payload symbol "No daily data found"
      | _ :: _ =>
          match ohlcv_list has_open strftime_day data with
          | inl message => error_payload symbol message
          | inr bars =>
              [ ("symbol", PStr symbol);
                ("current_price", PNum (py_round (last_close data) 4));
                ("period", PStr "Last 200 days (1-day bars)");
                ("total_bars", PInt (Z.of_nat (List.length bars)));
                ("daily_ohlcv_200d", PBars bars) ]
          end
      end
  end.

End Adapters.

(** The adapter behind each [Fetcher]. *)
Definition fetch (yf : string -> Ticker) (f : Fetcher) (symbol : string)
  : Payload :=
  match f with
  | price_ohlcv_weekly_hourly => Adapters.price_ohlcv_weekly_hourly yf symbol
  | price_ohlcv_month_hourly => Adapters.price_ohlcv_month_hourly yf symbol
  | price_ohlcv_200d_daily => Adapters.price_ohlcv_200d_daily yf symbol
  end.

(** The provider made of the three adapters over a market-data service that
    may answer differently as the world moves on. *)
Definition yfinance {W : Type} (yf : W -> string -> Ticker) (next : W -> W)
  : Adapter W :=
  fun w f symbol => (fetch (yf w) f symbol, next w).

(** What each adapter asks of the service, which rows it keeps, how it
    stamps them, under which key it puts the bars and what it says of an
    empty frame. *)
Definition query (f : Fetcher) : string * string :=
  match f with
  | price_ohlcv_weekly_hourly => ("1h", "7d")
  | price_ohlcv_month_hourly => ("30m", "30d")
  | price_ohlcv_200d_daily => ("1d", "200d")
  end.

Definition history_of (yf : string -> Ticker) (f : Fetcher) (symbol : string)
  : History :=
  yf (str_upper symbol) (fst (query f)) (snd (query f)).

Definition kept (f : Fetcher) : Row -> bool :=
  match f with
  | price_ohlcv_weekly_hourly => has_open_and_volume
  | _ => has_open
  end.

Definition stamp (f : Fetcher) : Timestamp -> string :=
  match f with
  | price_ohlcv_200d_daily => strftime_day
  | _ => strftime_minute
  end.

Definition bars_key (f : Fetcher) : string :=
  match f with
  | price_ohlcv_weekly_hourly => "hourly_ohlcv_last_week"
  | price_ohlcv_month_hourly => "hourly_ohlcv_1month"
  | price_ohlcv_200d_daily => "daily_ohlcv_200d"
  end.

Definition no_data_message (f : Fetcher) : string :=
  match f with
  | price_ohlcv_weekly_hourly =>
      "No hourly OHLCV data found (market closed or invalid symbol?)"
  | price_ohlcv_month_hourly =>
      "No hourly data found (invalid symbol or market closed)"
  | price_ohlcv_200d_daily => "No daily data found"
  end.

(** What a bar says of the row it was made of. *)
Definition bar_matches (fmt : Timestamp -> string) (row : Row) (bar : Bar)
  : Prop :=
  time bar = fmt (idx row) /\
  open bar = py_round (Open row) 4 /\
  high bar = py_round (High row) 4 /\
  low bar = py_round (Low row) 4 /\
  close bar = py_round (Close row) 4 /\
  (isna (Volume row) = true -> volume bar = 0%Z) /\
  (isna (Volume row) = false -> py_int (Volume row) = inr (volume bar)).

(** What each adapter returns once its loop has ended with [bars]. *)
Definition payload_of_bars (f : Fetcher) (symbol : string) (data : list Row)
    (bars : list Bar) : Payload :=
  match f with
  | price_ohlcv_weekly_hourly =>
      match bars with
      | [] => error_payload symbol "No valid OHLCV bars after filtering NaNs"
      | _ :: _ =>
          [ ("symbol", PStr symbol);
            ("current_price", PNum (py_round (last_close data) 4));
            ("hourly_ohlcv_last_week", PBars bars);
            ("total_bars", PInt (Z.of_nat (List.length bars))) ]
      end
  | price_ohlcv_month_hourly =>
      [ ("symbol", PStr symbol);
        ("current_price", PNum (py_round (last_close data) 4));
        ("period", PStr "Last 30 days (1-hour bars)");
        ("total_bars", PInt (Z.of_nat (List.length bars)));
        ("hourly_ohlcv_1month", PBars bars) ]
  | price_ohlcv_200d_daily =>
      [ ("symbol", PStr symbol);
        ("current_price", PNum (py_round (last_close data) 4));
        ("period", PStr "Last 200 days (1-day bars)");
        ("total_bars", PInt (Z.of_nat (List.length bars)));
        ("daily_ohlcv_200d", PBars bars) ]
  end.

(** The text an adapter reports for an exception with message [message]. *)
Definition failure_message (f : Fetcher) (message : string) : string :=
  match f with
  | price_ohlcv_weekly_hourly => String.append "Failed to fetch data: " message
  | _ => message
  end.

(** A field of the [levels] block of a record. *)
Definition level (name : string) (record : JObject) : option JVal :=
  match dict_get "levels" record with
  | Some (JObj levels) => dict_get name levels
  | _ => None
  end.

(** ** Sample inputs *)

Module Samples.

(** The stamp of day [i + 1] of a month of daily bars. *)
Definition day_stamp (i : nat) : string :=
  String.append "2024-01-"
    (String (ascii_of_nat (48 + (i + 1) / 10))
       (String (ascii_of_nat (48 + (i + 1) mod 10)) EmptyString)).

(** Daily bars that open, peak, bottom and close at the listed price, with a
    volume of 1000. *)
Definition flat_bar (i : nat) (price : float) : Bar :=
  mkBar (day_stamp i) price price price price 1000.

Fixpoint bars_from (i : nat) (prices : list float) : list Bar :=
  match prices with
  | [] => []
  | p :: rest => flat_bar i p :: bars_from (S i) rest
  end.

Definition bars_of (prices : list float) : list Bar := bars_from 0 prices.

(** A payload of [price_ohlcv_200d_daily]. *)
Definition daily_payload (bars : list Bar) : Payload :=
  [ ("symbol", PStr "TSLA");
    ("current_price", PNum (last_of (close_column bars)));
    ("period", PStr "Last 200 days (1-day bars)");
    ("total_bars", PInt (Z.of_nat (List.length bars)));
    ("daily_ohlcv_200d", PBars bars) ].

(** A provider that answers every call with the same payload. *)
Definition always (data : Payload) : Adapter unit :=
  fun w _ _ => (data, w).

(** A provider that counts the calls it has answered, each with the same
    payload. *)
Definition counting (data : Payload) : Adapter nat :=
  fun n _ _ => (data, S n).

(** The record returned for ["tsla"] over ["200d"] when the provider answers
    with daily bars at the listed closes. *)
Definition analysis_of (prices : list float) : JObject :=
  output (run (always (daily_payload (bars_of prices))) tt
              (trend_analysis "tsla" "200d")).

(** Thirty closes rising by one a day from 100. *)
Definition rising : list float :=
  map (fun i => 100 + float_of_nat i) (seq 0 30).

(** The same with a first close of zero. *)
Definition zero_first : list float :=
  0 :: map (fun i => 100 + float_of_nat i) (seq 1 29).

(** Thirty closes of 100. *)
Definition constant : list float := repeat 100 30.

(** A first close of 200, twenty-eight of 100 and a last one of 101. *)
Definition spike_then_flat : list float :=
  (200 :: repeat 100 28) ++ [101].

(** Twenty-nine closes: one bar short. *)
Definition short : list float := repeat 100 29.

(** A payload without ["error"] and without the bar list. *)
Definition no_bars_payload : Payload :=
  [ ("symbol", PStr "TSLA"); ("current_price", PNum 100);
    ("total_bars", PInt 0) ].

End Samples.

(** Sample frames of the market-data service. *)
Module Frames.

(** Day [i + 1] of January 2024, at 09:30. *)
Definition stamp_of (i : nat) : Timestamp := mkTimestamp 2024 1 (i + 1) 9 30.

(** A row that opens and closes at [price] with a volume of 1000. *)
Definition row_at (i : nat) (price : float) : Row :=
  mkRow (stamp_of i) price price price price 1000.

Fixpoint rows_from (i : nat) (prices : list float) : list Row :=
  match prices with
  | [] => []
  | p :: rest => row_at i p :: rows_from (S i) rest
  end.

(** A service that returns the same frame whatever is asked. *)
Definition serving (data : list Row) : unit -> string -> Ticker :=
  fun _ _ _ _ => Frame data.

(** A service whose every call raises. *)
Definition failing (message : string) : unit -> string -> Ticker :=
  fun _ _ _ _ => Raised message.

Definition same : unit -> unit := fun w => w.

(** Thirty-one rows rising from 100, the second one without an open. *)
Definition rising_with_gap : list Row :=
  row_at 0 100 :: mkRow (stamp_of 1) nan 101 101 101 1000
    :: rows_from 2 (map (fun i => 100 + float_of_nat i) (seq 1 29)).

(** Two rows without an open. *)
Definition all_missing : list Row :=
  [ mkRow (stamp_of 0) nan 100 100 100 1000;
    mkRow (stamp_of 1) nan 101 101 101 1000 ].

(** Thirty rows rising from 101 after a first row that trades at 0.00004,
    less than half of the fourth decimal place. *)
Definition tiny_first : list Row :=
  rows_from 0 (0.00004 :: map (fun i => 100 + float_of_nat i) (seq 1 29)).

(** A row with an infinite volume after a good one. *)
Definition with_infinite_volume : list Row :=
  [ row_at 0 100; mkRow (stamp_of 1) 101 101 101 101 infinity ].

End Frames.

(** More sample series. *)
Module Series.

(** Thirty closes rising ever faster: [100 + i * i]. *)
Definition accelerating : list float :=
  map (fun i => 100 + float_of_nat (i * i)) (seq 0 30).

(** Thirty closes falling ever faster: [1000 - i * i]. *)
Definition collapsing : list float :=
  map (fun i => 1000 - float_of_nat (i * i)) (seq 0 30).

Definition set_volume (v : Z) (b : Bar) : Bar :=
  mkBar (time b) (open b) (high b) (low b) (close b) v.

(** The rising bars, none of them traded. *)
Definition untraded : list Bar :=
  map (set_volume 0) (Samples.bars_of Samples.rising).

(** The rising bars, the last one with five times the usual volume. *)
Definition busy_last : list Bar :=
  removelast (Samples.bars_of Samples.rising)
    ++ [set_volume 5000 (Samples.flat_bar 29 129)].

(** Thirty closes of 100.1, a value that is not a binary fraction. *)
Definition flat : list float := repeat 100.1 30.

(** Ten closes rising from 90 and then twenty of 100.1. *)
Definition settled : list float :=
  map (fun i => 90 + float_of_nat i) (seq 0 10) ++ repeat 100.1 20.

(** A payload with an ["error"] field that holds thirty bars all the same. *)
Definition error_with_bars : Payload :=
  [ ("symbol", PStr "TSLA"); ("error", PStr "rate limited");
    ("daily_ohlcv_200d", PBars (Samples.bars_of Samples.rising)) ].

End Series.

(** ** Running [trend_analysis] *)

Section Run.

Context {W : Type} (ad : Adapter W) (w : W).

(** With a period of the three, one call is made, to the adapter of that
    period, and the record is that of the [try] body on its payload. *)
Lemma run_trend_analysis (symbol period : string) fetch key :
  source_of_period period = Some (fetch, key) ->
  run ad w (trend_analysis symbol period) =
    (handle (str_upper symbol)
       (analyse (str_upper symbol) period key
          (fst (ad w fetch (str_upper symbol)))),
     snd (ad w fetch (str_upper symbol)),
     [(fetch, str_upper symbol)]).
Proof.
  intros Hsrc. unfold trend_analysis. rewrite Hsrc. simpl.
  destruct (ad w fetch (str_upper symbol)) as [data w']. reflexivity.
Qed.

(** With any other period nothing is called. *)
Lemma run_trend_analysis_bad_period (symbol period : string) :
  source_of_period period = None ->
  run ad w (trend_analysis symbol period) = (period_error, w, []).
Proof.
  intros Hsrc. unfold trend_analysis. rewrite Hsrc. reflexivity.
Qed.

End Run.

Lemma analyse_accepted (symbol period key : string) (data : Payload) bars :
  dict_mem "error" data = false ->
  dict_get key data = Some (PBars bars) ->
  (30 <= List.length bars)%nat ->
  analyse symbol period key data = inr (result symbol period bars).
Proof.
  intros Herr Hkey Hlen. unfold analyse. rewrite Herr, Hkey. simpl.
  destruct (Nat.ltb_spec (List.length bars) 30) as [Hlt | _]; [lia | reflexivity].
Qed.

Lemma analyse_low_bars (symbol period key : string) (data : Payload) bars :
  dict_mem "error" data = false ->
  dict_get key data = Some (PBars bars) ->
  (List.length bars < 30)%nat ->
  analyse symbol period key data = inr (low_bar_warning symbol).
Proof.
  intros Herr Hkey Hlen. unfold analyse. rewrite Herr, Hkey. simpl.
  destruct (Nat.ltb_spec (List.length bars) 30) as [_ | Hge]; [reflexivity | lia].
Qed.

Lemma delivers_result {W : Type} (ad : Adapter W) (w : W)
    (symbol period : string) (bars : list Bar) :
  delivers ad w symbol period bars ->
  (30 <= List.length bars)%nat ->
  output (run ad w (trend_analysis symbol period)) =
    result (str_upper symbol) period bars.
Proof.
  intros (fetch & key & Hsrc & Herr & Hkey) Hlen.
  rewrite (run_trend_analysis ad w symbol period fetch key Hsrc).
  unfold output. simpl fst.
  rewrite (analyse_accepted _ _ _ _ bars Herr Hkey Hlen). reflexivity.
Qed.

(** The sample provider delivers its bars for the period ["200d"]. *)
Lemma always_delivers (bars : list Bar) (symbol : string) :
  delivers (Samples.always (Samples.daily_payload bars)) tt symbol "200d" bars.
Proof.
  exists price_ohlcv_200d_daily, "daily_ohlcv_200d". repeat split.
Qed.

(** ** The fields of the record *)

Lemma result_score (symbol period : string) bars :
  dict_get "trend_strength_score" (result symbol period bars) =
    Some (JInt (score (close_column bars) (volume_column bars))).
Proof. reflexivity. Qed.

Lemma result_verdict (symbol period : string) bars :
  dict_get "trend_verdict" (result symbol period bars) =
    Some (JStr (fst (verdict (score (close_column bars) (volume_column bars))))).
Proof. reflexivity. Qed.

Lemma result_confidence (symbol period : string) bars :
  dict_get "confidence" (result symbol period bars) =
    Some (JStr (snd (verdict (score (close_column bars) (volume_column bars))))).
Proof. reflexivity. Qed.

Lemma score_range (close volume : list float) :
  (0 <= score close volume <= 100)%Z.
Proof. unfold score, trend_strength_score. lia. Qed.

Lemma verdict_by_table (s : Z) : verdict s = Stated.verdict_of s.
Proof.
  unfold verdict, Stated.verdict_of, Stated.threshold_table, Stated.first_match.
  rewrite !Z.geb_leb. reflexivity.
Qed.

(** ** The score and the verdict *)

(** C1.  For every bar series of at least 30 bars that passes the guards,
    [trend_analysis] returns a record whose [trend_strength_score] is an
    integer [s] between 0 and 100 and whose [trend_verdict] and [confidence]
    are the row of the threshold table for [s], read from the highest
    threshold down, first match wins (75: VERY BULLISH / High,
    60: BULLISH / Moderate-High, 40: NEUTRAL / Low,
    25: BEARISH / Moderate-High, below: VERY BEARISH / High).  The row is a
    function of [s], so no score is reported with two different verdicts. *)
Theorem trend_analysis_score_and_verdict {W : Type} (ad : Adapter W) (w : W)
    (symbol period : string) (bars : list Bar) :
  delivers ad w symbol period bars ->
  (30 <= List.length bars)%nat ->
  let record := output (run ad w (trend_analysis symbol period)) in
  exists s : Z,
    dict_get "trend_strength_score" record = Some (JInt s) /\
    (0 <= s <= 100)%Z /\
    dict_get "trend_verdict" record = Some (JStr (fst (Stated.verdict_of s))) /\
    dict_get "confidence" record = Some (JStr (snd (Stated.verdict_of s))) /\
    (forall v c : string,
        dict_get "trend_verdict" record = Some (JStr v) ->
        dict_get "confidence" record = Some (JStr c) ->
        (v, c) = Stated.verdict_of s).
Proof.
  intros Hd Hlen record. subst record.
  rewrite (delivers_result ad w symbol period bars Hd Hlen).
  exists (score (close_column bars) (volume_column bars)).
  rewrite result_score, result_verdict, result_confidence, verdict_by_table.
  repeat split; try apply score_range.
  intros v c Hv Hc. injection Hv as <-. injection Hc as <-.
  symmetry. apply surjective_pairing.
Qed.

Lemma trend_analysis_score_and_verdict_witness :
  let record :=
    output (run (Samples.always (Samples.daily_payload
                                   (Samples.bars_of Samples.rising)))
                tt (trend_analysis "tsla" "200d")) in
  exists s : Z,
    dict_get "trend_strength_score" record = Some (JInt s) /\
    (0 <= s <= 100)%Z /\
    dict_get "trend_verdict" record = Some (JStr (fst (Stated.verdict_of s))) /\
    dict_get "confidence" record = Some (JStr (snd (Stated.verdict_of s))) /\
    (forall v c : string,
        dict_get "trend_verdict" record = Some (JStr v) ->
        dict_get "confidence" record = Some (JStr c) ->
        (v, c) = Stated.verdict_of s).
Proof.
  apply (trend_analysis_score_and_verdict
           (Samples.always (Samples.daily_payload
                              (Samples.bars_of Samples.rising)))
           tt "tsla" "200d" (Samples.bars_of Samples.rising)).
  - apply always_delivers.
  - apply Nat.leb_le. reflexivity.
Defined.

Lemma clamp_max_min (x : Z) : Z.max 0 (Z.min 100 x) = Stated.clamp 0 100 x.
Proof.
  unfold Stated.clamp.
  destruct (Z.ltb_spec x 0), (Z.ltb_spec 100 x); lia.
Qed.

Lemma ema_trend_cases (close : list float) :
  ema_trend close = "bullish" \/ ema_trend close = "bearish".
Proof. unfold ema_trend. destruct (gtb _ _); auto. Qed.

Lemma macd_signal_cases (close : list float) :
  macd_signal close = "bullish" \/ macd_signal close = "bearish".
Proof. unfold macd_signal. destruct (andb _ _); auto. Qed.

Lemma signal_delta (label : string) :
  label = "bullish" \/ label = "bearish" ->
  (if String.eqb label "bullish" then 15 else -15)%Z = Stated.delta_signal label.
Proof. intros [-> | ->]; reflexivity. Qed.

Lemma score_composite (close volume : list float) :
  score close volume = Stated.composite_score close volume.
Proof.
  unfold score, trend_strength_score, Stated.composite_score.
  rewrite clamp_max_min. f_equal.
  rewrite (signal_delta _ (ema_trend_cases close)).
  rewrite (signal_delta _ (macd_signal_cases close)).
  unfold Stated.delta_pct_change, Stated.delta_rsi, Stated.delta_sma,
    Stated.delta_volume, gtb.
  simpl fold_right. ring.
Qed.

(** C2.  The score reported is the base of 50 plus the six deltas of the
    score table, each evaluated on its own indicator and all of them summed
    (percent change: +15 above 3, -15 below -3, else 0; EMA trend and MACD
    signal: +15 bullish, -15 bearish; RSI: +10 above 55, -10 below 45, else
    0; last close above SMA20: +10, else -10; volume ratio above 1.3: +8,
    else -8), the sum then clamped to [0, 100]. *)
Theorem trend_analysis_composite_score {W : Type} (ad : Adapter W) (w : W)
    (symbol period : string) (bars : list Bar) :
  delivers ad w symbol period bars ->
  (30 <= List.length bars)%nat ->
  dict_get "trend_strength_score"
      (output (run ad w (trend_analysis symbol period))) =
    Some (JInt (Stated.composite_score (close_column bars)
                                       (volume_column bars))).
Proof.
  intros Hd Hlen.
  rewrite (delivers_result ad w symbol period bars Hd Hlen).
  rewrite result_score, score_composite. reflexivity.
Qed.

Lemma trend_analysis_composite_score_witness :
  dict_get "trend_strength_score"
      (output (run (Samples.always (Samples.daily_payload
                                      (Samples.bars_of Samples.rising)))
                   tt (trend_analysis "tsla" "200d"))) =
    Some (JInt (Stated.composite_score
                  (close_column (Samples.bars_of Samples.rising))
                  (volume_column (Samples.bars_of Samples.rising)))).
Proof.
  apply (trend_analysis_composite_score
           (Samples.always (Samples.daily_payload
                              (Samples.bars_of Samples.rising)))
           tt "tsla" "200d" (Samples.bars_of Samples.rising)).
  - apply always_delivers.
  - apply Nat.leb_le. reflexivity.
Defined.

(** ** Moving averages and MACD *)

Lemma series_sub_nth (s1 s2 : list float) (i : nat) :
  (i < List.length s1)%nat -> (i < List.length s2)%nat ->
  nth i (series_sub s1 s2) nan = nth i s1 nan - nth i s2 nan.
Proof.
  revert s2 i. induction s1 as [| x r1 IH]; intros [| y r2] [| i] H1 H2;
    simpl in *; try lia.
  - reflexivity.
  - apply IH; lia.
Qed.

Lemma ewm_loop_length (alpha : float) (adjust : bool) (state : float * float)
    (values : list float) :
  List.length (ewm_loop alpha adjust state values) = List.length values.
Proof.
  revert state. induction values as [| cur rest IH]; intros state; simpl.
  - reflexivity.
  - rewrite IH. reflexivity.
Qed.

Lemma ewm_mean_length (span : nat) (adjust : bool) (a : list float) :
  List.length (ewm_mean span adjust a) = List.length a.
Proof.
  unfold ewm_mean, prep_values. destruct a as [| x0 rest]; simpl;
    [| rewrite ewm_loop_length, length_map]; reflexivity.
Qed.

Lemma series_sub_length (s1 s2 : list float) :
  List.length s1 = List.length s2 ->
  List.length (series_sub s1 s2) = List.length s1.
Proof.
  revert s2. induction s1 as [| x r1 IH]; intros [| y r2] H; simpl in *;
    try lia.
  rewrite IH; lia.
Qed.

Lemma macd_line_length (close : list float) :
  List.length (macd_line close) = List.length close.
Proof.
  unfold macd_line, exp1, exp2.
  rewrite series_sub_length; rewrite !ewm_mean_length; reflexivity.
Qed.

Lemma signal_line_length (close : list float) :
  List.length (signal_line close) = List.length close.
Proof.
  unfold signal_line. rewrite ewm_mean_length. apply macd_line_length.
Qed.

(** The histogram is the line minus the signal at each index. *)
Lemma macd_hist_pointwise (close : list float) (i : nat) :
  (i < List.length close)%nat ->
  nth i (macd_hist close) nan =
    nth i (macd_line close) nan - nth i (signal_line close) nan.
Proof.
  intros Hi. unfold macd_hist. apply series_sub_nth.
  - rewrite macd_line_length. exact Hi.
  - rewrite signal_line_length. exact Hi.
Qed.

(** C3.  On the thirty daily closes 200, 100 (twenty-eight times), 101 the
    two averages of the MACD line are the bias-adjusted ones: at index 1 the
    12-span average is 145.83, where the stated recurrence seeded by the
    first value gives 184.62, and the MACD line ends near -0.69, where the
    stated one ends near -9.87.  The record reports the MACD signal BULLISH;
    with the stated convention, which the 9- and 21-span averages of the same
    record follow, the signal is bearish. *)
Theorem macd_averages_are_bias_adjusted :
  let close := Samples.spike_then_flat in
  let record :=
    output (run (Samples.always (Samples.daily_payload (Samples.bars_of close)))
                tt (trend_analysis "TSLA" "200d")) in
  close_column (Samples.bars_of close) = close /\
  PrimFloat.ltb (nth 1 (exp1 close) nan) 146 = true /\
  PrimFloat.ltb 184 (nth 1 (Stated.ema 12 close) nan) = true /\
  PrimFloat.ltb (-1) (last_of (macd_line close)) = true /\
  PrimFloat.ltb (last_of (Stated.macd_line close)) (-9) = true /\
  key_signal "macd" record = Some (JStr "BULLISH") /\
  Stated.macd_signal close = "bearish" /\
  ema9 close = last_of (Stated.ema 9 close) /\
  ema21 close = last_of (Stated.ema 21 close).
Proof.
  repeat split; vm_compute; reflexivity.
Qed.

(** ** Rolling windows *)

Lemma tail_slice_length {A : Type} (n : nat) (a : list A) :
  (n <= List.length a)%nat -> List.length (tail_slice n a) = n.
Proof. intros H. unfold tail_slice. rewrite length_skipn. lia. Qed.

Lemma tail_slice_map {A B : Type} (f : A -> B) (n : nat) (a : list A) :
  tail_slice n (map f a) = map f (tail_slice n a).
Proof. unfold tail_slice. rewrite length_map, skipn_map. reflexivity. Qed.

(** *** What the tally keeps *)

Lemma observations_app (l1 l2 : list float) :
  observations (l1 ++ l2) = observations l1 ++ observations l2.
Proof. apply filter_app. Qed.

Lemma tally_add_ok (val : float) (t : Tally) :
  nobs t = List.length (observations (window t)) ->
  nobs (tally_add val t) =
    List.length (observations (window (tally_add val t))) /\
  List.length (window (tally_add val t)) = S (List.length (window t)).
Proof.
  intros Hn. unfold tally_add.
  destruct (PrimFloat.eqb val val) eqn:Hval; simpl;
    rewrite observations_app, !length_app; unfold observations at 2; simpl;
    rewrite Hval; simpl; split; lia.
Qed.

Lemma tally_remove_ok (t : Tally) (old : float) (rest : list float) :
  window t = old :: rest ->
  nobs t = List.length (observations (window t)) ->
  window (tally_remove t) = rest /\
  nobs (tally_remove t) = List.length (observations rest).
Proof.
  intros Hwin Hn. unfold tally_remove. rewrite Hwin in *. simpl.
  split; [reflexivity |].
  unfold observations in Hn. simpl in Hn.
  fold (observations rest) in Hn.
  destruct (PrimFloat.eqb old old); simpl in Hn; lia.
Qed.

Lemma tally_step_ok (w : nat) (t : Tally) (val : float) :
  (0 < w)%nat -> tally_ok w t -> tally_ok w (tally_step w t val).
Proof.
  intros Hw [Hn Hlen]. unfold tally_step, window_full, tally_ok.
  destruct (Nat.eqb_spec (List.length (window t)) w) as [Hfull | Hroom].
  - destruct (window t) as [| old rest] eqn:Hwin; [simpl in Hfull; lia |].
    rewrite <- Hwin in Hn.
    destruct (tally_remove_ok t old rest Hwin Hn) as [Hrest Hn'].
    rewrite <- Hrest in Hn'.
    destruct (tally_add_ok val _ Hn') as [Hn'' Hlen''].
    split; [exact Hn'' |]. rewrite Hlen'', Hrest. simpl in Hfull. lia.
  - destruct (tally_add_ok val _ Hn) as [Hn' Hlen'].
    split; [exact Hn' |]. rewrite Hlen'. lia.
Qed.

(** A run of [j] values [c] ends the window, and is known to the tally. *)
Lemma tally_step_run (w : nat) (t : Tally) (c : float) (j : nat) :
  PrimFloat.eqb c c = true ->
  tally_ok w t ->
  (j < w)%nat ->
  tally_run c j t -> tally_run c (S j) (tally_step w t c).
Proof.
  intros Hc [_ Hlen] Hj (pre & Hwin & Hknown).
  unfold tally_step, window_full, tally_run.
  assert (Hadd : forall t0 pre0,
             window t0 = pre0 ++ repeat c j ->
             prev_value t0 = prev_value t ->
             num_consecutive_same_value t0 = num_consecutive_same_value t ->
             exists pre1,
               window (tally_add c t0) = pre1 ++ repeat c (S j) /\
               ((1 <= S j)%nat ->
                prev_value (tally_add c t0) = c /\
                (S j <= num_consecutive_same_value (tally_add c t0))%nat)).
  { intros t0 pre0 Hw0 Hp Hs. unfold tally_add. rewrite Hc. simpl.
    exists pre0. split.
    - rewrite Hw0, <- app_assoc. f_equal.
      change (repeat c (S j)) with (c :: repeat c j).
      symmetry. apply repeat_cons.
    - intros _. split; [reflexivity |].
      rewrite Hp, Hs. destruct j as [| j'].
      + destruct (PrimFloat.eqb c (prev_value t)); lia.
      + destruct (Hknown ltac:(lia)) as [-> Hrun]. rewrite Hc. lia. }
  destruct (Nat.eqb_spec (List.length (window t)) w) as [Hfull | _].
  - destruct pre as [| old pre'].
    + simpl in Hwin. rewrite Hwin, repeat_length in Hfull. lia.
    + apply (Hadd (tally_remove t) pre').
      * unfold tally_remove. rewrite Hwin. reflexivity.
      * unfold tally_remove. rewrite Hwin. reflexivity.
      * unfold tally_remove. rewrite Hwin. reflexivity.
  - apply (Hadd t pre); [exact Hwin | reflexivity | reflexivity].
Qed.

Lemma tally_steps_run (w : nat) (c : float) (j k : nat) (t : Tally) :
  PrimFloat.eqb c c = true ->
  (0 < w)%nat -> (k + j <= w)%nat ->
  tally_ok w t -> tally_run c k t ->
  tally_ok w (fold_left (tally_step w) (repeat c j) t) /\
  tally_run c (k + j) (fold_left (tally_step w) (repeat c j) t).
Proof.
  intros Hc Hw. revert k t. induction j as [| j IH]; intros k t Hkj Hok Hrun.
  - simpl. rewrite Nat.add_0_r. split; assumption.
  - simpl. replace (k + S j)%nat with (S k + j)%nat by lia.
    apply IH; [lia | apply tally_step_ok; assumption |].
    apply tally_step_run; try assumption. lia.
Qed.

Lemma tally_steps_ok (w : nat) (values : list float) (t : Tally) :
  (0 < w)%nat -> tally_ok w t ->
  tally_ok w (fold_left (tally_step w) values t).
Proof.
  intros Hw. revert t. induction values as [| val rest IH]; intros t Hok.
  - exact Hok.
  - simpl. apply IH. apply tally_step_ok; assumption.
Qed.

(** After a series that ends with [w] values [c], the window holds [w]
    observations, all of them in one run of [c]. *)
Lemma tally_of_constant_tail (w : nat) (a : list float) (c first : float) :
  (0 < w)%nat -> (w <= List.length a)%nat ->
  tail_slice w a = repeat c w ->
  PrimFloat.eqb c c = true ->
  let t := fold_left (tally_step w) a (tally_start first) in
  nobs t = w /\ prev_value t = c /\
  (w <= num_consecutive_same_value t)%nat.
Proof.
  intros Hw Hlen Htail Hc t. subst t.
  rewrite <- (firstn_skipn (List.length a - w) a).
  fold (tail_slice w a). rewrite Htail, fold_left_app.
  assert (Hstart : tally_ok w (tally_start first)) by (split; simpl; lia).
  pose proof (tally_steps_ok w (firstn (List.length a - w) a) _ Hw Hstart)
    as Hok.
  destruct (tally_steps_run w c w 0 _ Hc Hw ltac:(lia) Hok) as [Hok' Hrun].
  { exists (window (fold_left (tally_step w) (firstn (List.length a - w) a)
                      (tally_start first))).
    split; [simpl; rewrite app_nil_r; reflexivity | lia]. }
  simpl Nat.add in Hrun. destruct Hrun as (pre & Hwin & Hknown).
  destruct Hok' as [Hn Hl].
  assert (Hpre : pre = []).
  { rewrite Hwin, length_app, repeat_length in Hl.
    destruct pre; [reflexivity | simpl in Hl; lia]. }
  subst pre. simpl in Hwin.
  destruct (Hknown ltac:(lia)) as [Hprev Hsame].
  split; [| split; assumption].
  rewrite Hn, Hwin. clear - Hc.
  induction w as [| w IH]; simpl; [reflexivity |].
  unfold observations in *. simpl. rewrite Hc. simpl. rewrite IH. reflexivity.
Qed.

Lemma mean_steps_tally (w : nat) (values : list float) (t : Tally)
    (s : MeanSums) :
  fst (fold_left (mean_step w) values (t, s)) =
    fold_left (tally_step w) values t.
Proof.
  revert t s. induction values as [| val rest IH]; intros t s; simpl.
  - reflexivity.
  - apply IH.
Qed.

Lemma var_steps_tally (w : nat) (values : list float) (t : Tally)
    (s : VarSums) :
  fst (fold_left (var_step w) values (t, s)) =
    fold_left (tally_step w) values t.
Proof.
  revert t s. induction values as [| val rest IH]; intros t s; simpl.
  - reflexivity.
  - apply IH.
Qed.

Lemma roll_mean_last (w : nat) (values : list float)
    (state : Tally * MeanSums) :
  values <> [] ->
  last (roll_mean w state values) nan =
    calc_mean w (fst (fold_left (mean_step w) values state))
                (snd (fold_left (mean_step w) values state)).
Proof.
  revert state. induction values as [| val rest IH]; intros state Hne;
    [congruence |].
  destruct rest as [| val' rest'].
  - reflexivity.
  - change (roll_mean w state (val :: val' :: rest'))
      with (calc_mean w (fst (mean_step w state val))
                      (snd (mean_step w state val))
              :: roll_mean w (mean_step w state val) (val' :: rest')).
    change (fold_left (mean_step w) (val :: val' :: rest') state)
      with (fold_left (mean_step w) (val' :: rest') (mean_step w state val)).
    rewrite <- IH by discriminate.
    destruct (roll_mean w (mean_step w state val) (val' :: rest')) eqn:E;
      [discriminate E | reflexivity].
Qed.

Lemma roll_var_last (w ddof : nat) (values : list float)
    (state : Tally * VarSums) :
  values <> [] ->
  last (roll_var w ddof state values) nan =
    calc_var w ddof (fst (fold_left (var_step w) values state))
                    (snd (fold_left (var_step w) values state)).
Proof.
  revert state. induction values as [| val rest IH]; intros state Hne;
    [congruence |].
  destruct rest as [| val' rest'].
  - reflexivity.
  - change (roll_var w ddof state (val :: val' :: rest'))
      with (calc_var w ddof (fst (var_step w state val))
                      (snd (var_step w state val))
              :: roll_var w ddof (var_step w state val) (val' :: rest')).
    change (fold_left (var_step w) (val :: val' :: rest') state)
      with (fold_left (var_step w) (val' :: rest') (var_step w state val)).
    rewrite <- IH by discriminate.
    destruct (roll_var w ddof (var_step w state val) (val' :: rest')) eqn:E;
      [discriminate E | reflexivity].
Qed.

Lemma window_step (w : nat) (t : Tally) (val : float) :
  window (tally_step w t val) =
    (if Nat.eqb (List.length (window t)) w then tl (window t) else window t)
      ++ [val].
Proof.
  unfold tally_step, window_full.
  destruct (Nat.eqb (List.length (window t)) w).
  - unfold tally_remove, tally_add.
    destruct (window t) as [| old rest] eqn:Hwin;
      destruct (PrimFloat.eqb val val); simpl; rewrite ?Hwin; reflexivity.
  - unfold tally_add. destruct (PrimFloat.eqb val val); reflexivity.
Qed.

Lemma skipn_S_tl {A : Type} (k : nat) (l : list A) :
  skipn (S k) l = tl (skipn k l).
Proof.
  revert l. induction k as [| k IH]; intros [| x l]; try reflexivity.
  change (skipn (S (S k)) (x :: l)) with (skipn (S k) l).
  change (skipn (S k) (x :: l)) with (skipn k l). apply IH.
Qed.

(** The window kept is the last [w] values seen. *)
Lemma tally_window (w : nat) (values : list float) (first : float) :
  (0 < w)%nat ->
  window (fold_left (tally_step w) values (tally_start first)) =
    tail_slice w values.
Proof.
  intros Hw. induction values as [| val seen IH] using rev_ind;
    [reflexivity |].
  rewrite fold_left_app. simpl fold_left. rewrite window_step, IH.
  unfold tail_slice. rewrite length_skipn, length_app. simpl List.length.
  destruct (Nat.eqb_spec (List.length seen - (List.length seen - w)) w)
    as [Hfull | Hroom].
  - replace (List.length seen + 1 - w)%nat
      with (S (List.length seen - w)) by lia.
    rewrite skipn_app, <- skipn_S_tl.
    replace (S (List.length seen - w) - List.length seen)%nat with 0%nat
      by lia.
    reflexivity.
  - replace (List.length seen + 1 - w)%nat with 0%nat by lia.
    replace (List.length seen - w)%nat with 0%nat by lia. reflexivity.
Qed.

Lemma finite_is_kept (c : float) :
  PrimFloat.is_finite c = true ->
  prep_value c = c /\ PrimFloat.eqb c c = true.
Proof.
  unfold PrimFloat.is_finite, prep_value, PrimFloat.is_nan. intros Hfin.
  apply negb_true_iff, orb_false_iff in Hfin. destruct Hfin as [Hnan Hinf].
  rewrite Hinf. split; [reflexivity |]. apply negb_false_iff. exact Hnan.
Qed.

Lemma prep_values_tail (w : nat) (a : list float) (c : float) :
  tail_slice w a = repeat c w ->
  tail_slice w (prep_values a) = repeat (prep_value c) w.
Proof.
  intros Htail. unfold prep_values.
  rewrite tail_slice_map, Htail, map_repeat. reflexivity.
Qed.

Lemma prep_values_not_empty (w : nat) (a : list float) :
  (0 < w)%nat -> (w <= List.length a)%nat -> prep_values a <> [].
Proof.
  intros Hw Hlen. destruct a; [simpl in Hlen; lia | discriminate].
Qed.

(** The rolling mean of a series that ends with [w] equal values is that
    value. *)
Lemma rolling_mean_constant_tail (w : nat) (a : list float) (c : float) :
  (0 < w)%nat -> (w <= List.length a)%nat ->
  tail_slice w a = repeat c w ->
  PrimFloat.is_finite c = true ->
  last_of (rolling_mean w a) = c.
Proof.
  intros Hw Hlen Htail Hfin.
  destruct (finite_is_kept c Hfin) as [Hkept Hc].
  apply prep_values_tail in Htail. rewrite Hkept in Htail.
  unfold last_of, rolling_mean. cbv zeta.
  rewrite roll_mean_last by (apply (prep_values_not_empty w); assumption).
  rewrite mean_steps_tally.
  assert (Hlen' : (w <= List.length (prep_values a))%nat)
    by (unfold prep_values; rewrite length_map; exact Hlen).
  destruct (tally_of_constant_tail w (prep_values a) c
              (hd nan (prep_values a)) Hw Hlen' Htail Hc)
    as (Hn & Hprev & Hsame).
  unfold calc_mean. rewrite Hn.
  rewrite Nat.leb_refl. destruct (Nat.ltb_spec 0 w) as [_ | Hz]; [| lia].
  simpl andb. destruct (Nat.leb_spec w (num_consecutive_same_value
    (fold_left (tally_step w) (prep_values a)
       (tally_start (hd nan (prep_values a)))))) as [_ | Hlt];
    [exact Hprev | lia].
Qed.

(** The rolling mean of a series that ends with [w] values that are NaN or
    infinite is NaN: the window holds no observation. *)
Lemma rolling_mean_no_observation (w : nat) (a : list float) (c : float) :
  (0 < w)%nat -> (w <= List.length a)%nat ->
  tail_slice w a = repeat c w ->
  PrimFloat.is_finite c = false ->
  last_of (rolling_mean w a) = nan.
Proof.
  intros Hw Hlen Htail Hfin.
  assert (Hc : PrimFloat.eqb (prep_value c) (prep_value c) = false).
  { unfold PrimFloat.is_finite, PrimFloat.is_nan in Hfin.
    apply negb_false_iff, orb_true_iff in Hfin. unfold prep_value.
    destruct (PrimFloat.is_infinity c); [reflexivity |].
    destruct Hfin as [Hnan | Hinf]; [| discriminate Hinf].
    apply negb_true_iff. exact Hnan. }
  apply prep_values_tail in Htail.
  unfold last_of, rolling_mean. cbv zeta.
  rewrite roll_mean_last by (apply (prep_values_not_empty w); assumption).
  rewrite mean_steps_tally.
  assert (Hstart : tally_ok w (tally_start (hd nan (prep_values a))))
    by (split; simpl; lia).
  destruct (tally_steps_ok w (prep_values a) _ Hw Hstart) as [Hn _].
  rewrite tally_window, Htail in Hn by exact Hw.
  assert (Hnone : observations (repeat (prep_value c) w) = []).
  { clear - Hc. induction w as [| w IH]; [reflexivity |].
    unfold observations in *. simpl. rewrite Hc. exact IH. }
  rewrite Hnone in Hn. simpl in Hn.
  unfold calc_mean. rewrite Hn.
  destruct (Nat.leb_spec w 0) as [Hz | _]; [lia | reflexivity].
Qed.

(** The rolling deviation of a series that ends with [w] equal values is
    zero. *)
Lemma rolling_std_constant_tail (w : nat) (a : list float) (c : float) :
  (1 < w)%nat -> (w <= List.length a)%nat ->
  tail_slice w a = repeat c w ->
  PrimFloat.is_finite c = true ->
  last_of (rolling_std w a) = 0.
Proof.
  intros Hw Hlen Htail Hfin.
  destruct (finite_is_kept c Hfin) as [Hkept Hc].
  apply prep_values_tail in Htail. rewrite Hkept in Htail.
  unfold last_of, rolling_std. cbv zeta.
  assert (Hne : prep_values a <> [])
    by (apply (prep_values_not_empty w); [lia | exact Hlen]).
  assert (Hmap : forall l, l <> [] -> last (map zsqrt l) nan = zsqrt (last l nan)).
  { induction l as [| x [| y rest] IH]; intros Hl; [congruence | reflexivity |].
    change (last (map zsqrt (y :: rest)) nan = zsqrt (last (y :: rest) nan)).
    apply IH. discriminate. }
  rewrite Hmap by (destruct (prep_values a); [congruence | discriminate]).
  rewrite roll_var_last by exact Hne.
  rewrite var_steps_tally.
  assert (Hlen' : (w <= List.length (prep_values a))%nat)
    by (unfold prep_values; rewrite length_map; exact Hlen).
  destruct (tally_of_constant_tail w (prep_values a) c
              (hd nan (prep_values a)) ltac:(lia) Hlen' Htail Hc)
    as (Hn & Hprev & Hsame).
  unfold calc_var. rewrite Hn.
  rewrite Nat.leb_refl. destruct (Nat.ltb_spec 1 w) as [_ | Hz]; [| lia].
  simpl andb. destruct (Nat.leb_spec w (num_consecutive_same_value
    (fold_left (tally_step w) (prep_values a)
       (tally_start (hd nan (prep_values a)))))) as [_ | Hlt];
    [| lia].
  rewrite orb_true_r. reflexivity.
Qed.

Lemma diff_length (a : list float) :
  List.length (diff a) = (List.length a - 1)%nat.
Proof.
  induction a as [| x rest IH]; [reflexivity |].
  destruct rest as [| y rest']; [reflexivity |].
  change (diff (x :: y :: rest')) with ((y - x) :: diff (y :: rest')).
  simpl List.length in *. rewrite IH. lia.
Qed.

(** ** RSI *)

(** A delta that is at least zero is not below zero. *)
Lemma nonneg_not_negative (d : float) :
  PrimFloat.leb 0 d = true -> PrimFloat.ltb d 0 = false.
Proof.
  rewrite FloatAxioms.leb_spec, FloatAxioms.ltb_spec.
  destruct (Prim2SF d) as [s | s | | s m e]; try destruct s; cbv; congruence.
Qed.

Lemma loss_window_zero (window : list float) :
  Forall (fun d => PrimFloat.leb 0 d = true) window ->
  map (fun d => if PrimFloat.ltb d 0 then - d else 0) window =
    repeat 0 (List.length window).
Proof.
  induction 1 as [| d rest Hd _ IH]; simpl.
  - reflexivity.
  - rewrite (nonneg_not_negative d Hd), IH. reflexivity.
Qed.

(** Without a falling close among the last fourteen deltas the average loss
    is zero. *)
Lemma avg_loss_zero (close : list float) :
  (15 <= List.length close)%nat ->
  Forall (fun d => PrimFloat.leb 0 d = true) (tail_slice 14 (delta close)) ->
  avg_loss close = 0.
Proof.
  intros Hlen Hnonneg. unfold avg_loss, loss.
  assert (Hd : (14 <= List.length (delta close))%nat).
  { unfold delta. rewrite diff_length. lia. }
  apply rolling_mean_constant_tail; [lia | rewrite length_map; exact Hd | |
    reflexivity].
  rewrite tail_slice_map, (loss_window_zero _ Hnonneg).
  rewrite (tail_slice_length 14 _ Hd). reflexivity.
Qed.

(** With an average loss of zero [rs] is the conventional 100 and the RSI is
    [100 - 100 / 101]. *)
Lemma rsi_of_zero_loss (close : list float) :
  avg_loss close = 0 ->
  rs close = 100 /\ rsi close = NFloat (100 - 100 / (1 + 100)).
Proof.
  intros H0. unfold rsi. 
  assert (Hrs : rs close = 100) by (unfold rs; rewrite H0; reflexivity).
  rewrite Hrs. split; reflexivity.
Qed.

(** The RSI of the default ratio rounds to 99.01 by either rounding. *)
Lemma rsi_default_rounds_alike :
  py_round (100 - 100 / (1 + 100)) 2 = round_nd (100 - 100 / (1 + 100)) 2.
Proof. vm_compute. reflexivity. Qed.

Lemma result_rsi_14 (symbol period : string) bars :
  key_signal "rsi_14" (result symbol period bars) =
    Some (round_num (rsi (close_column bars)) 2).
Proof. reflexivity. Qed.

Lemma result_no_error (symbol period : string) bars :
  dict_get "error" (result symbol period bars) = None /\
  dict_get "warning" (result symbol period bars) = None.
Proof. split; reflexivity. Qed.

(** C4, as the code has it.  For every accepted bar series (at least 30
    bars) whose last 14 close-to-close deltas are all non-negative, one of
    them strictly positive, the average loss is zero, [rs] takes the
    conventional value 100, and the [rsi_14] reported is
    [round(100 - 100 / 101, 2) = 99.01]; the record is the completed
    analysis, without an ["error"] field: no division fault. *)
Theorem rsi_14_without_losses {W : Type} (ad : Adapter W) (w : W)
    (symbol period : string) (bars : list Bar) :
  delivers ad w symbol period bars ->
  (30 <= List.length bars)%nat ->
  Forall (fun d => PrimFloat.leb 0 d = true)
         (tail_slice 14 (delta (close_column bars))) ->
  Exists (fun d => PrimFloat.ltb 0 d = true)
         (tail_slice 14 (delta (close_column bars))) ->
  let record := output (run ad w (trend_analysis symbol period)) in
  avg_loss (close_column bars) = 0 /\
  rs (close_column bars) = 100 /\
  key_signal "rsi_14" record = Some (JNum 99.01) /\
  dict_get "error" record = None.
Proof.
  intros Hd Hlen Hnonneg _ record. subst record.
  rewrite (delivers_result ad w symbol period bars Hd Hlen).
  assert (H0 : avg_loss (close_column bars) = 0).
  { apply avg_loss_zero; [| exact Hnonneg].
    unfold close_column. rewrite length_map. lia. }
  destruct (rsi_of_zero_loss _ H0) as [Hrs Hrsi].
  rewrite result_rsi_14, Hrsi.
  repeat split; try assumption; reflexivity.
Qed.

Lemma rsi_14_without_losses_witness :
  let bars := Samples.bars_of Samples.rising in
  let record :=
    output (run (Samples.always (Samples.daily_payload bars)) tt
                (trend_analysis "tsla" "200d")) in
  avg_loss (close_column bars) = 0 /\
  rs (close_column bars) = 100 /\
  key_signal "rsi_14" record = Some (JNum 99.01) /\
  dict_get "error" record = None.
Proof.
  apply (rsi_14_without_losses
           (Samples.always (Samples.daily_payload
                              (Samples.bars_of Samples.rising)))
           tt "tsla" "200d" (Samples.bars_of Samples.rising)).
  - apply always_delivers.
  - apply Nat.leb_le. reflexivity.
  - vm_compute. repeat constructor.
  - vm_compute. apply Exists_cons_hd. reflexivity.
Defined.

(** C4, as the claim has it, fails on the thirty closes 100, 101, ..., 129:
    every delta is +1, and the [rsi_14] reported is 99.01, not 100. *)
Lemma all_gain_window_reports_99_01 :
  delivers (Samples.always (Samples.daily_payload
                              (Samples.bars_of Samples.rising)))
           tt "tsla" "200d" (Samples.bars_of Samples.rising) /\
  (30 <= List.length (Samples.bars_of Samples.rising))%nat /\
  Forall (fun d => PrimFloat.leb 0 d = true)
         (tail_slice 14 (delta (close_column (Samples.bars_of Samples.rising)))) /\
  Exists (fun d => PrimFloat.ltb 0 d = true)
         (tail_slice 14 (delta (close_column (Samples.bars_of Samples.rising)))) /\
  key_signal "rsi_14" (Samples.analysis_of Samples.rising) = Some (JNum 99.01) /\
  key_signal "rsi_14" (Samples.analysis_of Samples.rising) <> Some (JNum 100) /\
  key_signal "rsi_14" (Samples.analysis_of Samples.rising) <> Some (JInt 100).
Proof.
  split; [apply always_delivers |].
  split; [apply Nat.leb_le; reflexivity |].
  split; [vm_compute; repeat constructor |].
  split; [vm_compute; apply Exists_cons_hd; reflexivity |].
  assert (Hr : key_signal "rsi_14" (Samples.analysis_of Samples.rising) =
               Some (JNum 99.01)) by (vm_compute; reflexivity).
  rewrite Hr. split; [reflexivity |]. split.
  - intros E.
    assert (Hlt : match Some (JNum 99.01) with
                  | Some (JNum f) => PrimFloat.ltb f 100
                  | _ => false
                  end = true) by reflexivity.
    rewrite E in Hlt. vm_compute in Hlt. discriminate.
  - discriminate.
Qed.

(** ** Percent change on a first close of zero *)

Lemma eqb_zero_cases (x : float) :
  PrimFloat.eqb x 0 = true -> x = 0 \/ x = - 0.
Proof.
  intros H. rewrite <- (SF2Prim_Prim2SF x).
  rewrite FloatAxioms.eqb_spec in H.
  destruct (Prim2SF x) as [s | s | | s m e]; try destruct s;
    try (cbv in H; discriminate H); [right | left]; reflexivity.
Qed.

(** A float64 division by zero raises nothing: it is a NaN or an infinity. *)
Lemma div_by_zero_cases (x z : float) :
  z = 0 \/ z = - 0 ->
  x / z = nan \/ x / z = infinity \/ x / z = neg_infinity.
Proof.
  intros [-> | ->]; rewrite <- (SF2Prim_Prim2SF (x / _)), FloatAxioms.div_spec;
    destruct (Prim2SF x) as [s | s | | s m e]; try destruct s; cbv; auto.
Qed.

Lemma pct_change_zero_first (close : list float) :
  PrimFloat.eqb (first_of close) 0 = true ->
  pct_change close = nan \/
  pct_change close = infinity \/
  pct_change close = neg_infinity.
Proof.
  intros Hz. unfold pct_change.
  destruct (div_by_zero_cases (last_of close - first_of close) (first_of close)
              (eqb_zero_cases _ Hz)) as [-> | [-> | ->]];
    [left | right; left | right; right]; reflexivity.
Qed.

Lemma result_price_change_percent (symbol period : string) bars :
  dict_get "price_change_percent" (result symbol period bars) =
    Some (JNum (round_nd (pct_change (close_column bars)) 2)).
Proof. reflexivity. Qed.

(** The other divisions of the analysis test their denominator first: a
    zero average loss, equal Bollinger bands and a volume average that is
    not positive are answered with the defaults [100], [0.5] and [1]. *)
Lemma other_zero_denominators_are_guarded (close volume : list float) :
  (PrimFloat.eqb (avg_loss close) 0 = true -> rs close = 100) /\
  (PrimFloat.eqb (upper close) (lower close) = true ->
   bb_position close = 0.5) /\
  (gtb (vol_sma volume) 0 = false -> vol_ratio volume = 1).
Proof.
  unfold rs, bb_position, vol_ratio, neqb.
  repeat split; intros ->; reflexivity.
Qed.

(** C5.  The code does not do what the claim says.  For every bar series
    of at least 30 bars whose first close is zero, the float64 division of
    the percent change raises nothing, so the [except] branch is not
    taken: [trend_analysis] returns the record of a completed analysis,
    with its score and verdict and without ["error"] or ["warning"], and
    the [price_change_percent] it reports is NaN, Infinity or -Infinity.
    The claimed diagnostic record carrying the symbol is never produced. *)
Theorem zero_first_close_completes {W : Type} (ad : Adapter W) (w : W)
    (symbol period : string) (bars : list Bar) :
  delivers ad w symbol period bars ->
  (30 <= List.length bars)%nat ->
  PrimFloat.eqb (first_of (close_column bars)) 0 = true ->
  let record := output (run ad w (trend_analysis symbol period)) in
  record = result (str_upper symbol) period bars /\
  (exists s, dict_get "trend_strength_score" record = Some (JInt s)) /\
  (exists v, dict_get "trend_verdict" record = Some (JStr v)) /\
  dict_get "error" record = None /\
  dict_get "warning" record = None /\
  (dict_get "price_change_percent" record = Some (JNum nan) \/
   dict_get "price_change_percent" record = Some (JNum infinity) \/
   dict_get "price_change_percent" record = Some (JNum neg_infinity)).
Proof.
  intros Hd Hlen Hz record. subst record.
  rewrite (delivers_result ad w symbol period bars Hd Hlen).
  split; [reflexivity |].
  split; [eexists; apply result_score |].
  split; [eexists; apply result_verdict |].
  split; [apply result_no_error |].
  split; [apply result_no_error |].
  rewrite result_price_change_percent.
  destruct (pct_change_zero_first _ Hz) as [-> | [-> | ->]];
    [left | right; left | right; right]; reflexivity.
Qed.

Lemma zero_first_close_completes_witness :
  let bars := Samples.bars_of Samples.zero_first in
  let record :=
    output (run (Samples.always (Samples.daily_payload bars)) tt
                (trend_analysis "tsla" "200d")) in
  record = result (str_upper "tsla") "200d" bars /\
  (exists s, dict_get "trend_strength_score" record = Some (JInt s)) /\
  (exists v, dict_get "trend_verdict" record = Some (JStr v)) /\
  dict_get "error" record = None /\
  dict_get "warning" record = None /\
  (dict_get "price_change_percent" record = Some (JNum nan) \/
   dict_get "price_change_percent" record = Some (JNum infinity) \/
   dict_get "price_change_percent" record = Some (JNum neg_infinity)).
Proof.
  apply (zero_first_close_completes
           (Samples.always (Samples.daily_payload
                              (Samples.bars_of Samples.zero_first)))
           tt "tsla" "200d" (Samples.bars_of Samples.zero_first)).
  - apply always_delivers.
  - apply Nat.leb_le. reflexivity.
  - reflexivity.
Defined.

(** On the thirty closes 0, 101, ..., 129 the record returned is a
    completed analysis, verdict VERY BULLISH at the full score, with an
    infinite percent change and neither ["error"] nor ["warning"]. *)
Lemma zero_first_close_is_no_diagnostic :
  delivers (Samples.always (Samples.daily_payload
                              (Samples.bars_of Samples.zero_first)))
           tt "tsla" "200d" (Samples.bars_of Samples.zero_first) /\
  (30 <= List.length (Samples.bars_of Samples.zero_first))%nat /\
  first_of (close_column (Samples.bars_of Samples.zero_first)) = 0 /\
  dict_get "error" (Samples.analysis_of Samples.zero_first) = None /\
  dict_get "warning" (Samples.analysis_of Samples.zero_first) = None /\
  dict_get "trend_verdict" (Samples.analysis_of Samples.zero_first) =
    Some (JStr "VERY BULLISH") /\
  dict_get "trend_strength_score" (Samples.analysis_of Samples.zero_first) =
    Some (JInt 100) /\
  dict_get "price_change_percent" (Samples.analysis_of Samples.zero_first) =
    Some (JNum infinity).
Proof.
  split; [apply always_delivers |].
  split; [apply Nat.leb_le; reflexivity |].
  repeat split; vm_compute; reflexivity.
Qed.

(** A first close of zero is within reach of the adapters, which round
    every price to four places: a first row that trades at 0.00004 becomes a
    bar that closes at 0.0, and the analysis over the daily adapter is the
    completed one, VERY BULLISH with an infinite percent change. *)
Lemma tiny_first_close_reaches_the_division :
  py_round 0.00004 4 = 0 /\
  dict_get "error"
    (output (run (yfinance (Frames.serving Frames.tiny_first) Frames.same) tt
                 (trend_analysis "tsla" "200d"))) = None /\
  dict_get "trend_verdict"
    (output (run (yfinance (Frames.serving Frames.tiny_first) Frames.same) tt
                 (trend_analysis "tsla" "200d"))) =
    Some (JStr "VERY BULLISH") /\
  dict_get "price_change_percent"
    (output (run (yfinance (Frames.serving Frames.tiny_first) Frames.same) tt
                 (trend_analysis "tsla" "200d"))) =
    Some (JNum infinity).
Proof. repeat split; vm_compute; reflexivity. Qed.

(** ** The guards *)

Lemma source_of_period_other (period : string) :
  period <> "7d" -> period <> "30d" -> period <> "200d" ->
  source_of_period period = None.
Proof.
  intros H7 H30 H200. unfold source_of_period.
  apply String.eqb_neq in H7, H30, H200. rewrite H7, H30, H200. reflexivity.
Qed.

(** C6.  For every period outside 7d, 30d and 200d, whatever the symbol
    and the provider, [trend_analysis] returns at once, without a call to a
    fetcher and without reading a bar, the record
    [{"error": "period must be '7d', '30d', or '200d'"}]: the message is the
    one claimed, and the record has no ["symbol"] field, where the warning
    and the exception record of the same function carry one. *)
Theorem bad_period_record_has_no_symbol {W : Type} (ad : Adapter W) (w : W)
    (symbol period : string) :
  period <> "7d" -> period <> "30d" -> period <> "200d" ->
  let record := output (run ad w (trend_analysis symbol period)) in
  trend_analysis symbol period = Ret period_error /\
  calls_made (run ad w (trend_analysis symbol period)) = [] /\
  dict_get "error" record =
    Some (JStr "period must be '7d', '30d', or '200d'") /\
  dict_get "symbol" record = None /\
  dict_get "symbol" (low_bar_warning (str_upper symbol)) =
    Some (JStr (str_upper symbol)) /\
  (forall e, dict_get "symbol" (exception_record (str_upper symbol) e) =
               Some (JStr (str_upper symbol))).
Proof.
  intros H7 H30 H200 record. subst record.
  pose proof (source_of_period_other period H7 H30 H200) as Hsrc.
  rewrite (run_trend_analysis_bad_period ad w symbol period Hsrc).
  split; [unfold trend_analysis; rewrite Hsrc; reflexivity |].
  repeat split.
Qed.

Lemma bad_period_record_has_no_symbol_witness :
  trend_analysis "TSLA" "1d" = Ret period_error /\
  calls_made (run (Samples.always
                     (Samples.daily_payload (Samples.bars_of Samples.rising)))
                  tt (trend_analysis "TSLA" "1d")) = [] /\
  dict_get "error"
      (output (run (Samples.always
                      (Samples.daily_payload (Samples.bars_of Samples.rising)))
                   tt (trend_analysis "TSLA" "1d"))) =
    Some (JStr "period must be '7d', '30d', or '200d'") /\
  dict_get "symbol"
      (output (run (Samples.always
                      (Samples.daily_payload (Samples.bars_of Samples.rising)))
                   tt (trend_analysis "TSLA" "1d"))) = None /\
  dict_get "symbol" (low_bar_warning (str_upper "TSLA")) =
    Some (JStr (str_upper "TSLA")) /\
  (forall e, dict_get "symbol" (exception_record (str_upper "TSLA") e) =
               Some (JStr (str_upper "TSLA"))).
Proof.
  apply (bad_period_record_has_no_symbol
           (Samples.always
              (Samples.daily_payload (Samples.bars_of Samples.rising)))
           tt "TSLA" "1d"); discriminate.
Defined.

(** C7.  For every adapter result whose bar list has fewer than 30 entries,
    [trend_analysis] returns the warning record: it carries the symbol (in
    upper case, as every record does) and the message "Low bar count,
    accuracy reduced"; the [try] body raised nothing (it returned, and the
    record has no ["error"] field); the record is the same whatever the bars
    hold, so no indicator enters it; and it has no score, verdict,
    confidence, signal or level field. *)
Theorem low_bar_count_warning {W : Type} (ad : Adapter W) (w : W)
    (symbol period : string) (bars : list Bar) :
  delivers ad w symbol period bars ->
  (List.length bars < 30)%nat ->
  let record := output (run ad w (trend_analysis symbol period)) in
  record = low_bar_warning (str_upper symbol) /\
  dict_get "symbol" record = Some (JStr (str_upper symbol)) /\
  dict_get "warning" record = Some (JStr "Low bar count, accuracy reduced") /\
  dict_get "error" record = None /\
  dict_get "trend_strength_score" record = None /\
  dict_get "trend_verdict" record = None /\
  dict_get "confidence" record = None /\
  dict_get "key_signals" record = None /\
  dict_get "levels" record = None /\
  (exists fetch key,
      source_of_period period = Some (fetch, key) /\
      analyse (str_upper symbol) period key
              (fst (ad w fetch (str_upper symbol))) =
        inr (low_bar_warning (str_upper symbol))).
Proof.
  intros (fetch & key & Hsrc & Herr & Hkey) Hlen record. subst record.
  rewrite (run_trend_analysis ad w symbol period fetch key Hsrc).
  unfold output. simpl fst.
  rewrite (analyse_low_bars _ _ _ _ bars Herr Hkey Hlen).
  repeat split.
  exists fetch, key. split; [exact Hsrc |].
  apply (analyse_low_bars _ _ _ _ bars Herr Hkey Hlen).
Qed.

Lemma low_bar_count_warning_witness :
  let record :=
    output (run (Samples.always (Samples.daily_payload
                                   (Samples.bars_of Samples.short)))
                tt (trend_analysis "tsla" "200d")) in
  record = low_bar_warning (str_upper "tsla") /\
  dict_get "symbol" record = Some (JStr (str_upper "tsla")) /\
  dict_get "warning" record = Some (JStr "Low bar count, accuracy reduced") /\
  dict_get "error" record = None /\
  dict_get "trend_strength_score" record = None /\
  dict_get "trend_verdict" record = None /\
  dict_get "confidence" record = None /\
  dict_get "key_signals" record = None /\
  dict_get "levels" record = None /\
  (exists fetch key,
      source_of_period "200d" = Some (fetch, key) /\
      analyse (str_upper "tsla") "200d" key
              (fst (Samples.always (Samples.daily_payload
                                      (Samples.bars_of Samples.short))
                      tt fetch (str_upper "tsla"))) =
        inr (low_bar_warning (str_upper "tsla"))).
Proof.
  apply (low_bar_count_warning
           (Samples.always (Samples.daily_payload
                              (Samples.bars_of Samples.short)))
           tt "tsla" "200d" (Samples.bars_of Samples.short)).
  - apply always_delivers.
  - apply Nat.ltb_lt. reflexivity.
Defined.

(** C10.  When the payload has no ["error"] field and the key of the period
    is absent from it, the lookup defaults to the empty list and
    [trend_analysis] returns the low-bar-count warning: neither an error
    record nor a raised fault. *)
Theorem missing_bar_key_gives_warning {W : Type} (ad : Adapter W) (w : W)
    (symbol period : string) (fetch : Fetcher) (key : string) :
  source_of_period period = Some (fetch, key) ->
  dict_mem "error" (fst (ad w fetch (str_upper symbol))) = false ->
  dict_get key (fst (ad w fetch (str_upper symbol))) = None ->
  let record := output (run ad w (trend_analysis symbol period)) in
  analyse (str_upper symbol) period key (fst (ad w fetch (str_upper symbol))) =
    inr (low_bar_warning (str_upper symbol)) /\
  record = low_bar_warning (str_upper symbol) /\
  dict_get "warning" record = Some (JStr "Low bar count, accuracy reduced") /\
  dict_get "error" record = None.
Proof.
  intros Hsrc Herr Hkey record. subst record.
  rewrite (run_trend_analysis ad w symbol period fetch key Hsrc).
  unfold output. simpl fst.
  assert (Ha : analyse (str_upper symbol) period key
                 (fst (ad w fetch (str_upper symbol))) =
               inr (low_bar_warning (str_upper symbol))).
  { unfold analyse. rewrite Herr, Hkey. reflexivity. }
  rewrite Ha. repeat split.
Qed.

Lemma missing_bar_key_gives_warning_witness :
  let record :=
    output (run (Samples.always Samples.no_bars_payload) tt
                (trend_analysis "tsla" "30d")) in
  analyse (str_upper "tsla") "30d" "hourly_ohlcv_1month"
      (fst (Samples.always Samples.no_bars_payload tt
              price_ohlcv_month_hourly (str_upper "tsla"))) =
    inr (low_bar_warning (str_upper "tsla")) /\
  record = low_bar_warning (str_upper "tsla") /\
  dict_get "warning" record = Some (JStr "Low bar count, accuracy reduced") /\
  dict_get "error" record = None.
Proof.
  apply (missing_bar_key_gives_warning
           (Samples.always Samples.no_bars_payload) tt "tsla" "30d"
           price_ohlcv_month_hourly "hourly_ohlcv_1month");
    reflexivity.
Defined.

(** ** Bollinger bands *)

Lemma result_bollinger_position (symbol period : string) bars :
  key_signal "bollinger_position" (result symbol period bars) =
    Some (JStr (bollinger_position (bb_position (close_column bars)))).
Proof. reflexivity. Qed.

Lemma result_bb_squeeze (symbol period : string) bars :
  key_signal "bb_squeeze" (result symbol period bars) =
    Some (JStr (if bb_squeeze (close_column bars) then "YES" else "NO")).
Proof. reflexivity. Qed.

(** C8.  Whenever the upper and the lower band are equal, [bb_position] is
    exactly 0.5 and the bucket reported is "middle"; and the squeeze is
    reported ("YES") exactly when [(upper - lower) / sma20 < 0.08]. *)
Theorem bollinger_position_and_squeeze {W : Type} (ad : Adapter W) (w : W)
    (symbol period : string) (bars : list Bar) :
  delivers ad w symbol period bars ->
  (30 <= List.length bars)%nat ->
  let close := close_column bars in
  let record := output (run ad w (trend_analysis symbol period)) in
  (PrimFloat.eqb (upper close) (lower close) = true ->
     bb_position close = 0.5 /\
     key_signal "bollinger_position" record = Some (JStr "middle")) /\
  (key_signal "bb_squeeze" record = Some (JStr "YES") <->
     PrimFloat.ltb ((upper close - lower close) / sma20 close) 0.08 = true).
Proof.
  intros Hd Hlen close record. subst close record.
  rewrite (delivers_result ad w symbol period bars Hd Hlen).
  rewrite result_bollinger_position, result_bb_squeeze. split.
  - intros Heq.
    assert (Hpos : bb_position (close_column bars) = 0.5).
    { unfold bb_position, neqb. rewrite Heq. reflexivity. }
    rewrite Hpos. split; reflexivity.
  - unfold bb_squeeze, bb_width.
    destruct (PrimFloat.ltb _ 0.08); split; intros H;
      try reflexivity; discriminate H.
Qed.

Lemma bollinger_position_and_squeeze_witness :
  let close := close_column (Samples.bars_of Samples.constant) in
  let record :=
    output (run (Samples.always (Samples.daily_payload
                                   (Samples.bars_of Samples.constant)))
                tt (trend_analysis "tsla" "200d")) in
  PrimFloat.eqb (upper close) (lower close) = true /\
  bb_position close = 0.5 /\
  key_signal "bollinger_position" record = Some (JStr "middle") /\
  key_signal "bb_squeeze" record = Some (JStr "YES").
Proof.
  cbv zeta.
  assert (Hd : delivers (Samples.always (Samples.daily_payload
                                           (Samples.bars_of Samples.constant)))
                 tt "tsla" "200d" (Samples.bars_of Samples.constant))
    by apply always_delivers.
  assert (Hlen : (30 <= List.length (Samples.bars_of Samples.constant))%nat)
    by (apply Nat.leb_le; reflexivity).
  assert (Heq : PrimFloat.eqb
                  (upper (close_column (Samples.bars_of Samples.constant)))
                  (lower (close_column (Samples.bars_of Samples.constant)))
                = true) by reflexivity.
  destruct (bollinger_position_and_squeeze _ tt "tsla" "200d" _ Hd Hlen)
    as [Hmid Hsq].
  destruct (Hmid Heq) as [Hpos Hbucket].
  split; [exact Heq |]. split; [exact Hpos |]. split; [exact Hbucket |].
  apply Hsq. reflexivity.
Defined.

(** ** Determinism *)

(** C9.  The record is a function of the symbol, the period and the bars
    delivered: two invocations, under any two providers in any two states of
    the world, return the same record and make the same call as soon as the
    payloads they receive are the same, or are both free of ["error"] and
    hold the same bar sequence.  Nothing else is read, and nothing is kept
    from one invocation to the next. *)
Theorem trend_analysis_deterministic {W1 W2 : Type}
    (ad1 : Adapter W1) (ad2 : Adapter W2) (w1 : W1) (w2 : W2)
    (symbol period : string) :
  (forall fetch key,
      source_of_period period = Some (fetch, key) ->
      let data1 := fst (ad1 w1 fetch (str_upper symbol)) in
      let data2 := fst (ad2 w2 fetch (str_upper symbol)) in
      data1 = data2 \/
      (dict_mem "error" data1 = false /\
       dict_mem "error" data2 = false /\
       dict_get key data1 = dict_get key data2)) ->
  output (run ad1 w1 (trend_analysis symbol period)) =
    output (run ad2 w2 (trend_analysis symbol period)) /\
  calls_made (run ad1 w1 (trend_analysis symbol period)) =
    calls_made (run ad2 w2 (trend_analysis symbol period)).
Proof.
  intros Hsame.
  destruct (source_of_period period) as [[fetch key] |] eqn:Hsrc.
  - rewrite (run_trend_analysis ad1 w1 symbol period fetch key Hsrc).
    rewrite (run_trend_analysis ad2 w2 symbol period fetch key Hsrc).
    unfold output, calls_made. simpl fst. simpl snd.
    split; [| reflexivity].
    destruct (Hsame fetch key eq_refl) as [Heq | (He1 & He2 & Hbars)].
    + rewrite Heq. reflexivity.
    + unfold analyse. rewrite He1, He2, Hbars. reflexivity.
  - rewrite !run_trend_analysis_bad_period by exact Hsrc.
    split; reflexivity.
Qed.

Lemma trend_analysis_deterministic_witness :
  let data := Samples.daily_payload (Samples.bars_of Samples.rising) in
  output (run (Samples.counting data) 0%nat (trend_analysis "tsla" "200d")) =
    output (run (Samples.counting data) 1%nat (trend_analysis "tsla" "200d")) /\
  calls_made (run (Samples.counting data) 0%nat (trend_analysis "tsla" "200d")) =
    calls_made (run (Samples.counting data) 1%nat
                    (trend_analysis "tsla" "200d")).
Proof.
  apply (trend_analysis_deterministic
           (Samples.counting (Samples.daily_payload
                                (Samples.bars_of Samples.rising)))
           (Samples.counting (Samples.daily_payload
                                (Samples.bars_of Samples.rising)))
           0%nat 1%nat "tsla" "200d").
  intros fetch key _. left. reflexivity.
Defined.

(** ** The order of float64 values *)

Lemma SFcompare_refl (s : spec_float) :
  s <> S754_nan -> SFcompare s s = Some Eq.
Proof.
  destruct s as [b | b | | b m e]; intros Hn; try congruence;
    destruct b; simpl; try reflexivity;
    rewrite Z.compare_refl, Pos.compare_cont_refl; reflexivity.
Qed.

Ltac spec_float_cases :=
  repeat match goal with
         | b : bool |- _ => destruct b
         end;
  simpl in *; try congruence;
  repeat match goal with
         | H : context [Pos.compare_cont Eq ?a ?b] |- _ =>
             change (Pos.compare_cont Eq a b) with (Pos.compare a b) in H
         | |- context [Pos.compare_cont Eq ?a ?b] =>
             change (Pos.compare_cont Eq a b) with (Pos.compare a b)
         end;
  repeat match goal with
         | H : context [Z.compare ?a ?b] |- _ =>
             destruct (Z.compare_spec a b); simpl in *; try congruence
         | |- context [Z.compare ?a ?b] =>
             destruct (Z.compare_spec a b); simpl in *; try congruence
         end;
  repeat match goal with
         | H : context [Pos.compare ?a ?b] |- _ =>
             destruct (Pos.compare_spec a b); simpl in *; try congruence
         | |- context [Pos.compare ?a ?b] =>
             destruct (Pos.compare_spec a b); simpl in *; try congruence
         end;
  try lia.

Lemma SFcompare_Lt_trans (x y z : spec_float) :
  SFcompare x y = Some Lt -> SFcompare y z = Some Lt ->
  SFcompare x z = Some Lt.
Proof.
  destruct x as [bx | bx | | bx mx ex], y as [by' | by' | | by' my ey],
    z as [bz | bz | | bz mz ez]; intros Hxy Hyz; spec_float_cases.
Qed.

Lemma SFcompare_Eq_Lt (x y z : spec_float) :
  SFcompare x y = Some Eq -> SFcompare y z = Some Lt ->
  SFcompare x z = Some Lt.
Proof.
  destruct x as [bx | bx | | bx mx ex], y as [by' | by' | | by' my ey],
    z as [bz | bz | | bz mz ez]; intros Hxy Hyz; spec_float_cases.
Qed.

Lemma SFcompare_not_Lt (x y : spec_float) :
  x <> S754_nan -> y <> S754_nan ->
  SFcompare x y <> Some Lt ->
  SFcompare y x = Some Lt \/ SFcompare y x = Some Eq.
Proof.
  destruct x as [bx | bx | | bx mx ex], y as [by' | by' | | by' my ey];
    intros Hx Hy Hxy; try congruence; spec_float_cases; auto.
Qed.

Lemma SFcompare_Eq_sym (x y : spec_float) :
  SFcompare x y = Some Eq -> SFcompare y x = Some Eq.
Proof.
  destruct x as [bx | bx | | bx mx ex], y as [by' | by' | | by' my ey];
    intros Hxy; spec_float_cases.
Qed.

Lemma is_nan_spec (x : float) :
  PrimFloat.is_nan x = false <-> Prim2SF x <> S754_nan.
Proof.
  unfold PrimFloat.is_nan. rewrite FloatAxioms.eqb_spec. unfold SFeqb. split.
  - intros H Hn. rewrite Hn in H. discriminate H.
  - intros Hn. rewrite (SFcompare_refl _ Hn). reflexivity.
Qed.

Lemma leb_refl (x : float) :
  PrimFloat.is_nan x = false -> PrimFloat.leb x x = true.
Proof.
  intros Hx. apply is_nan_spec in Hx.
  rewrite FloatAxioms.leb_spec. unfold SFleb.
  rewrite (SFcompare_refl _ Hx). reflexivity.
Qed.

Lemma ltb_trans (x y z : float) :
  PrimFloat.ltb x y = true -> PrimFloat.ltb y z = true ->
  PrimFloat.ltb x z = true.
Proof.
  rewrite !FloatAxioms.ltb_spec. unfold SFltb. intros Hxy Hyz.
  destruct (SFcompare (Prim2SF x) (Prim2SF y)) as [[ | | ] |] eqn:Exy;
    try discriminate Hxy.
  destruct (SFcompare (Prim2SF y) (Prim2SF z)) as [[ | | ] |] eqn:Eyz;
    try discriminate Hyz.
  rewrite (SFcompare_Lt_trans _ _ _ Exy Eyz). reflexivity.
Qed.

Lemma leb_ltb_trans (x y z : float) :
  PrimFloat.leb x y = true -> PrimFloat.ltb y z = true ->
  PrimFloat.leb x z = true.
Proof.
  rewrite !FloatAxioms.leb_spec, FloatAxioms.ltb_spec.
  unfold SFleb, SFltb. intros Hxy Hyz.
  destruct (SFcompare (Prim2SF y) (Prim2SF z)) as [[ | | ] |] eqn:Eyz;
    try discriminate Hyz.
  destruct (SFcompare (Prim2SF x) (Prim2SF y)) as [[ | | ] |] eqn:Exy;
    try discriminate Hxy.
  - rewrite (SFcompare_Eq_Lt _ _ _ Exy Eyz). reflexivity.
  - rewrite (SFcompare_Lt_trans _ _ _ Exy Eyz). reflexivity.
Qed.

Lemma not_ltb_leb (x y : float) :
  PrimFloat.is_nan x = false -> PrimFloat.is_nan y = false ->
  PrimFloat.ltb x y = false -> PrimFloat.leb y x = true.
Proof.
  intros Hx Hy. apply is_nan_spec in Hx, Hy.
  rewrite FloatAxioms.leb_spec, FloatAxioms.ltb_spec.
  unfold SFleb, SFltb. intros Hxy.
  destruct (SFcompare_not_Lt _ _ Hx Hy) as [-> | ->]; try reflexivity.
  intros E. rewrite E in Hxy. discriminate Hxy.
Qed.

Lemma eqb_not_ltb (x y : float) :
  PrimFloat.eqb x y = true ->
  PrimFloat.ltb x y = false /\ PrimFloat.ltb y x = false.
Proof.
  rewrite FloatAxioms.eqb_spec, !FloatAxioms.ltb_spec.
  unfold SFeqb, SFltb. intros H.
  destruct (SFcompare (Prim2SF x) (Prim2SF y)) as [[ | | ] |] eqn:Exy;
    try discriminate H.
  rewrite (SFcompare_Eq_sym _ _ Exy). split; reflexivity.
Qed.

Lemma nan_not_ltb (x y : float) :
  PrimFloat.is_nan x = true \/ PrimFloat.is_nan y = true ->
  PrimFloat.ltb x y = false.
Proof.
  intros H. rewrite FloatAxioms.ltb_spec. unfold SFltb.
  assert (Hn : Prim2SF x = S754_nan \/ Prim2SF y = S754_nan).
  { destruct H as [H | H]; [left | right];
      destruct (Prim2SF _) eqn:E; try reflexivity;
      exfalso;
      match type of H with
      | PrimFloat.is_nan ?v = true =>
          assert (Hf : PrimFloat.is_nan v = false)
            by (apply is_nan_spec; rewrite E; discriminate);
          rewrite Hf in H; discriminate H
      end. }
  destruct Hn as [-> | ->]; [reflexivity |].
  destruct (Prim2SF x); reflexivity.
Qed.

(** ** Symbols *)

Lemma upper_ascii_idempotent (c : ascii) :
  upper_ascii (upper_ascii c) = upper_ascii c.
Proof.
  destruct c as [[] [] [] [] [] [] [] []]; reflexivity.
Qed.

Lemma str_upper_idempotent (s : string) : str_upper (str_upper s) = str_upper s.
Proof.
  induction s as [| c rest IH]; simpl.
  - reflexivity.
  - rewrite upper_ascii_idempotent, IH. reflexivity.
Qed.

(** X1.  The symbol is read without regard to case: [trend_analysis] on a
    symbol and on its upper-case form are the same computation, and so are
    the computations on any two symbols that differ by case only. *)
Theorem symbol_case_is_ignored (symbol period : string) :
  trend_analysis (str_upper symbol) period = trend_analysis symbol period /\
  (forall other : string,
      str_upper other = str_upper symbol ->
      trend_analysis other period = trend_analysis symbol period).
Proof.
  split.
  - unfold trend_analysis. rewrite str_upper_idempotent. reflexivity.
  - intros other Hsame. unfold trend_analysis. rewrite Hsame. reflexivity.
Qed.

(** ** Records of the diagnostic paths *)

Lemma dict_get_json_of_payload (key : string) (data : Payload) :
  dict_get key (json_of_payload data) =
    option_map json_of_pval (dict_get key data).
Proof.
  induction data as [| [k v] rest IH]; simpl.
  - reflexivity.
  - destruct (String.eqb key k); [reflexivity | exact IH].
Qed.

(** X2.  A payload with an ["error"] field is handed back as it is, field by
    field, whatever else it holds: no warning is added and no bar of it is
    analysed, even when it holds thirty bars or more. *)
Theorem adapter_error_is_handed_back {W : Type} (ad : Adapter W) (w : W)
    (symbol period : string) (fetch : Fetcher) (key : string) :
  source_of_period period = Some (fetch, key) ->
  dict_mem "error" (fst (ad w fetch (str_upper symbol))) = true ->
  let data := fst (ad w fetch (str_upper symbol)) in
  let record := output (run ad w (trend_analysis symbol period)) in
  record = json_of_payload data /\
  (forall field : string,
      dict_get field record = option_map json_of_pval (dict_get field data)) /\
  (dict_get "warning" data = None -> dict_get "warning" record = None) /\
  (dict_get "trend_verdict" data = None ->
   dict_get "trend_verdict" record = None).
Proof.
  intros Hsrc Herr data record. subst data record.
  rewrite (run_trend_analysis ad w symbol period fetch key Hsrc).
  unfold output. simpl fst. unfold analyse. rewrite Herr. simpl handle.
  split; [reflexivity |].
  split; [intros field; apply dict_get_json_of_payload |].
  split; intros Hnone; rewrite dict_get_json_of_payload, Hnone; reflexivity.
Qed.

Lemma adapter_error_is_handed_back_witness :
  let data := fst (Samples.always Series.error_with_bars tt
                     price_ohlcv_200d_daily (str_upper "tsla")) in
  let record :=
    output (run (Samples.always Series.error_with_bars) tt
                (trend_analysis "tsla" "200d")) in
  record = json_of_payload data /\
  (forall field : string,
      dict_get field record = option_map json_of_pval (dict_get field data)) /\
  (dict_get "warning" data = None -> dict_get "warning" record = None) /\
  (dict_get "trend_verdict" data = None ->
   dict_get "trend_verdict" record = None).
Proof.
  apply (adapter_error_is_handed_back
           (Samples.always Series.error_with_bars) tt "tsla" "200d"
           price_ohlcv_200d_daily "daily_ohlcv_200d"); reflexivity.
Defined.

Lemma handled_record_names_symbol (symbol period key : string)
    (data : Payload) :
  dict_mem "error" data = false ->
  dict_get "symbol" (handle symbol (analyse symbol period key data)) =
    Some (JStr symbol).
Proof.
  intros Herr. unfold analyse. rewrite Herr.
  destruct (dict_get key data) as [[s | z | f | bars] |]; simpl;
    try reflexivity;
    match goal with
    | |- context [Nat.ltb ?n 30] => destruct (Nat.ltb n 30); reflexivity
    end.
Qed.

(** X3.  With a period of the three and a payload without ["error"], the
    record carries the symbol in upper case on every path: the low-bar
    warning, the caught exception and the completed analysis, whatever the
    payload holds under the key of the bars. *)
Theorem record_names_the_symbol {W : Type} (ad : Adapter W) (w : W)
    (symbol period : string) (fetch : Fetcher) (key : string) :
  source_of_period period = Some (fetch, key) ->
  dict_mem "error" (fst (ad w fetch (str_upper symbol))) = false ->
  dict_get "symbol" (output (run ad w (trend_analysis symbol period))) =
    Some (JStr (str_upper symbol)).
Proof.
  intros Hsrc Herr.
  rewrite (run_trend_analysis ad w symbol period fetch key Hsrc).
  unfold output. simpl fst.
  apply handled_record_names_symbol. exact Herr.
Qed.

Lemma record_names_the_symbol_witness :
  dict_get "symbol"
      (output (run (Samples.always Samples.no_bars_payload) tt
                   (trend_analysis "tsla" "7d"))) =
    Some (JStr (str_upper "tsla")).
Proof.
  apply (record_names_the_symbol
           (Samples.always Samples.no_bars_payload) tt "tsla" "7d"
           price_ohlcv_weekly_hourly "hourly_ohlcv_last_week"); reflexivity.
Defined.

(** ** Ties *)

Lemma result_ema_9_21 (symbol period : string) bars :
  key_signal "ema_9_21" (result symbol period bars) =
    Some (JStr (str_upper (ema_trend (close_column bars)))).
Proof. reflexivity. Qed.

Lemma result_macd (symbol period : string) bars :
  key_signal "macd" (result symbol period bars) =
    Some (JStr (str_upper (macd_signal (close_column bars)))).
Proof. reflexivity. Qed.

(** X4.  A tie is bearish.  When EMA9 equals EMA21, or one of them is NaN,
    the record reports the EMA trend BEARISH; when the MACD line equals its
    signal line, or the histogram equals its previous value, the record
    reports the MACD signal BEARISH. *)
Theorem tie_is_bearish {W : Type} (ad : Adapter W) (w : W)
    (symbol period : string) (bars : list Bar) :
  delivers ad w symbol period bars ->
  (30 <= List.length bars)%nat ->
  let close := close_column bars in
  let record := output (run ad w (trend_analysis symbol period)) in
  (PrimFloat.eqb (ema9 close) (ema21 close) = true \/
   PrimFloat.is_nan (ema9 close) = true \/
   PrimFloat.is_nan (ema21 close) = true ->
   key_signal "ema_9_21" record = Some (JStr "BEARISH")) /\
  (PrimFloat.eqb (last_of (macd_line close)) (last_of (signal_line close))
     = true \/
   PrimFloat.eqb (last_of (macd_hist close)) (iloc_m2 (macd_hist close))
     = true ->
   key_signal "macd" record = Some (JStr "BEARISH")).
Proof.
  intros Hd Hlen close record. subst close record.
  rewrite (delivers_result ad w symbol period bars Hd Hlen).
  rewrite result_ema_9_21, result_macd. split.
  - intros Htie.
    assert (Hgt : gtb (ema9 (close_column bars)) (ema21 (close_column bars))
                  = false).
    { unfold gtb. destruct Htie as [Heq | Hnan].
      - apply (eqb_not_ltb _ _ Heq).
      - apply nan_not_ltb. tauto. }
    unfold ema_trend. rewrite Hgt. reflexivity.
  - intros Htie. unfold macd_signal, gtb.
    destruct Htie as [Heq | Heq];
      destruct (eqb_not_ltb _ _ Heq) as [H1 H2].
    + rewrite H2. reflexivity.
    + rewrite H2, andb_false_r. reflexivity.
Qed.

Lemma tie_is_bearish_witness :
  (PrimFloat.eqb (ema9 (close_column (Samples.bars_of Series.flat)))
                 (ema21 (close_column (Samples.bars_of Series.flat)))
     = true /\
   key_signal "ema_9_21" (Samples.analysis_of Series.flat) =
     Some (JStr "BEARISH")) /\
  (PrimFloat.eqb
     (last_of (macd_line (close_column (Samples.bars_of Series.flat))))
     (last_of (signal_line (close_column (Samples.bars_of Series.flat))))
     = true /\
   key_signal "macd" (Samples.analysis_of Series.flat) =
     Some (JStr "BEARISH")).
Proof.
  assert (Hd : delivers (Samples.always (Samples.daily_payload
                                           (Samples.bars_of Series.flat)))
                 tt "tsla" "200d" (Samples.bars_of Series.flat))
    by apply always_delivers.
  assert (Hlen : (30 <= List.length (Samples.bars_of Series.flat))%nat)
    by (apply Nat.leb_le; reflexivity).
  assert (Hema : PrimFloat.eqb
                   (ema9 (close_column (Samples.bars_of Series.flat)))
                   (ema21 (close_column (Samples.bars_of Series.flat)))
                 = true) by reflexivity.
  assert (Hmacd : PrimFloat.eqb
                    (last_of (macd_line
                                (close_column (Samples.bars_of Series.flat))))
                    (last_of (signal_line
                                (close_column (Samples.bars_of Series.flat))))
                  = true) by reflexivity.
  destruct (tie_is_bearish _ tt "tsla" "200d" _ Hd Hlen) as [Hfirst Hsecond].
  split; split.
  - exact Hema.
  - apply Hfirst. left. exact Hema.
  - exact Hmacd.
  - apply Hsecond. left. exact Hmacd.
Defined.

(** ** What the signals do to the score *)

Lemma above_excludes_below (x lo hi : float) :
  PrimFloat.ltb lo hi = true ->
  PrimFloat.ltb x lo = true -> PrimFloat.ltb hi x = false.
Proof.
  intros Hlohi Hx. destruct (PrimFloat.ltb hi x) eqn:Hhi; [| reflexivity].
  pose proof (ltb_trans _ _ _ Hhi Hx) as Hcontra.
  pose proof (ltb_trans _ _ _ Hlohi Hcontra) as Hrefl.
  assert (Hn : PrimFloat.is_nan lo = false).
  { destruct (PrimFloat.is_nan lo) eqn:E; [| reflexivity].
    rewrite (nan_not_ltb lo hi (or_introl E)) in Hlohi. discriminate Hlohi. }
  apply is_nan_spec in Hn.
  rewrite FloatAxioms.ltb_spec in Hrefl. unfold SFltb in Hrefl.
  rewrite (SFcompare_refl _ Hn) in Hrefl. discriminate Hrefl.
Qed.

(** X5.  Unanimous signals saturate the score whatever the volume does.
    With a percent change above 3, both trend signals bullish, an RSI above
    55 and a last close above SMA20, the record is 100 / VERY BULLISH / High;
    with a percent change below -3, both trend signals bearish, an RSI below
    45 and a last close not above SMA20, it is 0 / VERY BEARISH / High. *)
Theorem unanimous_signals_saturate {W : Type} (ad : Adapter W) (w : W)
    (symbol period : string) (bars : list Bar) :
  delivers ad w symbol period bars ->
  (30 <= List.length bars)%nat ->
  let close := close_column bars in
  let record := output (run ad w (trend_analysis symbol period)) in
  (gtb (pct_change close) 3 = true ->
   ema_trend close = "bullish" -> macd_signal close = "bullish" ->
   gtb (float_of_num (rsi close)) 55 = true ->
   gtb (last_of close) (sma20 close) = true ->
   dict_get "trend_strength_score" record = Some (JInt 100) /\
   dict_get "trend_verdict" record = Some (JStr "VERY BULLISH") /\
   dict_get "confidence" record = Some (JStr "High")) /\
  (PrimFloat.ltb (pct_change close) (-3) = true ->
   ema_trend close = "bearish" -> macd_signal close = "bearish" ->
   PrimFloat.ltb (float_of_num (rsi close)) 45 = true ->
   gtb (last_of close) (sma20 close) = false ->
   dict_get "trend_strength_score" record = Some (JInt 0) /\
   dict_get "trend_verdict" record = Some (JStr "VERY BEARISH") /\
   dict_get "confidence" record = Some (JStr "High")).
Proof.
  intros Hd Hlen close record. subst close record.
  rewrite (delivers_result ad w symbol period bars Hd Hlen).
  rewrite result_score, result_verdict, result_confidence. split.
  - intros Hpct Hema Hmacd Hrsi Hsma.
    assert (Hs : score (close_column bars) (volume_column bars) = 100%Z).
    { unfold score, trend_strength_score.
      rewrite Hpct, Hema, Hmacd, Hrsi, Hsma. simpl String.eqb.
      destruct (gtb (vol_ratio (volume_column bars)) 1.3); reflexivity. }
    rewrite Hs. repeat split.
  - intros Hpct Hema Hmacd Hrsi Hsma.
    assert (Hpct' : gtb (pct_change (close_column bars)) 3 = false).
    { unfold gtb. apply (above_excludes_below _ (-3) 3); [reflexivity | exact Hpct]. }
    assert (Hrsi' : gtb (float_of_num (rsi (close_column bars))) 55 = false).
    { unfold gtb. apply (above_excludes_below _ 45 55); [reflexivity | exact Hrsi]. }
    assert (Hs : score (close_column bars) (volume_column bars) = 0%Z).
    { unfold score, trend_strength_score.
      rewrite Hpct', Hpct, Hema, Hmacd, Hrsi', Hrsi, Hsma. simpl String.eqb.
      destruct (gtb (vol_ratio (volume_column bars)) 1.3); reflexivity. }
    rewrite Hs. repeat split.
Qed.

Lemma unanimous_signals_saturate_witness :
  (dict_get "trend_strength_score" (Samples.analysis_of Series.accelerating)
     = Some (JInt 100) /\
   dict_get "trend_verdict" (Samples.analysis_of Series.accelerating)
     = Some (JStr "VERY BULLISH") /\
   dict_get "confidence" (Samples.analysis_of Series.accelerating)
     = Some (JStr "High")) /\
  (dict_get "trend_strength_score" (Samples.analysis_of Series.collapsing)
     = Some (JInt 0) /\
   dict_get "trend_verdict" (Samples.analysis_of Series.collapsing)
     = Some (JStr "VERY BEARISH") /\
   dict_get "confidence" (Samples.analysis_of Series.collapsing)
     = Some (JStr "High")).
Proof.
  assert (Hup : (30 <= List.length (Samples.bars_of Series.accelerating))%nat)
    by (apply Nat.leb_le; reflexivity).
  assert (Hdown : (30 <= List.length (Samples.bars_of Series.collapsing))%nat)
    by (apply Nat.leb_le; reflexivity).
  split.
  - apply (proj1 (unanimous_signals_saturate
                    (Samples.always (Samples.daily_payload
                                       (Samples.bars_of Series.accelerating)))
                    tt "tsla" "200d" (Samples.bars_of Series.accelerating)
                    (always_delivers _ _) Hup));
      vm_compute; reflexivity.
  - apply (proj2 (unanimous_signals_saturate
                    (Samples.always (Samples.daily_payload
                                       (Samples.bars_of Series.collapsing)))
                    tt "tsla" "200d" (Samples.bars_of Series.collapsing)
                    (always_delivers _ _) Hdown));
      vm_compute; reflexivity.
Defined.

(** X6.  The two trend signals bound the verdict.  With the EMA trend and
    the MACD signal both bearish the score is at most 63 and the verdict is
    never VERY BULLISH; with both bullish the score is at least 37 and the
    verdict is never VERY BEARISH. *)
Theorem trend_signals_bound_the_verdict {W : Type} (ad : Adapter W) (w : W)
    (symbol period : string) (bars : list Bar) :
  delivers ad w symbol period bars ->
  (30 <= List.length bars)%nat ->
  let close := close_column bars in
  let record := output (run ad w (trend_analysis symbol period)) in
  exists s : Z,
    dict_get "trend_strength_score" record = Some (JInt s) /\
    (ema_trend close = "bearish" -> macd_signal close = "bearish" ->
     (s <= 63)%Z /\
     dict_get "trend_verdict" record <> Some (JStr "VERY BULLISH")) /\
    (ema_trend close = "bullish" -> macd_signal close = "bullish" ->
     (37 <= s)%Z /\
     dict_get "trend_verdict" record <> Some (JStr "VERY BEARISH")).
Proof.
  intros Hd Hlen close record. subst close record.
  rewrite (delivers_result ad w symbol period bars Hd Hlen).
  exists (score (close_column bars) (volume_column bars)).
  rewrite result_score, result_verdict.
  split; [reflexivity |]. split; intros Hema Hmacd.
  - assert (Hs : (score (close_column bars) (volume_column bars) <= 63)%Z).
    { unfold score, trend_strength_score. rewrite Hema, Hmacd.
      simpl String.eqb.
      repeat match goal with
             | |- context [if ?c then _ else _] => destruct c
             end; lia. }
    split; [exact Hs |].
    unfold verdict.
    destruct (Z.geb_spec (score (close_column bars) (volume_column bars)) 75);
      [lia |].
    repeat match goal with
           | |- context [if ?c then _ else _] => destruct c
           end; discriminate.
  - assert (Hs : (37 <= score (close_column bars) (volume_column bars))%Z).
    { unfold score, trend_strength_score. rewrite Hema, Hmacd.
      simpl String.eqb.
      repeat match goal with
             | |- context [if ?c then _ else _] => destruct c
             end; lia. }
    split; [exact Hs |].
    unfold verdict.
    repeat match goal with
           | |- context [(?a >=? ?b)%Z] => destruct (Z.geb_spec a b)
           end; try discriminate; lia.
Qed.

Lemma trend_signals_bound_the_verdict_witness :
  exists s : Z,
    dict_get "trend_strength_score" (Samples.analysis_of Series.collapsing)
      = Some (JInt s) /\
    (ema_trend (close_column (Samples.bars_of Series.collapsing)) = "bearish" ->
     macd_signal (close_column (Samples.bars_of Series.collapsing)) = "bearish" ->
     (s <= 63)%Z /\
     dict_get "trend_verdict" (Samples.analysis_of Series.collapsing)
       <> Some (JStr "VERY BULLISH")) /\
    (ema_trend (close_column (Samples.bars_of Series.collapsing)) = "bullish" ->
     macd_signal (close_column (Samples.bars_of Series.collapsing)) = "bullish" ->
     (37 <= s)%Z /\
     dict_get "trend_verdict" (Samples.analysis_of Series.collapsing)
       <> Some (JStr "VERY BEARISH")).
Proof.
  apply (trend_signals_bound_the_verdict
           (Samples.always (Samples.daily_payload
                              (Samples.bars_of Series.collapsing)))
           tt "tsla" "200d" (Samples.bars_of Series.collapsing)).
  - apply always_delivers.
  - apply Nat.leb_le. reflexivity.
Defined.

(** ** Volume *)

Lemma result_volume_spike (symbol period : string) bars :
  key_signal "volume_spike" (result symbol period bars) =
    Some (JBool (gtb (vol_ratio (volume_column bars)) 1.5)).
Proof. reflexivity. Qed.

Lemma zero_window (window : list Bar) :
  Forall (fun b => volume b = 0%Z) window ->
  map (fun b => float_of_Z (volume b)) window = repeat 0 (List.length window).
Proof.
  induction 1 as [| b rest Hb _ IH]; simpl.
  - reflexivity.
  - rewrite Hb, IH. reflexivity.
Qed.

(** X7.  When none of the last 20 bars was traded the average volume is
    zero and nothing is divided by it: the volume ratio is the default 1, no
    volume spike is reported, and the volume delta of the score is -8. *)
Theorem untraded_window_defaults {W : Type} (ad : Adapter W) (w : W)
    (symbol period : string) (bars : list Bar) :
  delivers ad w symbol period bars ->
  (30 <= List.length bars)%nat ->
  Forall (fun b => volume b = 0%Z) (tail_slice 20 bars) ->
  let record := output (run ad w (trend_analysis symbol period)) in
  vol_sma (volume_column bars) = 0 /\
  vol_ratio (volume_column bars) = 1 /\
  key_signal "volume_spike" record = Some (JBool false) /\
  Stated.delta_volume (vol_ratio (volume_column bars)) = (-8)%Z.
Proof.
  intros Hd Hlen Hzero record. subst record.
  rewrite (delivers_result ad w symbol period bars Hd Hlen).
  assert (Hsma : vol_sma (volume_column bars) = 0).
  { unfold vol_sma, volume_column.
    apply rolling_mean_constant_tail;
      [lia | rewrite length_map; lia | | reflexivity].
    rewrite tail_slice_map, (zero_window _ Hzero).
    rewrite tail_slice_length by lia. reflexivity. }
  assert (Hratio : vol_ratio (volume_column bars) = 1).
  { unfold vol_ratio. rewrite Hsma. reflexivity. }
  rewrite result_volume_spike, Hratio.
  repeat split; try assumption; reflexivity.
Qed.

Lemma untraded_window_defaults_witness :
  let record :=
    output (run (Samples.always (Samples.daily_payload Series.untraded)) tt
                (trend_analysis "tsla" "200d")) in
  vol_sma (volume_column Series.untraded) = 0 /\
  vol_ratio (volume_column Series.untraded) = 1 /\
  key_signal "volume_spike" record = Some (JBool false) /\
  Stated.delta_volume (vol_ratio (volume_column Series.untraded)) = (-8)%Z.
Proof.
  apply (untraded_window_defaults
           (Samples.always (Samples.daily_payload Series.untraded))
           tt "tsla" "200d" Series.untraded).
  - apply always_delivers.
  - apply Nat.leb_le. reflexivity.
  - vm_compute. repeat constructor.
Defined.

(** X8.  A volume spike is never reported without the +8 of the score: a
    ratio above 1.5 is above 1.3. *)
Theorem volume_spike_scores {W : Type} (ad : Adapter W) (w : W)
    (symbol period : string) (bars : list Bar) :
  delivers ad w symbol period bars ->
  (30 <= List.length bars)%nat ->
  key_signal "volume_spike"
      (output (run ad w (trend_analysis symbol period))) =
    Some (JBool true) ->
  gtb (vol_ratio (volume_column bars)) 1.3 = true /\
  Stated.delta_volume (vol_ratio (volume_column bars)) = 8%Z.
Proof.
  intros Hd Hlen.
  rewrite (delivers_result ad w symbol period bars Hd Hlen).
  rewrite result_volume_spike. intros Hspike.
  assert (H15 : PrimFloat.ltb 1.5 (vol_ratio (volume_column bars)) = true).
  { unfold gtb in Hspike.
    destruct (PrimFloat.ltb 1.5 (vol_ratio (volume_column bars)));
      [reflexivity | discriminate Hspike]. }
  assert (H13 : PrimFloat.ltb 1.3 (vol_ratio (volume_column bars)) = true).
  { apply (ltb_trans 1.3 1.5); [reflexivity | exact H15]. }
  unfold gtb, Stated.delta_volume. rewrite H13. split; reflexivity.
Qed.

Lemma volume_spike_scores_witness :
  gtb (vol_ratio (volume_column Series.busy_last)) 1.3 = true /\
  Stated.delta_volume (vol_ratio (volume_column Series.busy_last)) = 8%Z.
Proof.
  apply (volume_spike_scores
           (Samples.always (Samples.daily_payload Series.busy_last))
           tt "tsla" "200d" Series.busy_last).
  - apply always_delivers.
  - apply Nat.leb_le. reflexivity.
  - vm_compute. reflexivity.
Defined.

(** ** Support and resistance *)

Lemma SFcompare_Lt_Eq (x y z : spec_float) :
  SFcompare x y = Some Lt -> SFcompare y z = Some Eq ->
  SFcompare x z = Some Lt.
Proof.
  destruct x as [bx | bx | | bx mx ex], y as [by' | by' | | by' my ey],
    z as [bz | bz | | bz mz ez]; intros Hxy Hyz; spec_float_cases.
Qed.

Lemma ltb_leb_trans (x y z : float) :
  PrimFloat.ltb x y = true -> PrimFloat.leb y z = true ->
  PrimFloat.leb x z = true.
Proof.
  rewrite !FloatAxioms.leb_spec, FloatAxioms.ltb_spec.
  unfold SFleb, SFltb. intros Hxy Hyz.
  destruct (SFcompare (Prim2SF x) (Prim2SF y)) as [[ | | ] |] eqn:Exy;
    try discriminate Hxy.
  destruct (SFcompare (Prim2SF y) (Prim2SF z)) as [[ | | ] |] eqn:Eyz;
    try discriminate Hyz.
  - rewrite (SFcompare_Lt_Eq _ _ _ Exy Eyz). reflexivity.
  - rewrite (SFcompare_Lt_trans _ _ _ Exy Eyz). reflexivity.
Qed.

Lemma running_max (rest : list float) (m : float) (seen : list float) :
  PrimFloat.is_nan m = false ->
  Forall (fun h => PrimFloat.is_nan h = false) rest ->
  In m seen ->
  (forall z, In z seen -> PrimFloat.leb z m = true) ->
  let r := fold_left (fun m y => if gtb y m then y else m) rest m in
  In r (seen ++ rest) /\
  (forall z, In z (seen ++ rest) -> PrimFloat.leb z r = true).
Proof.
  revert m seen. induction rest as [| y rest IH]; intros m seen Hm Hrest Hin Hle.
  - simpl. rewrite app_nil_r. split; assumption.
  - inversion Hrest as [| ? ? Hy Hrest']; subst. cbv zeta. simpl fold_left.
    replace (seen ++ y :: rest) with ((seen ++ [y]) ++ rest)
      by (rewrite <- app_assoc; reflexivity).
    change (gtb y m) with (PrimFloat.ltb m y).
    destruct (PrimFloat.ltb m y) eqn:Hlt.
    + apply IH; try assumption.
      * apply in_or_app. right. left. reflexivity.
      * intros z Hz. apply in_app_or in Hz. destruct Hz as [Hz | [<- | []]].
        -- apply (leb_ltb_trans z m y); [apply Hle; exact Hz | exact Hlt].
        -- apply leb_refl. exact Hy.
    + apply IH; try assumption.
      * apply in_or_app. left. exact Hin.
      * intros z Hz. apply in_app_or in Hz. destruct Hz as [Hz | [<- | []]].
        -- apply Hle. exact Hz.
        -- apply not_ltb_leb; assumption.
Qed.

Lemma running_min (rest : list float) (m : float) (seen : list float) :
  PrimFloat.is_nan m = false ->
  Forall (fun h => PrimFloat.is_nan h = false) rest ->
  In m seen ->
  (forall z, In z seen -> PrimFloat.leb m z = true) ->
  let r := fold_left (fun m y => if PrimFloat.ltb y m then y else m) rest m in
  In r (seen ++ rest) /\
  (forall z, In z (seen ++ rest) -> PrimFloat.leb r z = true).
Proof.
  revert m seen. induction rest as [| y rest IH]; intros m seen Hm Hrest Hin Hle.
  - simpl. rewrite app_nil_r. split; assumption.
  - inversion Hrest as [| ? ? Hy Hrest']; subst. cbv zeta. simpl fold_left.
    replace (seen ++ y :: rest) with ((seen ++ [y]) ++ rest)
      by (rewrite <- app_assoc; reflexivity).
    destruct (PrimFloat.ltb y m) eqn:Hlt.
    + apply IH; try assumption.
      * apply in_or_app. right. left. reflexivity.
      * intros z Hz. apply in_app_or in Hz. destruct Hz as [Hz | [<- | []]].
        -- apply (ltb_leb_trans y m z); [exact Hlt | apply Hle; exact Hz].
        -- apply leb_refl. exact Hy.
    + apply IH; try assumption.
      * apply in_or_app. left. exact Hin.
      * intros z Hz. apply in_app_or in Hz. destruct Hz as [Hz | [<- | []]].
        -- apply Hle. exact Hz.
        -- apply not_ltb_leb; assumption.
Qed.

Lemma py_max_greatest (a : list float) :
  a <> [] ->
  Forall (fun h => PrimFloat.is_nan h = false) a ->
  In (py_max a) a /\ (forall z, In z a -> PrimFloat.leb z (py_max a) = true).
Proof.
  destruct a as [| x rest]; [congruence |]. intros _ Hall.
  inversion Hall as [| ? ? Hx Hrest]; subst.
  apply (running_max rest x [x] Hx Hrest).
  - left. reflexivity.
  - intros z [<- | []]. apply leb_refl. exact Hx.
Qed.

Lemma py_min_least (a : list float) :
  a <> [] ->
  Forall (fun h => PrimFloat.is_nan h = false) a ->
  In (py_min a) a /\ (forall z, In z a -> PrimFloat.leb (py_min a) z = true).
Proof.
  destruct a as [| x rest]; [congruence |]. intros _ Hall.
  inversion Hall as [| ? ? Hx Hrest]; subst.
  apply (running_min rest x [x] Hx Hrest).
  - left. reflexivity.
  - intros z [<- | []]. apply leb_refl. exact Hx.
Qed.

Lemma tail_slice_nonempty {A : Type} (n : nat) (a : list A) :
  (0 < n)%nat -> (n <= List.length a)%nat -> tail_slice n a <> [].
Proof.
  intros Hn Hlen Hnil.
  pose proof (tail_slice_length n a Hlen) as Hl.
  rewrite Hnil in Hl. simpl in Hl. lia.
Qed.

Lemma result_levels (symbol period : string) bars :
  level "resistance" (result symbol period bars) =
    Some (JNum (round_nd (resistance (high_column bars)) 4)) /\
  level "support" (result symbol period bars) =
    Some (JNum (round_nd (support (low_column bars)) 4)).
Proof. split; reflexivity. Qed.

(** X9.  When none of the last 20 highs and lows is NaN, the resistance
    reported is one of the last 20 highs and no high of them is above it,
    and the support reported is one of the last 20 lows and no low of them
    is below it; both are reported rounded to four places. *)
Theorem resistance_and_support_are_extremes {W : Type} (ad : Adapter W) (w : W)
    (symbol period : string) (bars : list Bar) :
  delivers ad w symbol period bars ->
  (30 <= List.length bars)%nat ->
  Forall (fun b => PrimFloat.is_nan (high b) = false /\
                   PrimFloat.is_nan (low b) = false) (tail_slice 20 bars) ->
  let record := output (run ad w (trend_analysis symbol period)) in
  let top := resistance (high_column bars) in
  let bottom := support (low_column bars) in
  level "resistance" record = Some (JNum (round_nd top 4)) /\
  level "support" record = Some (JNum (round_nd bottom 4)) /\
  (exists b, In b (tail_slice 20 bars) /\ high b = top) /\
  (forall b, In b (tail_slice 20 bars) -> PrimFloat.leb (high b) top = true) /\
  (exists b, In b (tail_slice 20 bars) /\ low b = bottom) /\
  (forall b, In b (tail_slice 20 bars) ->
             PrimFloat.leb bottom (low b) = true).
Proof.
  intros Hd Hlen Hnan record top bottom. subst record top bottom.
  rewrite (delivers_result ad w symbol period bars Hd Hlen).
  destruct (result_levels (str_upper symbol) period bars) as [Hr Hs].
  split; [exact Hr |]. split; [exact Hs |].
  unfold resistance, support, high_column, low_column.
  rewrite !tail_slice_map.
  assert (Hne : tail_slice 20 bars <> []) by (apply tail_slice_nonempty; lia).
  destruct (py_max_greatest (map high (tail_slice 20 bars))) as [Hin Hmax].
  { intros E. apply map_eq_nil in E. contradiction. }
  { apply Forall_map. revert Hnan. apply Forall_impl. tauto. }
  destruct (py_min_least (map low (tail_slice 20 bars))) as [Hin' Hmin].
  { intros E. apply map_eq_nil in E. contradiction. }
  { apply Forall_map. revert Hnan. apply Forall_impl. tauto. }
  apply in_map_iff in Hin. destruct Hin as (b & Hb & Hinb).
  apply in_map_iff in Hin'. destruct Hin' as (b' & Hb' & Hinb').
  split; [exists b; split; assumption |].
  split; [intros c Hc; apply Hmax; apply in_map; exact Hc |].
  split; [exists b'; split; assumption |].
  intros c Hc. apply Hmin. apply in_map. exact Hc.
Qed.

Lemma resistance_and_support_are_extremes_witness :
  let bars := Samples.bars_of Series.collapsing in
  let record := Samples.analysis_of Series.collapsing in
  let top := resistance (high_column bars) in
  let bottom := support (low_column bars) in
  level "resistance" record = Some (JNum (round_nd top 4)) /\
  level "support" record = Some (JNum (round_nd bottom 4)) /\
  (exists b, In b (tail_slice 20 bars) /\ high b = top) /\
  (forall b, In b (tail_slice 20 bars) -> PrimFloat.leb (high b) top = true) /\
  (exists b, In b (tail_slice 20 bars) /\ low b = bottom) /\
  (forall b, In b (tail_slice 20 bars) ->
             PrimFloat.leb bottom (low b) = true).
Proof.
  apply (resistance_and_support_are_extremes
           (Samples.always (Samples.daily_payload
                              (Samples.bars_of Series.collapsing)))
           tt "tsla" "200d" (Samples.bars_of Series.collapsing)).
  - apply always_delivers.
  - apply Nat.leb_le. reflexivity.
  - vm_compute. repeat constructor.
Defined.

(** ** RSI of a falling window *)

Lemma nonpos_not_positive (d : float) :
  PrimFloat.leb d 0 = true -> PrimFloat.ltb 0 d = false.
Proof.
  rewrite FloatAxioms.leb_spec, FloatAxioms.ltb_spec.
  destruct (Prim2SF d) as [s | s | | s m e]; try destruct s; cbv; congruence.
Qed.

Lemma gain_window_zero (window : list float) :
  Forall (fun d => PrimFloat.leb d 0 = true) window ->
  map (fun d => if gtb d 0 then d else 0) window =
    repeat 0 (List.length window).
Proof.
  induction 1 as [| d rest Hd _ IH]; simpl.
  - reflexivity.
  - unfold gtb at 1. rewrite (nonpos_not_positive d Hd), IH. reflexivity.
Qed.

Lemma avg_gain_zero (close : list float) :
  (15 <= List.length close)%nat ->
  Forall (fun d => PrimFloat.leb d 0 = true) (tail_slice 14 (delta close)) ->
  avg_gain close = 0.
Proof.
  intros Hlen Hnonpos. unfold avg_gain, gain.
  assert (Hd : (14 <= List.length (delta close))%nat).
  { unfold delta. rewrite diff_length. lia. }
  apply rolling_mean_constant_tail; [lia | rewrite length_map; exact Hd | |
    reflexivity].
  rewrite tail_slice_map, (gain_window_zero _ Hnonpos).
  rewrite (tail_slice_length 14 _ Hd). reflexivity.
Qed.

(** Zero divided by anything is not above zero. *)
Lemma zero_ratio_not_positive (x : float) : PrimFloat.ltb 0 (0 / x) = false.
Proof.
  rewrite FloatAxioms.ltb_spec, FloatAxioms.div_spec.
  destruct (Prim2SF x) as [s | s | | s m e]; try destruct s; reflexivity.
Qed.

(** X10.  For every accepted bar series whose last 14 close-to-close deltas
    are all at most zero and whose average loss is not zero, the average
    gain is zero, the RSI takes the [else] branch and is the integer 0: the
    record reports [rsi_14 = 0] and the RSI delta of the score is -10. *)
Theorem rsi_14_without_gains {W : Type} (ad : Adapter W) (w : W)
    (symbol period : string) (bars : list Bar) :
  delivers ad w symbol period bars ->
  (30 <= List.length bars)%nat ->
  Forall (fun d => PrimFloat.leb d 0 = true)
         (tail_slice 14 (delta (close_column bars))) ->
  neqb (avg_loss (close_column bars)) 0 = true ->
  let record := output (run ad w (trend_analysis symbol period)) in
  avg_gain (close_column bars) = 0 /\
  rsi (close_column bars) = NInt 0 /\
  key_signal "rsi_14" record = Some (JInt 0) /\
  Stated.delta_rsi (float_of_num (rsi (close_column bars))) = (-10)%Z.
Proof.
  intros Hd Hlen Hnonpos Hloss record. subst record.
  rewrite (delivers_result ad w symbol period bars Hd Hlen).
  assert (H0 : avg_gain (close_column bars) = 0).
  { apply avg_gain_zero; [| exact Hnonpos].
    unfold close_column. rewrite length_map. lia. }
  assert (Hrsi : rsi (close_column bars) = NInt 0).
  { unfold rsi, rs, gtb. rewrite Hloss, H0, zero_ratio_not_positive.
    reflexivity. }
  rewrite result_rsi_14, Hrsi.
  repeat split; try assumption; reflexivity.
Qed.

Lemma rsi_14_without_gains_witness :
  let bars := Samples.bars_of Series.collapsing in
  let record := Samples.analysis_of Series.collapsing in
  avg_gain (close_column bars) = 0 /\
  rsi (close_column bars) = NInt 0 /\
  key_signal "rsi_14" record = Some (JInt 0) /\
  Stated.delta_rsi (float_of_num (rsi (close_column bars))) = (-10)%Z.
Proof.
  apply (rsi_14_without_gains
           (Samples.always (Samples.daily_payload
                              (Samples.bars_of Series.collapsing)))
           tt "tsla" "200d" (Samples.bars_of Series.collapsing)).
  - apply always_delivers.
  - apply Nat.leb_le. reflexivity.
  - vm_compute. repeat constructor.
  - vm_compute. reflexivity.
Defined.

(** ** The adapters: one row *)

Lemma is_infinity_spec (v : float) :
  PrimFloat.is_infinity v = true <-> exists s, Prim2SF v = S754_infinity s.
Proof.
  unfold PrimFloat.is_infinity.
  rewrite FloatAxioms.eqb_spec, FloatAxioms.abs_spec.
  change (Prim2SF infinity) with (S754_infinity false).
  destruct (Prim2SF v) as [s | s | | s m e]; simpl; split;
    try discriminate; try (intros [s' Hs]; discriminate Hs).
  - intros _. exists s. reflexivity.
  - intros _. reflexivity.
Qed.

Lemma py_int_overflow (v : float) :
  PrimFloat.is_infinity v = true ->
  isna v = false /\
  py_int v = inl "cannot convert float infinity to integer".
Proof.
  intros Hinf. apply is_infinity_spec in Hinf. destruct Hinf as [s Hs].
  split.
  - apply is_nan_spec. rewrite Hs. discriminate.
  - unfold py_int. rewrite Hs. reflexivity.
Qed.

Lemma py_int_converts (v : float) :
  isna v = false -> PrimFloat.is_infinity v = false ->
  exists z, py_int v = inr z.
Proof.
  intros Hnan Hinf. unfold py_int.
  destruct (Prim2SF v) as [s | s | | s m e] eqn:E.
  - eexists. reflexivity.
  - assert (Ht : PrimFloat.is_infinity v = true)
      by (apply is_infinity_spec; exists s; exact E).
    rewrite Ht in Hinf. discriminate Hinf.
  - apply is_nan_spec in Hnan. contradiction.
  - eexists. reflexivity.
Qed.

Lemma bar_of_row_matches (fmt : Timestamp -> string) (row : Row) (bar : Bar) :
  bar_of_row fmt row = inr bar -> bar_matches fmt row bar.
Proof.
  unfold bar_of_row, bar_matches.
  destruct (isna (Volume row)) eqn:Hna.
  - intros H. injection H as <-. simpl. repeat split; try reflexivity.
    discriminate.
  - destruct (py_int (Volume row)) as [message | v] eqn:Hv; [discriminate |].
    intros H. injection H as <-. simpl. repeat split; try reflexivity.
    discriminate.
Qed.

Lemma bar_of_row_converts (fmt : Timestamp -> string) (row : Row) :
  PrimFloat.is_infinity (Volume row) = false ->
  exists bar, bar_of_row fmt row = inr bar.
Proof.
  intros Hinf. unfold bar_of_row.
  destruct (isna (Volume row)) eqn:Hna.
  - eexists. reflexivity.
  - destruct (py_int_converts _ Hna Hinf) as [z ->]. eexists. reflexivity.
Qed.

Lemma bar_of_row_overflow (fmt : Timestamp -> string) (row : Row) :
  PrimFloat.is_infinity (Volume row) = true ->
  bar_of_row fmt row = inl "cannot convert float infinity to integer".
Proof.
  intros Hinf. unfold bar_of_row.
  destruct (py_int_overflow _ Hinf) as [-> ->]. reflexivity.
Qed.

(** ** The adapters: the loop *)

Lemma ohlcv_list_converts (keep : Row -> bool) (fmt : Timestamp -> string)
    (data : list Row) :
  Forall (fun row => keep row = true ->
                     PrimFloat.is_infinity (Volume row) = false) data ->
  exists bars,
    ohlcv_list keep fmt data = inr bars /\
    Forall2 (bar_matches fmt) (filter keep data) bars.
Proof.
  induction 1 as [| row rest Hrow _ IH]; simpl.
  - exists []. split; [reflexivity | constructor].
  - destruct IH as (bars & Hbars & Hall).
    destruct (keep row) eqn:Hkeep.
    + destruct (bar_of_row_converts fmt row (Hrow eq_refl)) as [bar Hbar].
      rewrite Hbar, Hbars. exists (bar :: bars). split; [reflexivity |].
      constructor; [apply bar_of_row_matches; exact Hbar | exact Hall].
    + exists bars. split; assumption.
Qed.

Lemma ohlcv_list_overflow (keep : Row -> bool) (fmt : Timestamp -> string)
    (data : list Row) :
  Exists (fun row => keep row = true /\
                     PrimFloat.is_infinity (Volume row) = true) data ->
  ohlcv_list keep fmt data = inl "cannot convert float infinity to integer".
Proof.
  induction data as [| row rest IH]; intros Hex.
  - inversion Hex.
  - simpl. destruct (keep row) eqn:Hkeep.
    + destruct (PrimFloat.is_infinity (Volume row)) eqn:Hinf.
      * rewrite (bar_of_row_overflow fmt row Hinf). reflexivity.
      * destruct (bar_of_row_converts fmt row Hinf) as [bar ->].
        rewrite IH; [reflexivity |].
        inversion Hex as [? ? [_ Hbad] | ? ? Hrest]; subst;
          [rewrite Hbad in Hinf; discriminate Hinf | exact Hrest].
    + apply IH.
      inversion Hex as [? ? [Hk _] | ? ? Hrest]; subst;
        [rewrite Hk in Hkeep; discriminate Hkeep | exact Hrest].
Qed.

(** ** The adapters: the payload *)

(** Each adapter, read off the tables. *)
Lemma fetch_cases (yf : string -> Ticker) (f : Fetcher) (symbol : string) :
  fetch yf f symbol =
    match history_of yf f symbol with
    | Raised message =>
        error_payload (str_upper symbol) (failure_message f message)
    | Frame [] => error_payload (str_upper symbol) (no_data_message f)
    | Frame data =>
        match ohlcv_list (kept f) (stamp f) data with
        | inl message =>
            error_payload (str_upper symbol) (failure_message f message)
        | inr bars => payload_of_bars f (str_upper symbol) data bars
        end
    end.
Proof.
  unfold history_of.
  destruct f; simpl;
    [ unfold Adapters.price_ohlcv_weekly_hourly
    | unfold Adapters.price_ohlcv_month_hourly
    | unfold Adapters.price_ohlcv_200d_daily ];
    match goal with
    | |- context [yf ?s ?i ?p] => destruct (yf s i p) as [message | data]
    end; try reflexivity;
    destruct data as [| row rest]; try reflexivity;
    match goal with
    | |- context [ohlcv_list ?k ?t ?d] =>
        destruct (ohlcv_list k t d) as [message | bars]
    end; try reflexivity;
    destruct bars; reflexivity.
Qed.

Lemma history_of_upper (yf : string -> Ticker) (f : Fetcher) (symbol : string) :
  history_of yf f (str_upper symbol) = history_of yf f symbol.
Proof. unfold history_of. rewrite str_upper_idempotent. reflexivity. Qed.

Lemma source_key (period : string) (f : Fetcher) (key : string) :
  source_of_period period = Some (f, key) -> key = bars_key f.
Proof.
  unfold source_of_period.
  repeat match goal with
         | |- context [String.eqb ?a ?b] => destruct (String.eqb a b)
         end; intros H; try discriminate H; injection H as <- <-; reflexivity.
Qed.

Lemma payload_of_bars_fields (f : Fetcher) (symbol : string) (data : list Row)
    (bars : list Bar) :
  bars <> [] \/ f <> price_ohlcv_weekly_hourly ->
  let payload := payload_of_bars f symbol data bars in
  dict_mem "error" payload = false /\
  dict_get "symbol" payload = Some (PStr symbol) /\
  dict_get (bars_key f) payload = Some (PBars bars) /\
  dict_get "total_bars" payload = Some (PInt (Z.of_nat (List.length bars))) /\
  dict_get "current_price" payload = Some (PNum (py_round (last_close data) 4)).
Proof.
  intros Hok. destruct f; simpl.
  - destruct bars as [| b rest]; [destruct Hok; congruence |].
    repeat split.
  - repeat split.
  - repeat split.
Qed.

(** The run of [trend_analysis] over the three adapters. *)
Lemma run_over_yfinance {W : Type} (yf : W -> string -> Ticker) (next : W -> W)
    (w : W) (symbol period : string) (f : Fetcher) (key : string) :
  source_of_period period = Some (f, key) ->
  output (run (yfinance yf next) w (trend_analysis symbol period)) =
    handle (str_upper symbol)
      (analyse (str_upper symbol) period (bars_key f)
         (fetch (yf w) f (str_upper symbol))).
Proof.
  intros Hsrc.
  rewrite (run_trend_analysis _ w symbol period f key Hsrc).
  rewrite (source_key _ _ _ Hsrc). reflexivity.
Qed.

(** X11.  Each adapter keeps exactly the rows it does not skip, in order.
    When the frame has a row that is kept (a row whose Open is not NaN, and
    for the weekly adapter whose Volume is not NaN either) and no kept row
    has an infinite volume, the payload has no ["error"], names the symbol
    in upper case, and holds under the adapter's key one bar per kept row:
    the stamp of the row, its four prices rounded to four places, and its
    volume truncated to an integer, 0 for a NaN volume; [total_bars] is the
    number of kept rows and [current_price] the rounded close of the last
    row of the frame, kept or not. *)
Theorem adapter_keeps_rows (yf : string -> Ticker) (f : Fetcher)
    (symbol : string) (data : list Row) :
  history_of yf f symbol = Frame data ->
  filter (kept f) data <> [] ->
  Forall (fun row => kept f row = true ->
                     PrimFloat.is_infinity (Volume row) = false) data ->
  let payload := fetch yf f symbol in
  dict_mem "error" payload = false /\
  dict_get "symbol" payload = Some (PStr (str_upper symbol)) /\
  dict_get "total_bars" payload =
    Some (PInt (Z.of_nat (List.length (filter (kept f) data)))) /\
  dict_get "current_price" payload =
    Some (PNum (py_round (last_close data) 4)) /\
  exists bars,
    dict_get (bars_key f) payload = Some (PBars bars) /\
    Forall2 (bar_matches (stamp f)) (filter (kept f) data) bars.
Proof.
  intros Hhist Hkept Hfinite payload. subst payload.
  rewrite fetch_cases, Hhist.
  destruct data as [| row rest]; [simpl in Hkept; congruence |].
  destruct (ohlcv_list_converts (kept f) (stamp f) _ Hfinite)
    as (bars & -> & Hall).
  assert (Hlen : List.length bars = List.length (filter (kept f) (row :: rest)))
    by (symmetry; apply (Forall2_length Hall)).
  assert (Hne : bars <> []).
  { intros ->. apply Hkept. apply length_zero_iff_nil. rewrite <- Hlen.
    reflexivity. }
  destruct (payload_of_bars_fields f (str_upper symbol) (row :: rest) bars
              (or_introl Hne)) as (He & Hs & Hb & Ht & Hc).
  rewrite <- Hlen.
  split; [exact He |]. split; [exact Hs |]. split; [exact Ht |].
  split; [exact Hc |]. exists bars. split; assumption.
Qed.

Lemma adapter_keeps_rows_witness :
  let payload :=
    fetch (Frames.serving Frames.rising_with_gap tt)
          price_ohlcv_month_hourly "tsla" in
  dict_mem "error" payload = false /\
  dict_get "symbol" payload = Some (PStr (str_upper "tsla")) /\
  dict_get "total_bars" payload =
    Some (PInt (Z.of_nat (List.length
                            (filter (kept price_ohlcv_month_hourly)
                                    Frames.rising_with_gap)))) /\
  dict_get "current_price" payload =
    Some (PNum (py_round (last_close Frames.rising_with_gap) 4)) /\
  exists bars,
    dict_get (bars_key price_ohlcv_month_hourly) payload = Some (PBars bars) /\
    Forall2 (bar_matches (stamp price_ohlcv_month_hourly))
            (filter (kept price_ohlcv_month_hourly) Frames.rising_with_gap)
            bars.
Proof.
  apply (adapter_keeps_rows (Frames.serving Frames.rising_with_gap tt)
           price_ohlcv_month_hourly "tsla" Frames.rising_with_gap).
  - reflexivity.
  - vm_compute. discriminate.
  - unfold Frames.rising_with_gap.
    repeat (constructor; [intros _; reflexivity |]). constructor.
Defined.

(** X12.  The shape of every payload.  Whatever the service does, the
    payload of an adapter names the symbol in upper case and is of one of
    two kinds: it has an ["error"] field and nothing under the adapter's
    key, or it has no ["error"] field and holds under that key a list of
    bars whose length is [total_bars] (never empty for the weekly adapter).
    The key is the one [trend_analysis] reads for the period, so the bar
    list it looks up is never missing from an error-free payload. *)
Theorem adapter_payload_shape (yf : string -> Ticker) (f : Fetcher)
    (symbol : string) :
  let payload := fetch yf f symbol in
  dict_get "symbol" payload = Some (PStr (str_upper symbol)) /\
  ((dict_mem "error" payload = true /\
    dict_get (bars_key f) payload = None) \/
   (dict_mem "error" payload = false /\
    exists bars,
      dict_get (bars_key f) payload = Some (PBars bars) /\
      dict_get "total_bars" payload =
        Some (PInt (Z.of_nat (List.length bars))) /\
      (f = price_ohlcv_weekly_hourly -> bars <> []))) /\
  (forall period key,
      source_of_period period = Some (f, key) -> key = bars_key f).
Proof.
  intros payload. subst payload. rewrite fetch_cases.
  assert (Herror : forall message,
             dict_get "symbol" (error_payload (str_upper symbol) message) =
               Some (PStr (str_upper symbol)) /\
             dict_mem "error" (error_payload (str_upper symbol) message) = true /\
             dict_get (bars_key f) (error_payload (str_upper symbol) message) =
               None).
  { intros message. destruct f; repeat split. }
  split; [| split; [| intros period key; apply source_key]].
  - destruct (history_of yf f symbol) as [message | [| row rest]];
      try apply Herror.
    destruct (ohlcv_list (kept f) (stamp f) (row :: rest)) as [message | bars];
      try apply Herror.
    destruct f; try reflexivity. destruct bars; reflexivity.
  - destruct (history_of yf f symbol) as [message | [| row rest]];
      try (left; apply Herror).
    destruct (ohlcv_list (kept f) (stamp f) (row :: rest)) as [message | bars];
      try (left; apply Herror).
    destruct f.
    + destruct bars as [| b bars']; [left; repeat split |].
      right. split; [reflexivity |]. exists (b :: bars').
      repeat split. discriminate.
    + right. split; [reflexivity |]. exists bars.
      repeat split. discriminate.
    + right. split; [reflexivity |]. exists bars.
      repeat split. discriminate.
Qed.

(** ** [trend_analysis] over the adapters *)

(** X13.  No data.  When the service returns an empty frame for the query
    of the period (1h over 7d, 30m over 30d, 1d over 200d), the record of
    [trend_analysis] is the adapter's own error record: the symbol in upper
    case and the adapter's no-data message, and nothing else. *)
Theorem no_data_is_reported {W : Type} (yf : W -> string -> Ticker)
    (next : W -> W) (w : W) (symbol period : string) (f : Fetcher)
    (key : string) :
  source_of_period period = Some (f, key) ->
  history_of (yf w) f symbol = Frame [] ->
  output (run (yfinance yf next) w (trend_analysis symbol period)) =
    [ ("symbol", JStr (str_upper symbol));
      ("error", JStr (no_data_message f)) ].
Proof.
  intros Hsrc Hhist.
  rewrite (run_over_yfinance yf next w symbol period f key Hsrc).
  rewrite fetch_cases, history_of_upper, Hhist, str_upper_idempotent.
  reflexivity.
Qed.

Lemma no_data_is_reported_witness :
  output (run (yfinance (Frames.serving []) Frames.same) tt
              (trend_analysis "tsla" "7d")) =
    [ ("symbol", JStr (str_upper "tsla"));
      ("error", JStr (no_data_message price_ohlcv_weekly_hourly)) ].
Proof.
  apply (no_data_is_reported (Frames.serving []) Frames.same tt "tsla" "7d"
           price_ohlcv_weekly_hourly "hourly_ohlcv_last_week");
    reflexivity.
Defined.

(** X14.  A failing service.  When the call to the service raises, the
    record is the symbol in upper case and the message of the exception,
    which the weekly adapter alone prefixes with "Failed to fetch data: ". *)
Theorem service_failure_is_reported {W : Type} (yf : W -> string -> Ticker)
    (next : W -> W) (w : W) (symbol period : string) (f : Fetcher)
    (key message : string) :
  source_of_period period = Some (f, key) ->
  history_of (yf w) f symbol = Raised message ->
  output (run (yfinance yf next) w (trend_analysis symbol period)) =
    [ ("symbol", JStr (str_upper symbol));
      ("error", JStr (if String.eqb period "7d"
                      then String.append "Failed to fetch data: " message
                      else message)) ].
Proof.
  intros Hsrc Hhist.
  rewrite (run_over_yfinance yf next w symbol period f key Hsrc).
  rewrite fetch_cases, history_of_upper, Hhist, str_upper_idempotent.
  unfold source_of_period in Hsrc.
  destruct (String.eqb period "7d").
  - injection Hsrc as <- _. reflexivity.
  - destruct (String.eqb period "30d"); [injection Hsrc as <- _; reflexivity |].
    destruct (String.eqb period "200d"); [| discriminate Hsrc].
    injection Hsrc as <- _. reflexivity.
Qed.

Lemma service_failure_is_reported_witness :
  output (run (yfinance (Frames.failing "timed out") Frames.same) tt
              (trend_analysis "tsla" "7d")) =
    [ ("symbol", JStr (str_upper "tsla"));
      ("error", JStr (if String.eqb "7d" "7d"
                      then String.append "Failed to fetch data: " "timed out"
                      else "timed out")) ].
Proof.
  apply (service_failure_is_reported (Frames.failing "timed out") Frames.same
           tt "tsla" "7d" price_ohlcv_weekly_hourly "hourly_ohlcv_last_week"
           "timed out"); reflexivity.
Defined.

Lemma ohlcv_list_all_skipped (keep : Row -> bool) (fmt : Timestamp -> string)
    (data : list Row) :
  filter keep data = [] -> ohlcv_list keep fmt data = inr [].
Proof.
  induction data as [| row rest IH]; simpl; [reflexivity |].
  destruct (keep row); [discriminate | exact IH].
Qed.

(** X15.  A frame whose every row is skipped.  The weekly adapter reports
    it as an error, "No valid OHLCV bars after filtering NaNs"; the monthly
    and the daily adapter return an empty bar list, which [trend_analysis]
    answers with the low-bar-count warning. *)
Theorem frame_without_kept_rows {W : Type} (yf : W -> string -> Ticker)
    (next : W -> W) (w : W) (symbol period : string) (f : Fetcher)
    (key : string) (data : list Row) :
  source_of_period period = Some (f, key) ->
  history_of (yf w) f symbol = Frame data ->
  data <> [] ->
  filter (kept f) data = [] ->
  output (run (yfinance yf next) w (trend_analysis symbol period)) =
    if String.eqb period "7d"
    then [ ("symbol", JStr (str_upper symbol));
           ("error", JStr "No valid OHLCV bars after filtering NaNs") ]
    else low_bar_warning (str_upper symbol).
Proof.
  intros Hsrc Hhist Hdata Hnone.
  rewrite (run_over_yfinance yf next w symbol period f key Hsrc).
  rewrite fetch_cases, history_of_upper, Hhist, str_upper_idempotent.
  destruct data as [| row rest]; [congruence |].
  rewrite (ohlcv_list_all_skipped _ _ _ Hnone).
  unfold source_of_period in Hsrc.
  destruct (String.eqb period "7d").
  - injection Hsrc as <- _. reflexivity.
  - destruct (String.eqb period "30d"); [injection Hsrc as <- _; reflexivity |].
    destruct (String.eqb period "200d"); [| discriminate Hsrc].
    injection Hsrc as <- _. reflexivity.
Qed.

Lemma frame_without_kept_rows_witness :
  output (run (yfinance (Frames.serving Frames.all_missing) Frames.same) tt
              (trend_analysis "tsla" "30d")) =
    if String.eqb "30d" "7d"
    then [ ("symbol", JStr (str_upper "tsla"));
           ("error", JStr "No valid OHLCV bars after filtering NaNs") ]
    else low_bar_warning (str_upper "tsla").
Proof.
  apply (frame_without_kept_rows (Frames.serving Frames.all_missing)
           Frames.same tt "tsla" "30d" price_ohlcv_month_hourly
           "hourly_ohlcv_1month" Frames.all_missing);
    try reflexivity.
  discriminate.
Defined.

(** X16.  One row spoils the frame.  When a kept row has an infinite
    volume, its [int(...)] raises and the bars already made are dropped: the
    record is the symbol and the message "cannot convert float infinity to
    integer" (prefixed by the weekly adapter), however many good rows the
    frame has. *)
Theorem infinite_volume_spoils_the_frame {W : Type}
    (yf : W -> string -> Ticker) (next : W -> W) (w : W)
    (symbol period : string) (f : Fetcher) (key : string) (data : list Row) :
  source_of_period period = Some (f, key) ->
  history_of (yf w) f symbol = Frame data ->
  Exists (fun row => kept f row = true /\
                     PrimFloat.is_infinity (Volume row) = true) data ->
  output (run (yfinance yf next) w (trend_analysis symbol period)) =
    [ ("symbol", JStr (str_upper symbol));
      ("error",
       JStr (failure_message f "cannot convert float infinity to integer")) ].
Proof.
  intros Hsrc Hhist Hbad.
  rewrite (run_over_yfinance yf next w symbol period f key Hsrc).
  rewrite fetch_cases, history_of_upper, Hhist, str_upper_idempotent.
  destruct data as [| row rest]; [inversion Hbad |].
  rewrite (ohlcv_list_overflow _ _ _ Hbad).
  destruct f; reflexivity.
Qed.

Lemma infinite_volume_spoils_the_frame_witness :
  output (run (yfinance (Frames.serving Frames.with_infinite_volume)
                        Frames.same) tt
              (trend_analysis "tsla" "200d")) =
    [ ("symbol", JStr (str_upper "tsla"));
      ("error",
       JStr (failure_message price_ohlcv_200d_daily
               "cannot convert float infinity to integer")) ].
Proof.
  apply (infinite_volume_spoils_the_frame
           (Frames.serving Frames.with_infinite_volume) Frames.same tt
           "tsla" "200d" price_ohlcv_200d_daily "daily_ohlcv_200d"
           Frames.with_infinite_volume); try reflexivity.
  apply Exists_cons_tl. apply Exists_cons_hd. split; reflexivity.
Defined.

(** X17.  From the frame to the verdict.  When the frame of the period has
    at least 30 kept rows and no kept row has an infinite volume,
    [trend_analysis] over the adapters returns the completed analysis of the
    bars made of the kept rows, one per row in order: a record with a score
    between 0 and 100, without ["error"] or ["warning"]. *)
Theorem frame_to_verdict {W : Type} (yf : W -> string -> Ticker)
    (next : W -> W) (w : W) (symbol period : string) (f : Fetcher)
    (key : string) (data : list Row) :
  source_of_period period = Some (f, key) ->
  history_of (yf w) f symbol = Frame data ->
  (30 <= List.length (filter (kept f) data))%nat ->
  Forall (fun row => kept f row = true ->
                     PrimFloat.is_infinity (Volume row) = false) data ->
  let record :=
    output (run (yfinance yf next) w (trend_analysis symbol period)) in
  exists bars,
    Forall2 (bar_matches (stamp f)) (filter (kept f) data) bars /\
    record = result (str_upper symbol) period bars /\
    (exists s, dict_get "trend_strength_score" record = Some (JInt s) /\
               (0 <= s <= 100)%Z) /\
    dict_get "error" record = None /\
    dict_get "warning" record = None.
Proof.
  intros Hsrc Hhist Hlen Hfinite record. subst record.
  rewrite (run_over_yfinance yf next w symbol period f key Hsrc).
  rewrite fetch_cases, history_of_upper, Hhist, str_upper_idempotent.
  destruct data as [| row rest]; [simpl in Hlen; lia |].
  destruct (ohlcv_list_converts (kept f) (stamp f) _ Hfinite)
    as (bars & -> & Hall).
  assert (Hbars : List.length bars = List.length (filter (kept f) (row :: rest)))
    by (symmetry; apply (Forall2_length Hall)).
  assert (Hne : bars <> []).
  { intros ->. rewrite <- Hbars in Hlen. simpl in Hlen. lia. }
  destruct (payload_of_bars_fields f (str_upper symbol) (row :: rest) bars
              (or_introl Hne)) as (He & _ & Hb & _ & _).
  rewrite (analyse_accepted _ _ _ _ bars He Hb) by lia.
  exists bars. simpl handle.
  split; [exact Hall |]. split; [reflexivity |].
  split; [eexists; split; [apply result_score | apply score_range] |].
  apply result_no_error.
Qed.

Lemma frame_to_verdict_witness :
  let record :=
    output (run (yfinance (Frames.serving Frames.rising_with_gap) Frames.same)
                tt (trend_analysis "tsla" "30d")) in
  exists bars,
    Forall2 (bar_matches (stamp price_ohlcv_month_hourly))
            (filter (kept price_ohlcv_month_hourly) Frames.rising_with_gap)
            bars /\
    record = result (str_upper "tsla") "30d" bars /\
    (exists s, dict_get "trend_strength_score" record = Some (JInt s) /\
               (0 <= s <= 100)%Z) /\
    dict_get "error" record = None /\
    dict_get "warning" record = None.
Proof.
  apply (frame_to_verdict (Frames.serving Frames.rising_with_gap) Frames.same
           tt "tsla" "30d" price_ohlcv_month_hourly "hourly_ohlcv_1month"
           Frames.rising_with_gap).
  - reflexivity.
  - reflexivity.
  - apply Nat.leb_le. reflexivity.
  - unfold Frames.rising_with_gap.
    repeat (constructor; [intros _; reflexivity |]). constructor.
Defined.

(** X18.  Over the adapters the record always names the symbol.  For a
    period of the three, whatever the service does (no data, an exception,
    rows skipped, a spoiled frame, a completed analysis), the record of
    [trend_analysis] carries the symbol in upper case. *)
Theorem record_over_adapters_names_the_symbol {W : Type}
    (yf : W -> string -> Ticker) (next : W -> W) (w : W)
    (symbol period : string) (f : Fetcher) (key : string) :
  source_of_period period = Some (f, key) ->
  dict_get "symbol"
      (output (run (yfinance yf next) w (trend_analysis symbol period))) =
    Some (JStr (str_upper symbol)).
Proof.
  intros Hsrc.
  rewrite (run_over_yfinance yf next w symbol period f key Hsrc).
  destruct (dict_mem "error" (fetch (yf w) f (str_upper symbol))) eqn:Herr.
  - unfold analyse. rewrite Herr. simpl handle.
    rewrite dict_get_json_of_payload.
    assert (Hs : dict_get "symbol" (fetch (yf w) f (str_upper symbol)) =
                 Some (PStr (str_upper symbol))).
    { rewrite fetch_cases, str_upper_idempotent.
      destruct (history_of (yf w) f (str_upper symbol))
        as [message | [| row rest]]; try reflexivity.
      destruct (ohlcv_list (kept f) (stamp f) (row :: rest))
        as [message | bars]; try reflexivity.
      destruct f; try reflexivity. destruct bars; reflexivity. }
    rewrite Hs. reflexivity.
  - apply handled_record_names_symbol. exact Herr.
Qed.

Lemma record_over_adapters_names_the_symbol_witness :
  dict_get "symbol"
      (output (run (yfinance (Frames.failing "timed out") Frames.same) tt
                   (trend_analysis "tsla" "200d"))) =
    Some (JStr (str_upper "tsla")).
Proof.
  apply (record_over_adapters_names_the_symbol
           (Frames.failing "timed out") Frames.same tt "tsla" "200d"
           price_ohlcv_200d_daily "daily_ohlcv_200d").
  reflexivity.
Defined.

(** X19.  Rows are counted after the skipping.  When the frame has kept
    rows but fewer than 30 of them, and no kept row has an infinite volume,
    the record is the low-bar-count warning, however many rows the frame
    itself has. *)
Theorem few_kept_rows_warn {W : Type} (yf : W -> string -> Ticker)
    (next : W -> W) (w : W) (symbol period : string) (f : Fetcher)
    (key : string) (data : list Row) :
  source_of_period period = Some (f, key) ->
  history_of (yf w) f symbol = Frame data ->
  filter (kept f) data <> [] ->
  (List.length (filter (kept f) data) < 30)%nat ->
  Forall (fun row => kept f row = true ->
                     PrimFloat.is_infinity (Volume row) = false) data ->
  output (run (yfinance yf next) w (trend_analysis symbol period)) =
    low_bar_warning (str_upper symbol).
Proof.
  intros Hsrc Hhist Hkept Hlen Hfinite.
  rewrite (run_over_yfinance yf next w symbol period f key Hsrc).
  rewrite fetch_cases, history_of_upper, Hhist, str_upper_idempotent.
  destruct data as [| row rest]; [simpl in Hkept; congruence |].
  destruct (ohlcv_list_converts (kept f) (stamp f) _ Hfinite)
    as (bars & -> & Hall).
  assert (Hbars : List.length bars = List.length (filter (kept f) (row :: rest)))
    by (symmetry; apply (Forall2_length Hall)).
  assert (Hne : bars <> []).
  { intros ->. apply Hkept. apply length_zero_iff_nil. rewrite <- Hbars.
    reflexivity. }
  destruct (payload_of_bars_fields f (str_upper symbol) (row :: rest) bars
              (or_introl Hne)) as (He & _ & Hb & _ & _).
  rewrite (analyse_low_bars _ _ _ _ bars He Hb) by lia.
  reflexivity.
Qed.

Lemma few_kept_rows_warn_witness :
  output (run (yfinance (Frames.serving (Frames.rows_from 0 Samples.short))
                        Frames.same) tt
              (trend_analysis "tsla" "7d")) =
    low_bar_warning (str_upper "tsla").
Proof.
  apply (few_kept_rows_warn (Frames.serving (Frames.rows_from 0 Samples.short))
           Frames.same tt "tsla" "7d" price_ohlcv_weekly_hourly
           "hourly_ohlcv_last_week" (Frames.rows_from 0 Samples.short)).
  - reflexivity.
  - reflexivity.
  - vm_compute. discriminate.
  - apply Nat.ltb_lt. reflexivity.
  - vm_compute. repeat (constructor; [intros _; reflexivity |]). constructor.
Defined.

(** ** Flat series *)

Lemma ltb_irrefl (x : float) : PrimFloat.ltb x x = false.
Proof.
  destruct (PrimFloat.is_nan x) eqn:Hn.
  - apply nan_not_ltb. left. exact Hn.
  - unfold PrimFloat.is_nan in Hn. apply negb_false_iff in Hn.
    apply (eqb_not_ltb _ _ Hn).
Qed.

Lemma ewm_update_same (alpha : float) (adjust : bool) (c old_wt : float) :
  fst (ewm_update alpha adjust (c, old_wt) c) = c.
Proof.
  unfold ewm_update, neqb. destruct (PrimFloat.eqb c c); reflexivity.
Qed.

Lemma ewm_loop_constant (alpha : float) (adjust : bool) (c : float) (n : nat) :
  forall old_wt,
    ewm_loop alpha adjust (c, old_wt) (repeat c n) = repeat c n.
Proof.
  induction n as [| n IH]; intros old_wt; [reflexivity |].
  change (ewm_loop alpha adjust (c, old_wt) (repeat c (S n)))
    with (fst (ewm_update alpha adjust (c, old_wt) c)
            :: ewm_loop alpha adjust (ewm_update alpha adjust (c, old_wt) c)
                 (repeat c n)).
  pose proof (ewm_update_same alpha adjust c old_wt) as Hfst.
  destruct (ewm_update alpha adjust (c, old_wt) c) as [weighted old_wt'].
  simpl in Hfst. subst weighted. simpl fst. rewrite IH. reflexivity.
Qed.

(** The exponentially weighted mean of a constant series is the series,
    all NaN when the constant is an infinity. *)
Lemma ewm_mean_constant (span : nat) (adjust : bool) (c : float) (n : nat) :
  ewm_mean span adjust (repeat c n) = repeat (prep_value c) n.
Proof.
  unfold ewm_mean, prep_values. rewrite map_repeat.
  destruct n as [| n]; [reflexivity |].
  simpl. rewrite ewm_loop_constant. reflexivity.
Qed.

Lemma series_sub_constant (x y : float) (n : nat) :
  series_sub (repeat x n) (repeat y n) = repeat (x - y) n.
Proof.
  induction n as [| n IH]; simpl; [reflexivity |]. rewrite IH. reflexivity.
Qed.

Lemma last_of_repeat (c : float) (n : nat) :
  (0 < n)%nat -> last_of (repeat c n) = c.
Proof.
  intros Hn. unfold last_of. destruct n as [| n]; [lia |]. clear Hn.
  induction n as [| n IH]; [reflexivity |].
  change (repeat c (S (S n))) with (c :: repeat c (S n)).
  change (repeat c (S n)) with (c :: repeat c n) in *. exact IH.
Qed.

Lemma tail_slice_repeat (c : float) (k n : nat) :
  (k <= n)%nat -> tail_slice k (repeat c n) = repeat c k.
Proof.
  intros Hk. unfold tail_slice. rewrite repeat_length.
  replace n with ((n - k) + k)%nat at 2 by lia.
  rewrite repeat_app, skipn_app, repeat_length, Nat.sub_diag.
  rewrite skipn_all2 by (rewrite repeat_length; lia). reflexivity.
Qed.

Lemma diff_constant (c : float) (n : nat) :
  diff (repeat c n) = repeat (c - c) (n - 1).
Proof.
  induction n as [| n IH]; [reflexivity |].
  destruct n as [| n]; [reflexivity |].
  change (repeat c (S (S n))) with (c :: c :: repeat c n).
  change (diff (c :: c :: repeat c n)) with ((c - c) :: diff (c :: repeat c n)).
  change (c :: repeat c n) with (repeat c (S n)). rewrite IH.
  simpl. rewrite Nat.sub_0_r. reflexivity.
Qed.

(** A float minus itself is zero, or NaN when the float is not finite. *)
Lemma sub_self_cases (c : float) : c - c = 0 \/ c - c = nan.
Proof.
  rewrite <- (SF2Prim_Prim2SF (c - c)), FloatAxioms.sub_spec.
  destruct (Prim2SF c) as [s | s | | s m e]; try destruct s;
    try (right; reflexivity); try (left; reflexivity); left;
    unfold SF64sub, SFsub; rewrite Z.sub_diag; reflexivity.
Qed.

(** The percent change of a flat series is a zero or NaN. *)
Lemma flat_ratio_cases (c : float) :
  (c - c) / c * 100 = 0 \/ (c - c) / c * 100 = - 0 \/
  (c - c) / c * 100 = nan.
Proof.
  assert (Hdiv : (c - c) / c = 0 \/ (c - c) / c = - 0 \/ (c - c) / c = nan).
  { rewrite <- (SF2Prim_Prim2SF ((c - c) / c)), FloatAxioms.div_spec.
    destruct (sub_self_cases c) as [-> | ->];
      destruct (Prim2SF c) as [s | s | | s m e]; try destruct s; cbv; auto. }
  destruct Hdiv as [-> | [-> | ->]]; [left | right; left | right; right];
    reflexivity.
Qed.

Lemma flat_deltas (c : float) (n : nat) :
  gain (repeat c n) = repeat 0 (n - 1) /\
  loss (repeat c n) = repeat 0 (n - 1).
Proof.
  unfold gain, loss, delta. rewrite diff_constant, !map_repeat.
  destruct (sub_self_cases c) as [-> | ->]; split; reflexivity.
Qed.

Lemma flat_rsi (c : float) (n : nat) :
  (15 <= n)%nat -> rsi (repeat c n) = NFloat (100 - 100 / (1 + 100)).
Proof.
  intros Hn. apply rsi_of_zero_loss. unfold avg_loss.
  rewrite (proj2 (flat_deltas c n)).
  apply rolling_mean_constant_tail;
    [lia | rewrite repeat_length; lia | | reflexivity].
  apply tail_slice_repeat. lia.
Qed.

Lemma flat_sma20 (c : float) (n : nat) :
  (20 <= n)%nat -> gtb (last_of (repeat c n)) (sma20 (repeat c n)) = false.
Proof.
  intros Hn. unfold gtb. rewrite last_of_repeat by lia.
  assert (Htail : tail_slice 20 (repeat c n) = repeat c 20)
    by (apply tail_slice_repeat; lia).
  destruct (PrimFloat.is_finite c) eqn:Hc.
  - unfold sma20. rewrite (rolling_mean_constant_tail 20 _ c);
      [apply ltb_irrefl | lia | rewrite repeat_length; lia | exact Htail |
       exact Hc].
  - unfold sma20. rewrite (rolling_mean_no_observation 20 _ c);
      [| lia | rewrite repeat_length; lia | exact Htail | exact Hc].
    apply nan_not_ltb. left. reflexivity.
Qed.

Lemma first_of_repeat (c : float) (n : nat) :
  (0 < n)%nat -> first_of (repeat c n) = c.
Proof. intros Hn. destruct n; [lia | reflexivity]. Qed.

(** X21.  A market that did not move reads bearish.  When every close of
    at least 30 bars is the same value, whatever it is, EMA9 is not above
    EMA21 and the MACD line is not above its signal line (they are equal,
    or NaN), so both trend signals are BEARISH; no average gain or loss
    gives the RSI 99.01; the last close is not above SMA20 and the percent
    change is not beyond 3.  The score is 12, VERY BEARISH, or 28, BEARISH,
    when the volume ratio is above 1.3. *)
Theorem flat_market_reads_bearish {W : Type} (ad : Adapter W) (w : W)
    (symbol period : string) (bars : list Bar) (c : float) :
  delivers ad w symbol period bars ->
  (30 <= List.length bars)%nat ->
  close_column bars = repeat c (List.length bars) ->
  let record := output (run ad w (trend_analysis symbol period)) in
  let busy := gtb (vol_ratio (volume_column bars)) 1.3 in
  key_signal "ema_9_21" record = Some (JStr "BEARISH") /\
  key_signal "macd" record = Some (JStr "BEARISH") /\
  key_signal "rsi_14" record = Some (JNum 99.01) /\
  dict_get "trend_strength_score" record =
    Some (JInt (if busy then 28 else 12)) /\
  dict_get "trend_verdict" record =
    Some (JStr (if busy then "BEARISH" else "VERY BEARISH")).
Proof.
  intros Hd Hlen Hflat record busy. subst record busy.
  rewrite (delivers_result ad w symbol period bars Hd Hlen).
  rewrite result_ema_9_21, result_macd, result_rsi_14, result_score,
    result_verdict.
  assert (Hema : ema_trend (close_column bars) = "bearish").
  { unfold ema_trend, ema9, ema21, gtb.
    rewrite Hflat, !ewm_mean_constant, ltb_irrefl. reflexivity. }
  assert (Hmacd : macd_signal (close_column bars) = "bearish").
  { unfold macd_signal, signal_line, macd_line, exp1, exp2, gtb.
    rewrite Hflat, !ewm_mean_constant, series_sub_constant, ewm_mean_constant.
    rewrite !last_of_repeat by lia.
    destruct (sub_self_cases (prep_value c)) as [-> | ->]; reflexivity. }
  assert (Hrsi : rsi (close_column bars) = NFloat (100 - 100 / (1 + 100))).
  { rewrite Hflat. apply flat_rsi. lia. }
  assert (Hsma : gtb (last_of (close_column bars)) (sma20 (close_column bars))
                 = false).
  { rewrite Hflat. apply flat_sma20. lia. }
  assert (Hpct : gtb (pct_change (close_column bars)) 3 = false /\
                 PrimFloat.ltb (pct_change (close_column bars)) (-3) = false).
  { unfold pct_change. rewrite Hflat, last_of_repeat, first_of_repeat by lia.
    destruct (flat_ratio_cases c) as [-> | [-> | ->]]; split; reflexivity. }
  destruct Hpct as [Hup Hdown].
  unfold score, trend_strength_score.
  rewrite Hema, Hmacd, Hrsi, Hsma, Hup, Hdown.
  destruct (gtb (vol_ratio (volume_column bars)) 1.3);
    repeat split; reflexivity.
Qed.

Lemma flat_market_reads_bearish_witness :
  key_signal "ema_9_21" (Samples.analysis_of Series.flat) =
    Some (JStr "BEARISH") /\
  key_signal "macd" (Samples.analysis_of Series.flat) =
    Some (JStr "BEARISH") /\
  key_signal "rsi_14" (Samples.analysis_of Series.flat) =
    Some (JNum 99.01) /\
  dict_get "trend_strength_score" (Samples.analysis_of Series.flat) =
    Some (JInt (if gtb (vol_ratio (volume_column (Samples.bars_of Series.flat)))
                       1.3 then 28 else 12)) /\
  dict_get "trend_verdict" (Samples.analysis_of Series.flat) =
    Some (JStr (if gtb (vol_ratio (volume_column (Samples.bars_of Series.flat)))
                       1.3 then "BEARISH" else "VERY BEARISH")).
Proof.
  apply (flat_market_reads_bearish
           (Samples.always (Samples.daily_payload (Samples.bars_of Series.flat)))
           tt "tsla" "200d" (Samples.bars_of Series.flat) 100.1).
  - apply always_delivers.
  - apply Nat.leb_le. reflexivity.
  - reflexivity.
Defined.

(** ** A flat window *)

Lemma finite_nonzero_spec (c : float) :
  PrimFloat.is_finite c = true -> PrimFloat.is_zero c = false ->
  exists s m e, Prim2SF c = S754_finite s m e.
Proof.
  unfold PrimFloat.is_finite, PrimFloat.is_zero. intros Hfin Hzero.
  apply negb_true_iff, orb_false_iff in Hfin. destruct Hfin as [Hnan Hinf].
  apply is_nan_spec in Hnan.
  rewrite FloatAxioms.eqb_spec in Hzero.
  destruct (Prim2SF c) as [s | s | | s m e] eqn:Hc.
  - destruct s; cbv in Hzero; discriminate Hzero.
  - assert (Hi : PrimFloat.is_infinity c = true)
      by (apply is_infinity_spec; exists s; exact Hc).
    rewrite Hi in Hinf. discriminate Hinf.
  - congruence.
  - exists s, m, e. reflexivity.
Qed.

(** Bands drawn at no distance from the average are equal. *)
Lemma bands_at_zero_width (c : float) :
  PrimFloat.is_nan c = false ->
  PrimFloat.eqb (c + 2 * 0) (c - 2 * 0) = true.
Proof.
  intros Hc. apply is_nan_spec in Hc.
  replace (2 * 0) with 0 by reflexivity.
  rewrite FloatAxioms.eqb_spec, FloatAxioms.add_spec, FloatAxioms.sub_spec.
  replace (Prim2SF 0) with (S754_zero false) by reflexivity.
  destruct (Prim2SF c) as [s | s | | s m e]; try destruct s; try congruence;
    try reflexivity; unfold SF64add, SF64sub, SFadd, SFsub, SFeqb;
    rewrite SFcompare_refl by discriminate; reflexivity.
Qed.

Lemma bands_of_finite (c : float) (s : bool) (m : positive) (e : Z) :
  Prim2SF c = S754_finite s m e ->
  c + 2 * 0 = c /\ c - 2 * 0 = c /\
  PrimFloat.ltb ((c - c) / c) 0.08 = true.
Proof.
  intros Hc. replace (2 * 0) with 0 by reflexivity.
  assert (Hadd : c + 0 = c).
  { rewrite <- (SF2Prim_Prim2SF (c + 0)), FloatAxioms.add_spec, Hc.
    rewrite <- (SF2Prim_Prim2SF c), Hc. reflexivity. }
  assert (Hsub : c - 0 = c).
  { rewrite <- (SF2Prim_Prim2SF (c - 0)), FloatAxioms.sub_spec, Hc.
    rewrite <- (SF2Prim_Prim2SF c), Hc. reflexivity. }
  split; [exact Hadd |]. split; [exact Hsub |].
  assert (Hzero : c - c = 0).
  { rewrite <- (SF2Prim_Prim2SF (c - c)), FloatAxioms.sub_spec, Hc.
    unfold SF64sub, SFsub. rewrite Z.sub_diag. reflexivity. }
  rewrite Hzero, FloatAxioms.ltb_spec, FloatAxioms.div_spec, Hc.
  destruct s; reflexivity.
Qed.

Lemma result_sma_20 (symbol period : string) bars :
  level "sma_20" (result symbol period bars) =
    Some (JNum (round_nd (sma20 (close_column bars)) 4)).
Proof. reflexivity. Qed.

(** X22.  A flat window has no bands.  When the last 20 closes are the
    same finite value, SMA20 is that value and the deviation is exactly
    zero: the record reports the value rounded to four places as
    [sma_20], the bands coincide, so the Bollinger position is the default
    "middle", and for a close other than zero the width is zero and the
    squeeze is reported. *)
Theorem flat_window_bollinger {W : Type} (ad : Adapter W) (w : W)
    (symbol period : string) (bars : list Bar) (c : float) :
  delivers ad w symbol period bars ->
  (30 <= List.length bars)%nat ->
  tail_slice 20 (close_column bars) = repeat c 20 ->
  PrimFloat.is_finite c = true ->
  let close := close_column bars in
  let record := output (run ad w (trend_analysis symbol period)) in
  sma20 close = c /\ std20 close = 0 /\
  level "sma_20" record = Some (JNum (round_nd c 4)) /\
  key_signal "bollinger_position" record = Some (JStr "middle") /\
  (PrimFloat.is_zero c = false ->
   key_signal "bb_squeeze" record = Some (JStr "YES")).
Proof.
  intros Hd Hlen Htail Hobs close record. subst close record.
  rewrite (delivers_result ad w symbol period bars Hd Hlen).
  rewrite result_sma_20, result_bollinger_position, result_bb_squeeze.
  assert (Hc : PrimFloat.is_nan c = false).
  { unfold PrimFloat.is_finite in Hobs.
    apply negb_true_iff, orb_false_iff in Hobs. apply Hobs. }
  assert (Hn : (20 <= List.length (close_column bars))%nat).
  { unfold close_column. rewrite length_map. lia. }
  assert (Hsma : sma20 (close_column bars) = c).
  { unfold sma20.
    apply rolling_mean_constant_tail; [lia | exact Hn | exact Htail | exact Hobs]. }
  assert (Hstd : std20 (close_column bars) = 0).
  { unfold std20.
    apply (rolling_std_constant_tail 20 _ c);
      [lia | exact Hn | exact Htail | exact Hobs]. }
  split; [exact Hsma |]. split; [exact Hstd |].
  split; [rewrite Hsma; reflexivity |]. split.
  - unfold bb_position, upper, lower, neqb. rewrite Hsma, Hstd.
    rewrite (bands_at_zero_width c Hc). reflexivity.
  - intros Hnz.
    destruct (finite_nonzero_spec c Hobs Hnz) as (s & m & e & Hsf).
    destruct (bands_of_finite c s m e Hsf) as (Hup & Hlow & Hwidth).
    unfold bb_squeeze, bb_width, upper, lower. rewrite Hsma, Hstd.
    rewrite Hup, Hlow, Hwidth. reflexivity.
Qed.

Lemma flat_window_bollinger_witness :
  sma20 (close_column (Samples.bars_of Series.settled)) = 100.1 /\
  std20 (close_column (Samples.bars_of Series.settled)) = 0 /\
  level "sma_20" (Samples.analysis_of Series.settled) =
    Some (JNum (round_nd 100.1 4)) /\
  key_signal "bollinger_position" (Samples.analysis_of Series.settled) =
    Some (JStr "middle") /\
  key_signal "bb_squeeze" (Samples.analysis_of Series.settled) =
    Some (JStr "YES").
Proof.
  destruct (flat_window_bollinger
              (Samples.always (Samples.daily_payload
                                 (Samples.bars_of Series.settled)))
              tt "tsla" "200d" (Samples.bars_of Series.settled) 100.1)
    as (Hsma & Hstd & Hlevel & Hpos & Hsqueeze).
  - apply always_delivers.
  - apply Nat.leb_le. reflexivity.
  - reflexivity.
  - reflexivity.
  - split; [exact Hsma |]. split; [exact Hstd |]. split; [exact Hlevel |].
    split; [exact Hpos |]. apply Hsqueeze; reflexivity.
Defined.
